(** * VoiceInvoice: record model, reconciliation (autofill) and JSON extraction

    A shallow embedding of [backend/models.py], [backend/config.py],
    [backend/core/utils.py] and the JSON-sniffing step of
    [backend/services/llm_service.py], followed by the properties of the
    invoice pipeline.

    Conventions of the embedding:
    - a Python [float] is a binary64 value ([PrimFloat.float]);
    - a Python [str] is a [string] of ASCII text (one [ascii] per character);
    - an attribute that may hold [None] is an [option];
    - an exception is a value of [exn], carried by [result]. *)

From Stdlib Require Import ZArith Floats String Ascii List Bool Lia.
From stdpp Require Import base option list gmap.
Import ListNotations.

Set Warnings "-inexact-float,-register-all".

Local Open Scope string_scope.
Local Open Scope Z_scope.

(* ===================================================================== *)
(** ** Python floats *)
(* ===================================================================== *)

Module PyFloat.

Definition prec : Z := 53.
Definition emax : Z := 1024.

(** Nearest integer to [a / b] for [0 <= a] and [0 < b], ties to even. *)
Definition div_half_even (a b : Z) : Z :=
  let q := a / b in
  let r := a mod b in
  match 2 * r ?= b with
  | Lt => q
  | Gt => q + 1
  | Eq => if Z.even q then q else q + 1
  end.

(** The binary64 value nearest to [n / 100] (ties to even), with sign [s];
    this is what [strtod] returns on the decimal string of [n / 100]. *)
Definition of_hundredths (s : bool) (n : Z) : spec_float :=
  match n with
  | Z0 => S754_zero s
  | _ =>
      let '(q, e, loc) := SFdiv_core_binary prec emax n 0 100 0 in
      binary_round_aux prec emax s q e loc
  end.

(** [round(x, 2)] on a float: CPython prints [x] with two digits after the
    point, correctly rounded (half to even on the exact binary value), and
    reads the decimal string back.  Zeros, infinities and NaN round to
    themselves, and so does every float that is already an integer. *)
Definition round2 (x : float) : float :=
  match Prim2SF x with
  | S754_finite s m e =>
      if (0 <=? e)%Z then x
      else SF2Prim (of_hundredths s (div_half_even (Z.pos m * 100) (2 ^ (- e))))
  | _ => x
  end.

(** [bool(x)] for a float: false exactly for [0.0] and [-0.0]. *)
Definition truthy (x : float) : bool := negb (PrimFloat.eqb x 0%float).

(** [sum(xs)] over floats: Python starts from the integer [0] and adds from
    left to right.  (The compensated summation of recent CPython releases
    is not modelled.) *)
Definition fsum (xs : list float) : float :=
  fold_left PrimFloat.add xs 0%float.

End PyFloat.

(* ===================================================================== *)
(** ** Python strings *)
(* ===================================================================== *)

Module PyStr.

Definition code (c : ascii) : N := N_of_ascii c.

(** [str.isspace] on one ASCII character: TAB..CR, FS..US and SPACE. *)
Definition is_space (c : ascii) : bool :=
  let n := code c in
  ((9 <=? n) && (n <=? 13) || (28 <=? n) && (n <=? 32))%N.

Definition is_upper (c : ascii) : bool :=
  let n := code c in ((65 <=? n) && (n <=? 90))%N.

Definition lower_char (c : ascii) : ascii :=
  if is_upper c then ascii_of_N (code c + 32) else c.

(** [s.lower()] *)
Fixpoint lower (s : string) : string :=
  match s with
  | EmptyString => EmptyString
  | String c s' => String (lower_char c) (lower s')
  end.

(** [s.lstrip()] *)
Fixpoint lstrip (s : string) : string :=
  match s with
  | EmptyString => EmptyString
  | String c s' => if is_space c then lstrip s' else s
  end.

(** [s.rstrip()] *)
Fixpoint rstrip (s : string) : string :=
  match s with
  | EmptyString => EmptyString
  | String c s' =>
      match rstrip s' with
      | EmptyString => if is_space c then EmptyString else String c EmptyString
      | t => String c t
      end
  end.

(** [s.strip()] *)
Definition strip (s : string) : string := rstrip (lstrip s).

Fixpoint starts_with (p s : string) : bool :=
  match p, s with
  | EmptyString, _ => true
  | String a p', String b s' => Ascii.eqb a b && starts_with p' s'
  | String _ _, EmptyString => false
  end.

(** [needle in hay] *)
Fixpoint contains (needle hay : string) : bool :=
  starts_with needle hay ||
  match hay with
  | EmptyString => false
  | String _ hay' => contains needle hay'
  end.

(** [bool(s)] for an attribute holding a [str] or [None]. *)
Definition truthy (s : option string) : bool :=
  match s with
  | Some (String _ _) => true
  | _ => false
  end.

(** [c in s] for a single character [c]. *)
Fixpoint has_char (c : ascii) (s : string) : bool :=
  match s with
  | EmptyString => false
  | String a s' => Ascii.eqb a c || has_char c s'
  end.

(** Every character of [s] is white space ([s] may be empty). *)
Fixpoint all_space (s : string) : bool :=
  match s with
  | EmptyString => true
  | String a s' => is_space a && all_space s'
  end.

End PyStr.

(* ===================================================================== *)
(** ** Exceptions *)
(* ===================================================================== *)

(** One entry of a pydantic [ValidationError]: where and what. *)
Inductive loc_elem : Type :=
| LField (name : string)
| LIndex (i : nat).

Inductive error_kind : Type :=
| missing
| greater_than
| greater_than_equal
| less_than_equal.

Definition error_detail : Type := (list loc_elem * error_kind)%type.

Inductive exn : Type :=
| ValueError (msg : string)
| OverflowError (msg : string)
| ValidationError (errors : list error_detail).

Inductive result (A : Type) : Type :=
| Return (a : A)
| Raise (e : exn).
Arguments Return {A} a.
Arguments Raise {A} e.

Definition bind {A B : Type} (m : result A) (k : A -> result B) : result B :=
  match m with
  | Return a => k a
  | Raise e => Raise e
  end.

(* ===================================================================== *)
(** ** Dates: [datetime.strptime], [timedelta], [strftime] *)
(* ===================================================================== *)

Module PyDate.

Record date : Type := Date { year : Z; month : Z; day : Z }.

Definition MINYEAR : Z := 1.
Definition MAXYEAR : Z := 9999.

Definition is_leap (y : Z) : bool :=
  (y mod 4 =? 0) && (negb (y mod 100 =? 0) || (y mod 400 =? 0)).

Definition days_in_month (y m : Z) : Z :=
  if m =? 2 then (if is_leap y then 29 else 28)
  else if (m =? 4) || (m =? 6) || (m =? 9) || (m =? 11) then 30
  else 31.

(** The checks of the [date] constructor. *)
Definition valid (d : date) : bool :=
  (MINYEAR <=? year d) && (year d <=? MAXYEAR) &&
  (1 <=? month d) && (month d <=? 12) &&
  (1 <=? day d) && (day d <=? days_in_month (year d) (month d)).

Definition days_before_year (y : Z) : Z :=
  let y1 := y - 1 in y1 * 365 + y1 / 4 - y1 / 100 + y1 / 400.

(** Days of year [y] before the first of month [m]. *)
Fixpoint days_before_month_aux (y : Z) (k : nat) : Z :=
  match k with
  | O => 0
  | S k' => days_before_month_aux y k' + days_in_month y (Z.of_nat k)
  end.

Definition days_before_month (y m : Z) : Z :=
  days_before_month_aux y (Z.to_nat (m - 1)).

(** [date.toordinal()]: 0001-01-01 is day 1. *)
Definition toordinal (d : date) : Z :=
  days_before_year (year d) + days_before_month (year d) (month d) + day d.

Definition max_ordinal : Z := 3652059.

(** First month [m >= k] (at most [fuel] steps) that holds day-of-year
    offset [n] (0-based), with the day inside it. *)
Fixpoint month_of (y : Z) (fuel : nat) (k n : Z) : Z * Z :=
  match fuel with
  | O => (k, n + 1)
  | S fuel' =>
      let dim := days_in_month y k in
      if n <? dim then (k, n + 1) else month_of y fuel' (k + 1) (n - dim)
  end.

(** [date.fromordinal(n)] for [1 <= n <= max_ordinal], after CPython's
    [_ord2ymd]: 400-, 100-, 4- and 1-year cycles. *)
Definition fromordinal (n : Z) : date :=
  let n0 := n - 1 in
  let n400 := n0 / 146097 in
  let r400 := n0 mod 146097 in
  let n100 := r400 / 36524 in
  let r100 := r400 mod 36524 in
  let n4 := r100 / 1461 in
  let r4 := r100 mod 1461 in
  let n1 := r4 / 365 in
  let r1 := r4 mod 365 in
  let y := n400 * 400 + 1 + n100 * 100 + n4 * 4 + n1 in
  if (n1 =? 4) || (n100 =? 4) then Date (y - 1) 12 31
  else let '(m, d) := month_of y 11 1 r1 in Date y m d.

(** [d + timedelta(days=k)]: [None] stands for the [OverflowError]
    ("date value out of range") raised outside years 1..9999. *)
Definition add_days (d : date) (k : Z) : option date :=
  let n := toordinal d + k in
  if (1 <=? n) && (n <=? max_ordinal) then Some (fromordinal n) else None.

Definition is_digit (c : ascii) : bool :=
  let n := N_of_ascii c in ((48 <=? n) && (n <=? 57))%N.

Definition digit_val (c : ascii) : Z := Z.of_N (N_of_ascii c) - 48.

Definition in_range (lo hi : Z) (c : ascii) : bool :=
  is_digit c && (lo <=? digit_val c) && (digit_val c <=? hi).

(** The ways the regex of [%m], [1[0-2]|0[1-9]|[1-9]], matches a prefix
    of [s], in the order the regex engine tries them: value and rest. *)
Definition month_alts (s : string) : list (Z * string) :=
  match s with
  | String a (String b t) =>
      (if Ascii.eqb a "1" && in_range 0 2 b then [(10 + digit_val b, t)] else []) ++
      (if Ascii.eqb a "0" && in_range 1 9 b then [(digit_val b, t)] else []) ++
      (if in_range 1 9 a then [(digit_val a, String b t)] else [])
  | String a EmptyString =>
      if in_range 1 9 a then [(digit_val a, EmptyString)] else []
  | EmptyString => []
  end.

(** The same for [%d]: [3[0-1]|[1-2]\d|0[1-9]|[1-9]| [1-9]]. *)
Definition day_alts (s : string) : list (Z * string) :=
  match s with
  | String a (String b t) =>
      (if Ascii.eqb a "3" && in_range 0 1 b then [(30 + digit_val b, t)] else []) ++
      (if in_range 1 2 a && is_digit b then [(10 * digit_val a + digit_val b, t)] else []) ++
      (if Ascii.eqb a "0" && in_range 1 9 b then [(digit_val b, t)] else []) ++
      (if in_range 1 9 a then [(digit_val a, String b t)] else []) ++
      (if Ascii.eqb a " " && in_range 1 9 b then [(digit_val b, t)] else [])
  | String a EmptyString =>
      if in_range 1 9 a then [(digit_val a, EmptyString)] else []
  | EmptyString => []
  end.

(** [%Y]: exactly four digits. *)
Definition year_alts (s : string) : list (Z * string) :=
  match s with
  | String a (String b (String c (String d t))) =>
      if is_digit a && is_digit b && is_digit c && is_digit d
      then [(1000 * digit_val a + 100 * digit_val b + 10 * digit_val c + digit_val d, t)]
      else []
  | _ => []
  end.

Definition dash (s : string) : list string :=
  match s with
  | String "-" t => [t]
  | _ => []
  end.

(** All matches of the regex built for ["%Y-%m-%d"] at the start of [s],
    in backtracking order: the fields and the unconsumed rest. *)
Definition regex_matches (s : string) : list (date * string) :=
  '(y, s1) ← year_alts s;
  s2 ← dash s1;
  '(m, s3) ← month_alts s2;
  s4 ← dash s3;
  '(d, s5) ← day_alts s4;
  [(Date y m d, s5)].

(** [datetime.strptime(s, "%Y-%m-%d")]: [None] stands for [ValueError]
    (no match, unconverted data remains, or a day that does not exist). *)
Definition strptime (s : string) : option date :=
  match regex_matches s with
  | (d, EmptyString) :: _ => if valid d then Some d else None
  | _ => None
  end.

Definition digit_char (n : Z) : ascii := ascii_of_N (Z.to_N (n mod 10) + 48).

Definition pad2 (n : Z) : string :=
  String (digit_char (n / 10)) (String (digit_char n) EmptyString).

Definition pad4 (n : Z) : string :=
  String (digit_char (n / 1000)) (String (digit_char (n / 100)) (pad2 n)).

(** [d.strftime("%Y-%m-%d")], the year zero-padded to four digits. *)
Definition strftime (d : date) : string :=
  (pad4 (year d) ++ "-" ++ pad2 (month d) ++ "-" ++ pad2 (day d))%string.

End PyDate.

(* ===================================================================== *)
(** ** [backend/config.py]: the lookup tables *)
(* ===================================================================== *)

(** An entry of [user_db]; a key the dictionary lacks is [None], which is
    what [dict.get] returns for it. *)
Record ClientInfo : Type := mkClientInfo {
  ci_name : option string;
  ci_address : option string;
  ci_email : option string;
  ci_default_tax_rate : option float
}.

(** An entry of [item_db]. *)
Record ItemInfo : Type := mkItemInfo {
  ii_description : option string;
  ii_unit_price : option float
}.

(** A dictionary with string keys, in insertion order. *)
Definition table (V : Type) : Type := list (string * V).

(** [key in d] and [d[key]] *)
Fixpoint table_get {V : Type} (d : table V) (key : string) : option V :=
  match d with
  | [] => None
  | (k, v) :: d' => if String.eqb k key then Some v else table_get d' key
  end.

Module Config.

Definition user_db : table ClientInfo :=
  [ ("john doe",
     mkClientInfo (Some "John Doe") (Some "123 Elm St, Springfield, IL")
                  (Some "john.doe@example.com") (Some 0.07%float));
    ("acme corp",
     mkClientInfo (Some "ACME Corporation") (Some "456 Oak Ave, Metropolis, NY")
                  (Some "info@acmecorp.com") (Some 0.09%float)) ].

Definition item_db : table ItemInfo :=
  [ ("laptop", mkItemInfo (Some "Laptop Computer") (Some 1200%float));
    ("keyboard", mkItemInfo (Some "Mechanical Keyboard") (Some 75%float));
    ("mouse", mkItemInfo (Some "Wireless Mouse") (Some 25%float));
    ("software license", mkItemInfo (Some "Software License (Annual)") (Some 300%float));
    ("consulting services", mkItemInfo (Some "Consulting Services (Hourly)") (Some 150%float));
    ("web development", mkItemInfo (Some "Web Development Services") (Some 100%float));
    ("graphic design", mkItemInfo (Some "Graphic Design Services") (Some 80%float)) ].

End Config.

(* ===================================================================== *)
(** ** [backend/models.py]: the record model *)
(* ===================================================================== *)

(** An [InvoiceItem] object.  The declared types make [description],
    [quantity] and [unit_price] mandatory at construction, but attributes
    are assignable afterwards and [autofill_invoice_data] tests each of
    them against [None], so the object state lets any of them be [None]. *)
Record InvoiceItem : Type := mkItem {
  description : option string;
  quantity : option float;
  unit_price : option float;
  total : option float
}.

(** The attributes of an [InvoiceData] object.  [I] is what the [items]
    attribute holds: the items themselves when the record is read as a
    value ([InvoiceData]), references to item objects when it lives in the
    object store (see [Store]). *)
Record InvoiceRec (I : Type) : Type := mkInvoice {
  client_name : option string;
  client_address : option string;
  invoice_number : option string;
  invoice_date : option string;
  due_date : option string;
  items : I;
  subtotal : option float;
  tax_rate : option float;
  tax_amount : option float;
  grand_total : option float;
  notes : option string
}.
Arguments mkInvoice {I}.
Arguments client_name {I} _.
Arguments client_address {I} _.
Arguments invoice_number {I} _.
Arguments invoice_date {I} _.
Arguments due_date {I} _.
Arguments items {I} _.
Arguments subtotal {I} _.
Arguments tax_rate {I} _.
Arguments tax_amount {I} _.
Arguments grand_total {I} _.
Arguments notes {I} _.

Definition InvoiceData : Type := InvoiceRec (list InvoiceItem).

Definition set_unit_price (it : InvoiceItem) (v : option float) : InvoiceItem :=
  mkItem (description it) (quantity it) v (total it).

Definition set_total (it : InvoiceItem) (v : option float) : InvoiceItem :=
  mkItem (description it) (quantity it) (unit_price it) v.

Definition set_client_address {I} (r : InvoiceRec I) (v : option string) : InvoiceRec I :=
  mkInvoice (client_name r) v (invoice_number r) (invoice_date r) (due_date r)
            (items r) (subtotal r) (tax_rate r) (tax_amount r) (grand_total r) (notes r).

Definition set_tax_rate {I} (r : InvoiceRec I) (v : option float) : InvoiceRec I :=
  mkInvoice (client_name r) (client_address r) (invoice_number r) (invoice_date r)
            (due_date r) (items r) (subtotal r) v (tax_amount r) (grand_total r) (notes r).

Definition set_items {I J} (r : InvoiceRec I) (v : J) : InvoiceRec J :=
  mkInvoice (client_name r) (client_address r) (invoice_number r) (invoice_date r)
            (due_date r) v (subtotal r) (tax_rate r) (tax_amount r) (grand_total r) (notes r).

Definition set_invoice_date {I} (r : InvoiceRec I) (v : option string) : InvoiceRec I :=
  mkInvoice (client_name r) (client_address r) (invoice_number r) v (due_date r)
            (items r) (subtotal r) (tax_rate r) (tax_amount r) (grand_total r) (notes r).

Definition set_due_date {I} (r : InvoiceRec I) (v : option string) : InvoiceRec I :=
  mkInvoice (client_name r) (client_address r) (invoice_number r) (invoice_date r) v
            (items r) (subtotal r) (tax_rate r) (tax_amount r) (grand_total r) (notes r).

(** The three derived amounts, assigned together. *)
Definition set_amounts {I} (r : InvoiceRec I) (s t g : option float) : InvoiceRec I :=
  mkInvoice (client_name r) (client_address r) (invoice_number r) (invoice_date r)
            (due_date r) (items r) s (tax_rate r) t g (notes r).

(** [sum(item.total for item in items if item.total is not None)] *)
Definition sum_totals (its : list InvoiceItem) : float :=
  PyFloat.fsum (omap total its).

(** [tax_rate if tax_rate is not None else 0.0] *)
Definition effective_tax_rate {I} (r : InvoiceRec I) : float :=
  match tax_rate r with
  | Some t => t
  | None => 0%float
  end.

(** [subtotal], [tax_amount] and [grand_total] from the items and the rate,
    the three assignments that both [InvoiceData.model_post_init] and
    [autofill_invoice_data] end their monetary part with. *)
Definition with_amounts {I} (r : InvoiceRec I) (s : float) : InvoiceRec I :=
  let t := PyFloat.round2 (s * effective_tax_rate r)%float in
  let g := PyFloat.round2 (s + t)%float in
  set_amounts r (Some s) (Some t) (Some g).

Module Models.

(** The keyword arguments (or decoded JSON object) an [InvoiceItem] is
    built from, after type coercion: [None] is a key that is absent. *)
Record ItemPayload : Type := mkItemPayload {
  p_description : option string;
  p_quantity : option float;
  p_unit_price : option float;
  p_total : option float
}.

(** The same for [InvoiceData].  [tax_rate] has a default other than
    [None], so an absent key ([None]) differs from an explicit null
    ([Some None]). *)
Record InvoicePayload : Type := mkInvoicePayload {
  p_client_name : option string;
  p_client_address : option string;
  p_invoice_number : option string;
  p_invoice_date : option string;
  p_due_date : option string;
  p_items : list ItemPayload;
  p_subtotal : option float;
  p_tax_rate : option (option float);
  p_tax_amount : option float;
  p_grand_total : option float;
  p_notes : option string
}.

(** A required field ([Field(...)]). *)
Definition required {A : Type} (name : string) (v : option A) : list error_detail :=
  match v with
  | None => [([LField name], missing)]
  | Some _ => []
  end.

(** [gt=0] on a required float. *)
Definition required_gt0 (name : string) (v : option float) : list error_detail :=
  match v with
  | None => [([LField name], missing)]
  | Some x => if PrimFloat.ltb 0%float x then [] else [([LField name], greater_than)]
  end.

(** A required float with [gt=0] is acceptable. *)
Definition field_ok (v : option float) : bool :=
  match v with
  | Some x => PrimFloat.ltb 0%float x
  | None => false
  end.

(** The errors of one item, in field order. *)
Definition item_errors (p : ItemPayload) : list error_detail :=
  required "description" (p_description p) ++
  required_gt0 "quantity" (p_quantity p) ++
  required_gt0 "unit_price" (p_unit_price p).

(** [InvoiceItem.model_post_init] *)
Definition item_post_init (it : InvoiceItem) : InvoiceItem :=
  match total it, quantity it, unit_price it with
  | None, Some q, Some p => set_total it (Some (PyFloat.round2 (q * p)%float))
  | _, _, _ => it
  end.

Definition item_of_payload (p : ItemPayload) : InvoiceItem :=
  mkItem (p_description p) (p_quantity p) (p_unit_price p) (p_total p).

(** Constructing [InvoiceItem] from a payload: every field is validated, all errors are
    collected, then the post-init hook runs. *)
Definition construct_item (p : ItemPayload) : result InvoiceItem :=
  match item_errors p with
  | [] => Return (item_post_init (item_of_payload p))
  | errs => Raise (ValidationError errs)
  end.

(** [ge=0, le=1] on [tax_rate]; an explicit null is accepted
    ([Optional]), the default is not validated. *)
Definition tax_rate_errors (v : option (option float)) : list error_detail :=
  match v with
  | Some (Some x) =>
      if negb (PrimFloat.leb x 1%float) then [([LField "tax_rate"], less_than_equal)]
      else if negb (PrimFloat.leb 0%float x) then [([LField "tax_rate"], greater_than_equal)]
      else []
  | _ => []
  end.

Definition at_index (i : nat) (errs : list error_detail) : list error_detail :=
  map (fun e => (LField "items" :: LIndex i :: fst e, snd e)) errs.

(** The errors of the items, each located at [("items", i, field)]. *)
Fixpoint items_errors (i : nat) (ps : list ItemPayload) : list error_detail :=
  match ps with
  | [] => []
  | p :: ps' => at_index i (item_errors p) ++ items_errors (S i) ps'
  end.

Definition invoice_errors (p : InvoicePayload) : list error_detail :=
  items_errors 0 (p_items p) ++ tax_rate_errors (p_tax_rate p).

Definition default_tax_rate : float := 0.08%float.

Definition invoice_of_payload (p : InvoicePayload) : InvoiceData :=
  mkInvoice (I := list InvoiceItem)
            (p_client_name p) (p_client_address p) (p_invoice_number p)
            (p_invoice_date p) (p_due_date p)
            (map (fun q => item_post_init (item_of_payload q)) (p_items p))
            (p_subtotal p)
            (match p_tax_rate p with
             | None => Some default_tax_rate
             | Some v => v
             end)
            (p_tax_amount p) (p_grand_total p) (p_notes p).

(** [InvoiceData.model_post_init] *)
Definition invoice_post_init (r : InvoiceData) : InvoiceData :=
  let its := map item_post_init (items r) in
  let r1 := set_items r its in
  let s := match its with
           | [] => 0%float
           | _ => PyFloat.round2 (sum_totals its)
           end in
  with_amounts r1 s.

(** Constructing [InvoiceData] from a payload ([InvoiceData.model_validate]). *)
Definition construct_invoice (p : InvoicePayload) : result InvoiceData :=
  match invoice_errors p with
  | [] => Return (invoice_post_init (invoice_of_payload p))
  | errs => Raise (ValidationError errs)
  end.

End Models.

(* ===================================================================== *)
(** ** [backend/core/utils.py]: [autofill_invoice_data] *)
(* ===================================================================== *)

Module Utils.
Section Autofill.

(** The lookup tables imported from [backend.config] and the value of
    [datetime.now()] during the call. *)
Variable user_db : table ClientInfo.
Variable item_db : table ItemInfo.
Variable today : PyDate.date.

(** [tax_rate is None or tax_rate == 0.08] *)
Definition unset_or_default (t : option float) : bool :=
  match t with
  | None => true
  | Some x => PrimFloat.eqb x 0.08%float
  end.

(** [client_info.get("default_tax_rate", 0.08)] *)
Definition get_default_tax_rate (info : ClientInfo) : float :=
  match ci_default_tax_rate info with
  | Some t => t
  | None => 0.08%float
  end.

(** Lines 34-37: the entry of the client, if the name is set and its
    normalized form is a key of the table. *)
Definition lookup_client (name : option string) : option ClientInfo :=
  match name with
  | Some (String _ _ as n) => table_get user_db (PyStr.strip (PyStr.lower n))
  | _ => None
  end.

(** Lines 34-42: the client lookup. *)
Definition fill_client {I} (r : InvoiceRec I) : InvoiceRec I :=
  match lookup_client (client_name r) with
  | Some client_info =>
      let r1 := if negb (PyStr.truthy (client_address r))
                then set_client_address r (ci_address client_info)
                else r in
      if unset_or_default (tax_rate r1)
      then set_tax_rate r1 (Some (get_default_tax_rate client_info))
      else r1
  | None => r
  end.

(** Lines 48-52: the first entry of the table, in iteration order, whose
    key occurs in the normalized description. *)
Fixpoint scan (db : table ItemInfo) (normalized_description : string) : option ItemInfo :=
  match db with
  | [] => None
  | (db_item, db_info) :: db' =>
      if PyStr.contains db_item normalized_description then Some db_info
      else scan db' normalized_description
  end.

(** [not item.unit_price]: [None] or a zero. *)
Definition lacks_price (p : option float) : bool :=
  match p with
  | None => true
  | Some x => negb (PyFloat.truthy x)
  end.

(** Lines 46-52 *)
Definition fill_unit_price (item : InvoiceItem) : InvoiceItem :=
  match description item with
  | Some (String _ _ as d) =>
      if lacks_price (unit_price item) then
        match scan item_db (PyStr.strip (PyStr.lower d)) with
        | Some db_info => set_unit_price item (ii_unit_price db_info)
        | None => item
        end
      else item
  | _ => item
  end.

(** Lines 54-57 *)
Definition fill_total (item : InvoiceItem) : InvoiceItem :=
  match quantity item, unit_price item with
  | Some q, Some p => set_total item (Some (PyFloat.round2 (q * p)%float))
  | _, _ =>
      match total item with
      | None => set_total item (Some 0%float)
      | Some _ => item
      end
  end.

(** The body of the loop over the items. *)
Definition autofill_item (item : InvoiceItem) : InvoiceItem :=
  fill_total (fill_unit_price item).

(** The unit price the loop body leaves in an item, from its description
    and the price it had. *)
Definition price_after (d : option string) (p : option float) : option float :=
  match d with
  | Some (String _ _ as d') =>
      if lacks_price p then
        match scan item_db (PyStr.strip (PyStr.lower d')) with
        | Some db_info => ii_unit_price db_info
        | None => p
        end
      else p
  | _ => p
  end.

(** The total the loop body leaves in an item, from its quantity, its
    unit price and the total it had. *)
Definition total_after (q p t : option float) : option float :=
  match q, p with
  | Some q', Some p' => Some (PyFloat.round2 (q' * p')%float)
  | _, _ => match t with None => Some 0%float | Some _ => t end
  end.

(** Lines 66-67 *)
Definition fill_invoice_date {I} (r : InvoiceRec I) : InvoiceRec I :=
  if PyStr.truthy (invoice_date r) then r
  else set_invoice_date r (Some (PyDate.strftime today)).

Definition out_of_range : exn := OverflowError "date value out of range".

(** [(d + timedelta(days=30)).strftime("%Y-%m-%d")] *)
Definition plus_30_days (d : PyDate.date) : result string :=
  match PyDate.add_days d 30 with
  | Some d' => Return (PyDate.strftime d')
  | None => Raise out_of_range
  end.

(** Lines 68-74.  The handler catches [ValueError] and [TypeError] only:
    a failed parse falls back to the current date, while the
    [OverflowError] of the addition propagates. *)
Definition fill_due_date {I} (r : InvoiceRec I) : result (InvoiceRec I) :=
  if PyStr.truthy (due_date r) then Return r
  else
    match invoice_date r ≫= PyDate.strptime with
    | Some invoice_date_dt =>
        bind (plus_30_days invoice_date_dt) (fun s => Return (set_due_date r (Some s)))
    | None =>
        bind (plus_30_days today) (fun s => Return (set_due_date r (Some s)))
    end.

(** Lines 34-67: the record when the due date is about to be handled. *)
Definition priced (r : InvoiceData) : InvoiceData :=
  let r1 := fill_client r in
  let r2 := set_items r1 (map autofill_item (items r1)) in
  fill_invoice_date (with_amounts r2 (PyFloat.round2 (sum_totals (items r2)))).

(** [autofill_invoice_data], as a function from the argument's value to
    the returned value (or the exception raised). *)
Definition autofill_invoice_data (invoice_data : InvoiceData) : result InvoiceData :=
  let r1 := fill_client invoice_data in
  let r2 := set_items r1 (map autofill_item (items r1)) in
  let r3 := with_amounts r2 (PyFloat.round2 (sum_totals (items r2))) in
  fill_due_date (fill_invoice_date r3).

End Autofill.
End Utils.

(* ===================================================================== *)
(** ** The object store: [model_copy(deep=True)] and in-place updates *)
(* ===================================================================== *)

(** [autofill_invoice_data] works by mutation: it deep-copies its argument
    and assigns to the attributes of the copy and of the copy's items.
    This module keeps the Python objects in a store, so that sharing
    between the argument and the copy is visible. *)
Module Store.

Abbreviation loc := positive.

(** An [InvoiceItem] instance, or an [InvoiceData] instance whose
    [items] list holds references to item objects. *)
Inductive obj : Type :=
| ItemObj (it : InvoiceItem)
| InvoiceObj (r : InvoiceRec (list loc)).

Abbreviation store := (gmap loc obj).

Definition get_item (h : store) (l : loc) : option InvoiceItem :=
  match h !! l with
  | Some (ItemObj it) => Some it
  | _ => None
  end.

Definition get_invoice (h : store) (l : loc) : option (InvoiceRec (list loc)) :=
  match h !! l with
  | Some (InvoiceObj r) => Some r
  | _ => None
  end.

(** The value held at [l]: the record with its items read through. *)
Definition read_invoice (h : store) (l : loc) : option InvoiceData :=
  r ← get_invoice h l;
  its ← mapM (get_item h) (items r);
  Some (set_items r its).

(** A new object, at an address the store does not use. *)
Definition alloc (h : store) (o : obj) : loc * store :=
  let l := fresh (dom h) in (l, <[l := o]> h).

(** [copy.deepcopy] of the item list: [memo] maps the objects already
    copied to their copies, so an item referenced twice is copied once. *)
Fixpoint deepcopy_items (memo : gmap loc loc) (ls : list loc) (h : store)
  : option (list loc * store) :=
  match ls with
  | [] => Some ([], h)
  | l :: ls' =>
      match memo !! l with
      | Some c =>
          '(cs, h') ← deepcopy_items memo ls' h;
          Some (c :: cs, h')
      | None =>
          it ← get_item h l;
          let '(c, h1) := alloc h (ItemObj it) in
          '(cs, h') ← deepcopy_items (<[l := c]> memo) ls' h1;
          Some (c :: cs, h')
      end
  end.

(** [invoice_data.model_copy(deep=True)] *)
Definition model_copy_deep (l : loc) (h : store) : option (loc * store) :=
  r ← get_invoice h l;
  '(cs, h1) ← deepcopy_items ∅ (items r) h;
  Some (alloc h1 (InvoiceObj (set_items r cs))).

Section Autofill.

Variable user_db : table ClientInfo.
Variable item_db : table ItemInfo.
Variable today : PyDate.date.

(** The loop of lines 44-57: each referenced item object is updated in
    place. *)
Fixpoint autofill_items (ls : list loc) (h : store) : option store :=
  match ls with
  | [] => Some h
  | l :: ls' =>
      item ← get_item h l;
      autofill_items ls' (<[l := ItemObj (Utils.autofill_item item_db item)]> h)
  end.

(** [autofill_invoice_data] on the store: the argument is the object at
    [l]; the outcome is the address of the returned object, or the
    exception raised, with the store the call leaves behind.  [None]
    means the store is ill-formed (a dangling reference, or an object of
    the wrong class). *)
Definition autofill_invoice_data (l : loc) (h : store) : option (result loc * store) :=
  '(c, h1) ← model_copy_deep l h;
  r ← get_invoice h1 c;
  let r1 := Utils.fill_client user_db r in
  let h2 := <[c := InvoiceObj r1]> h1 in
  h3 ← autofill_items (items r1) h2;
  its ← mapM (get_item h3) (items r1);
  let r2 := Utils.fill_invoice_date today
              (with_amounts r1 (PyFloat.round2 (sum_totals its))) in
  let h4 := <[c := InvoiceObj r2]> h3 in
  match Utils.fill_due_date today r2 with
  | Return r3 => Some (Return c, <[c := InvoiceObj r3]> h4)
  | Raise e => Some (Raise e, h4)
  end.

End Autofill.
End Store.

(* ===================================================================== *)
(** ** [json.loads] *)
(* ===================================================================== *)

(** The decoder of the [json] module, as a one-pass automaton with a stack
    of open containers.  Numbers and strings are kept as written (escape
    sequences are checked, not decoded); [NaN], [Infinity] and [-Infinity]
    are accepted, as the decoder does by default. *)
Module Json.

Inductive json : Type :=
| JNull
| JBool (b : bool)
| JNumber (literal : string)
| JString (s : string)
| JArray (elements : list json)
| JObject (members : list (string * json)).

(** An open container: the members read so far, last first; an object
    also holds the key whose value is awaited. *)
Inductive frame : Type :=
| FArray (done : list json)
| FObject (done : list (string * json)) (key : option string).

Inductive num_state : Type :=
| NMinus | NZero | NInt | NDot | NFrac | NE | NESign | NExp.

Inductive mode : Type :=
| Value (first : bool)   (* a value; [first]: right after '[' *)
| Key (first : bool)     (* a member name; [first]: right after '{' *)
| Colon
| After                  (* after a value: ',' or a closing bracket *)
| Str (is_key : bool) (acc : string)
| Esc (is_key : bool) (acc : string)
| Uni (k : nat) (is_key : bool) (acc : string)
| Num (st : num_state) (acc : string)
| Lit (rest : string) (v : json).

Record state : Type := mkState {
  stack : list frame;
  cur : mode;
  top : option json
}.

Definition initial : state := mkState [] (Value false) None.

(** The double quote. *)
Definition dquote : ascii := "034"%char.

Definition is_ws (c : ascii) : bool :=
  Ascii.eqb c " " || Ascii.eqb c "009" || Ascii.eqb c "010" || Ascii.eqb c "013".

Definition is_hex (c : ascii) : bool :=
  let n := N_of_ascii c in
  ((48 <=? n) && (n <=? 57) || (65 <=? n) && (n <=? 70) || (97 <=? n) && (n <=? 102))%N.

Definition is_control (c : ascii) : bool := (N_of_ascii c <? 32)%N.

(** [acc] with [c] appended. *)
Definition snoc (acc : string) (c : ascii) : string :=
  (acc ++ String c EmptyString)%string.

(** A complete value goes to the innermost open container, or is the
    result when none is open. *)
Definition push_value (st : list frame) (v : json) : option state :=
  match st with
  | [] => Some (mkState [] After (Some v))
  | FArray done :: st' => Some (mkState (FArray (v :: done) :: st') After None)
  | FObject done (Some k) :: st' =>
      Some (mkState (FObject ((k, v) :: done) None :: st') After None)
  | FObject _ None :: _ => None
  end.

Definition close_array (st : list frame) : option state :=
  match st with
  | FArray done :: st' => push_value st' (JArray (rev done))
  | _ => None
  end.

Definition close_object (st : list frame) : option state :=
  match st with
  | FObject done None :: st' => push_value st' (JObject (rev done))
  | _ => None
  end.

Definition set_key (st : list frame) (k : string) : option state :=
  match st with
  | FObject done None :: st' => Some (mkState (FObject done (Some k) :: st') Colon None)
  | _ => None
  end.

(** A number may end in these states. *)
Definition num_final (n : num_state) : bool :=
  match n with
  | NZero | NInt | NFrac | NExp => true
  | _ => false
  end.

Definition num_step (n : num_state) (c : ascii) : option num_state :=
  let d := PyDate.is_digit c in
  match n with
  | NMinus => if Ascii.eqb c "0" then Some NZero else if d then Some NInt else None
  | NZero =>
      if Ascii.eqb c "." then Some NDot
      else if Ascii.eqb c "e" || Ascii.eqb c "E" then Some NE else None
  | NInt =>
      if d then Some NInt
      else if Ascii.eqb c "." then Some NDot
      else if Ascii.eqb c "e" || Ascii.eqb c "E" then Some NE else None
  | NDot => if d then Some NFrac else None
  | NFrac =>
      if d then Some NFrac
      else if Ascii.eqb c "e" || Ascii.eqb c "E" then Some NE else None
  | NE =>
      if d then Some NExp
      else if Ascii.eqb c "+" || Ascii.eqb c "-" then Some NESign else None
  | NESign => if d then Some NExp else None
  | NExp => if d then Some NExp else None
  end.

(** The character [c] where a value must start. *)
Definition step_value (st : list frame) (first : bool) (c : ascii) : option state :=
  if is_ws c then Some (mkState st (Value first) None)
  else if Ascii.eqb c dquote then Some (mkState st (Str false EmptyString) None)
  else if Ascii.eqb c "{" then Some (mkState (FObject [] None :: st) (Key true) None)
  else if Ascii.eqb c "[" then Some (mkState (FArray [] :: st) (Value true) None)
  else if Ascii.eqb c "]" then (if first then close_array st else None)
  else if Ascii.eqb c "n" then Some (mkState st (Lit "ull" JNull) None)
  else if Ascii.eqb c "t" then Some (mkState st (Lit "rue" (JBool true)) None)
  else if Ascii.eqb c "f" then Some (mkState st (Lit "alse" (JBool false)) None)
  else if Ascii.eqb c "N" then Some (mkState st (Lit "aN" (JNumber "NaN")) None)
  else if Ascii.eqb c "I" then Some (mkState st (Lit "nfinity" (JNumber "Infinity")) None)
  else if Ascii.eqb c "-" then Some (mkState st (Num NMinus "-") None)
  else if Ascii.eqb c "0" then Some (mkState st (Num NZero "0") None)
  else if PyDate.is_digit c then Some (mkState st (Num NInt (String c EmptyString)) None)
  else None.

(** The character [c] after a complete value. *)
Definition step_after (st : list frame) (t : option json) (c : ascii) : option state :=
  if is_ws c then Some (mkState st After t)
  else if Ascii.eqb c "," then
    match st with
    | FArray _ :: _ => Some (mkState st (Value false) None)
    | FObject _ None :: _ => Some (mkState st (Key false) None)
    | _ => None
    end
  else if Ascii.eqb c "]" then close_array st
  else if Ascii.eqb c "}" then close_object st
  else None.

Definition step (s : state) (c : ascii) : option state :=
  let st := stack s in
  match cur s with
  | Value first => step_value st first c
  | Key first =>
      if is_ws c then Some (mkState st (Key first) None)
      else if Ascii.eqb c dquote then Some (mkState st (Str true EmptyString) None)
      else if Ascii.eqb c "}" then (if first then close_object st else None)
      else None
  | Colon =>
      if is_ws c then Some (mkState st Colon None)
      else if Ascii.eqb c ":" then Some (mkState st (Value false) None)
      else None
  | After => step_after st (top s) c
  | Str is_key acc =>
      if Ascii.eqb c dquote then
        (if is_key then set_key st acc else push_value st (JString acc))
      else if Ascii.eqb c "\" then Some (mkState st (Esc is_key (snoc acc c)) None)
      else if is_control c then None
      else Some (mkState st (Str is_key (snoc acc c)) None)
  | Esc is_key acc =>
      if Ascii.eqb c "u" then Some (mkState st (Uni 4 is_key (snoc acc c)) None)
      else if PyStr.contains (String c EmptyString) (String dquote "\/bfnrt")
      then Some (mkState st (Str is_key (snoc acc c)) None)
      else None
  | Uni k is_key acc =>
      if is_hex c then
        match k with
        | S (S k') => Some (mkState st (Uni (S k') is_key (snoc acc c)) None)
        | _ => Some (mkState st (Str is_key (snoc acc c)) None)
        end
      else None
  | Num n acc =>
      match num_step n c with
      | Some n' => Some (mkState st (Num n' (snoc acc c)) None)
      | None =>
          if Ascii.eqb c "I" && String.eqb acc "-"
          then Some (mkState st (Lit "nfinity" (JNumber "-Infinity")) None)
          else if num_final n
          then s' ← push_value st (JNumber acc); step_after (stack s') (top s') c
          else None
      end
  | Lit rest v =>
      match rest with
      | String x rest' =>
          if Ascii.eqb c x then
            match rest' with
            | EmptyString => push_value st v
            | _ => Some (mkState st (Lit rest' v) None)
            end
          else None
      | EmptyString => None
      end
  end.

Fixpoint run (s : state) (text : string) : option state :=
  match text with
  | EmptyString => Some s
  | String c text' => s' ← step s c; run s' text'
  end.

(** The value at the end of the input, if the document is complete. *)
Definition finish (s : state) : option json :=
  match stack s, cur s with
  | [], After => top s
  | [], Num n acc => if num_final n then Some (JNumber acc) else None
  | _, _ => None
  end.

(** [json.loads(text)]: [None] stands for [JSONDecodeError]. *)
Definition loads (text : string) : option json :=
  run initial text ≫= finish.

End Json.

(* ===================================================================== *)
(** ** [backend/services/llm_service.py]: locating and decoding the JSON *)
(* ===================================================================== *)

Module LlmService.

(** The longest prefix of [t] that ends in a closing brace after which
    [follows] holds: what the greedy [.*\}] of both patterns consumes. *)
Fixpoint greedy_close (follows : string -> bool) (t : string) : option string :=
  match t with
  | EmptyString => None
  | String c t' =>
      match greedy_close follows t' with
      | Some g => Some (String c g)
      | None =>
          if Ascii.eqb c "}" && follows t' then Some (String c EmptyString) else None
      end
  end.

(** The pattern continues with [\s*```]. *)
Definition fence_follows (t : string) : bool :=
  PyStr.starts_with "```" (PyStr.lstrip t).

Fixpoint drop (n : nat) (s : string) : string :=
  match n, s with
  | S n', String _ s' => drop n' s'
  | _, _ => s
  end.

(** Group 1 of [```json\s*(\{.*\})\s*```] matched at the start of [s]. *)
Definition match_fenced (s : string) : option string :=
  if PyStr.starts_with "```json" s then
    match PyStr.lstrip (drop 7 s) with
    | String "{" t => String "{" <$> greedy_close fence_follows t
    | _ => None
    end
  else None.

(** Group 1 of [(\{.*\})] matched at the start of [s]. *)
Definition match_braces (s : string) : option string :=
  match s with
  | String "{" t => String "{" <$> greedy_close (fun _ => true) t
  | _ => None
  end.

(** [re.search]: the match at the leftmost position that has one. *)
Fixpoint search (match_at : string -> option string) (s : string) : option string :=
  match match_at s with
  | Some g => Some g
  | None =>
      match s with
      | EmptyString => None
      | String _ s' => search match_at s'
      end
  end.

(** Lines 167-175: [json_match.group(1)], or [None] when neither
    pattern matches. *)
Definition extract_json_str (llm_raw_output : string) : option string :=
  match search match_fenced llm_raw_output with
  | Some g => Some g
  | None => search match_braces llm_raw_output
  end.

Section Decode.

(** The text of the [JSONDecodeError] for an input the decoder rejects. *)
Variable decode_error_text : string -> string.

Definition no_json_message : string :=
  "Could not extract a valid JSON object from LLM output.".

Definition malformed_message (json_str : string) : string :=
  ("Failed to decode JSON from LLM output: " ++ decode_error_text json_str
    ++ ". Raw output: " ++ json_str)%string.

(** Lines 166-188 up to [json.loads]: the decoded object, or the
    [ValueError] raised. *)
Definition extract_json (llm_raw_output : string) : result Json.json :=
  match extract_json_str llm_raw_output with
  | None => Raise (ValueError no_json_message)
  | Some json_str =>
      match Json.loads json_str with
      | Some extracted_data => Return extracted_data
      | None => Raise (ValueError (malformed_message json_str))
      end
  end.

End Decode.
End LlmService.

(* ===================================================================== *)
(** ** The wording of the specification, for comparison *)
(* ===================================================================== *)

Module SpecWords.

(** The text up to the closing brace that matches an opening brace
    already read, [depth] further braces being open. *)
Fixpoint close_at (depth : nat) (s : string) : option string :=
  match s with
  | EmptyString => None
  | String c s' =>
      if Ascii.eqb c "{" then String c <$> close_at (S depth) s'
      else if Ascii.eqb c "}" then
        match depth with
        | O => Some (String c EmptyString)
        | S d => String c <$> close_at d s'
        end
      else String c <$> close_at depth s'
  end.

Definition balanced_at (s : string) : option string :=
  match s with
  | String "{" t => String "{" <$> close_at 0 t
  | _ => None
  end.

(** "The outermost balanced [{...}] span": the first opening brace that
    has a matching closing brace, up to that brace. *)
Definition outermost_balanced_span (s : string) : option string :=
  LlmService.search balanced_at s.

(** The data model, section 3: "LineItem: description (non-empty text),
    quantity (> 0), unit_price (> 0)". *)
Definition line_item_fields : list string := ["description"; "quantity"; "unit_price"].

Definition non_empty_text (v : option string) : bool :=
  match v with
  | Some (String _ _) => true
  | _ => false
  end.

Definition strictly_positive (v : option float) : bool :=
  match v with
  | Some x => PrimFloat.ltb 0%float x
  | None => false
  end.

Definition line_item_constraint (p : Models.ItemPayload) (field : string) : bool :=
  if String.eqb field "description" then non_empty_text (Models.p_description p)
  else if String.eqb field "quantity" then strictly_positive (Models.p_quantity p)
  else if String.eqb field "unit_price" then strictly_positive (Models.p_unit_price p)
  else true.

(** "tax_rate (fraction in [0,1], default 0.08)", unset being allowed
    ("tax_rate treated as 0 if unset"). *)
Definition tax_rate_constraint (v : option (option float)) : bool :=
  match v with
  | Some (Some x) => PrimFloat.leb 0%float x && PrimFloat.leb x 1%float
  | _ => true
  end.

End SpecWords.

(* ===================================================================== *)
(** ** Sample inputs *)
(* ===================================================================== *)

Module Examples.

Definition today : PyDate.date := PyDate.Date 2025 6 15.

(** The payload of the end-to-end example: one laptop for John Doe. *)
Definition laptop_payload : Models.InvoicePayload :=
  Models.mkInvoicePayload (Some "John Doe") None None None None
    [Models.mkItemPayload (Some "Laptop") (Some 1%float) (Some 1200%float) None]
    None None None None None.

(** An item without a unit price, as the reconciler may find it. *)
Definition keyboard_item : InvoiceItem :=
  mkItem (Some "Mechanical Keyboard Pro") (Some 2%float) None None.

Definition keyboard_invoice : InvoiceData :=
  mkInvoice None None None None None [keyboard_item] None (Some 0.08%float) None None None.

(** A rate of 5% given explicitly, for a client whose default is 9%. *)
Definition acme_invoice : InvoiceData :=
  mkInvoice (Some "ACME Corp") None None (Some "2025-06-01") None [] None
            (Some 0.05%float) None None None.

(** A well-formed payload whose invoice date is late in the year 9999. *)
Definition far_future_payload : Models.InvoicePayload :=
  Models.mkInvoicePayload (Some "John Doe") None None (Some "9999-12-15") None []
    None None None None None.

(** An item whose given total is not quantity times unit price. *)
Definition inconsistent_payload : Models.ItemPayload :=
  Models.mkItemPayload (Some "Mouse") (Some 2%float) (Some 25%float) (Some 99%float).

(** A well-formed payload whose line total exceeds the range of a
    float. *)
Definition huge_payload : Models.InvoicePayload :=
  Models.mkInvoicePayload None None None (Some "2025-06-01") (Some "2025-07-01")
    [Models.mkItemPayload (Some "Laptop") (Some 1e200%float) (Some 1e200%float) None]
    None None None None None.

(** An item whose description is the empty text. *)
Definition blank_description_payload : Models.ItemPayload :=
  Models.mkItemPayload (Some EmptyString) (Some 1%float) (Some 25%float) None.

Definition blank_description_invoice_payload : Models.InvoicePayload :=
  Models.mkInvoicePayload None None None (Some "2025-06-01") (Some "2025-07-01")
    [blank_description_payload] None None None None None.

(** The text [{"client_name": }]: a candidate that is not JSON. *)
Definition malformed_text : string :=
  String "{" (String Json.dquote ("client_name" ++ String Json.dquote ": }")).

(** The same item inside an invoice. *)
Definition inconsistent_invoice_payload : Models.InvoicePayload :=
  Models.mkInvoicePayload None None None (Some "2025-06-01") (Some "2025-07-01")
    [inconsistent_payload] None None None None None.

(** [laptop_payload] as constructed, and as reconciled on [today]. *)
Definition laptop_invoice : InvoiceData :=
  mkInvoice (Some "John Doe") None None None None
    [mkItem (Some "Laptop") (Some 1%float) (Some 1200%float) (Some 1200%float)]
    (Some 1200%float) (Some 0.08%float) (Some 96%float) (Some 1296%float) None.

Definition laptop_reconciled : InvoiceData :=
  mkInvoice (Some "John Doe") (Some "123 Elm St, Springfield, IL") None
    (Some "2025-06-15") (Some "2025-07-15")
    [mkItem (Some "Laptop") (Some 1%float) (Some 1200%float) (Some 1200%float)]
    (Some 1200%float) (Some 0.07%float) (Some 84%float) (Some 1284%float) None.

Definition keyboard_reconciled : InvoiceData :=
  mkInvoice None None None (Some "2025-06-15") (Some "2025-07-15")
    [mkItem (Some "Mechanical Keyboard Pro") (Some 2%float) (Some 75%float) (Some 150%float)]
    (Some 150%float) (Some 0.08%float) (Some 12%float) (Some 162%float) None.

Definition acme_reconciled : InvoiceData :=
  mkInvoice (Some "ACME Corp") (Some "456 Oak Ave, Metropolis, NY") None
    (Some "2025-06-01") (Some "2025-07-01") []
    (Some 0%float) (Some 0.05%float) (Some 0%float) (Some 0%float) None.

(** A store holding [keyboard_invoice]: the item at address 1, the
    invoice at address 2. *)
Definition sample_store : Store.store :=
  <[2%positive := Store.InvoiceObj (set_items keyboard_invoice [1%positive])]>
    (<[1%positive := Store.ItemObj keyboard_item]> ∅).

End Examples.

(* ===================================================================== *)
(** ** The constraints of the record model, on records *)
(* ===================================================================== *)

Module Validity.

(** The declared constraints hold of an item object: the three required
    fields are present, quantity and unit price are positive, and the
    total is set. *)
Definition valid_item (it : InvoiceItem) : bool :=
  match description it, total it with
  | Some _, Some _ => Models.field_ok (quantity it) && Models.field_ok (unit_price it)
  | _, _ => false
  end.

(** [ge=0, le=1], or unset. *)
Definition valid_tax_rate (t : option float) : bool :=
  match t with
  | Some x => PrimFloat.leb 0%float x && PrimFloat.leb x 1%float
  | None => true
  end.

Definition valid_record (r : InvoiceData) : bool :=
  forallb valid_item (items r) && valid_tax_rate (tax_rate r).

(** The default rates of a client table satisfy the constraint. *)
Definition valid_table (user_db : table ClientInfo) : bool :=
  forallb (fun e => valid_tax_rate (Some (Utils.get_default_tax_rate (snd e)))) user_db.

(** The string [autofill_invoice_data] parses when it computes a due
    date: the invoice date of the record, or the current date written in
    its place. *)
Definition effective_invoice_date (today : PyDate.date) (r : InvoiceData) : string :=
  match invoice_date r with
  | Some (String _ _ as s) => s
  | _ => PyDate.strftime today
  end.

End Validity.

(* ===================================================================== *)
(** ** Shapes of decoder states *)
(* ===================================================================== *)

Module JsonShape.
Import Json.

(** Every character of [s] is JSON white space. *)
Fixpoint all_ws (s : string) : bool :=
  match s with
  | EmptyString => true
  | String c s' => is_ws c && all_ws s'
  end.

(** The outermost open container is an object. *)
Definition bottom_is_object (st : list frame) : bool :=
  match last st with
  | Some (FObject _ _) => true
  | _ => false
  end.

(** The document being read is an object: it is still open, or it is
    complete and is the result. *)
Definition rooted (s : state) : Prop :=
  match stack s with
  | [] => cur s = After /\ exists ms, top s = Some (JObject ms)
  | _ => bottom_is_object (stack s) = true
  end.

End JsonShape.

(* ===================================================================== *)
(** ** [backend/services/pdf_service.py]: naming the invoice *)
(* ===================================================================== *)

(** Lines 28-38 of [generate_invoice_pdf]: the invoice number and the
    name of the stored object.  (The rendering of the document and the
    upload are outside this development.) *)
Module PdfService.

(** One reading of [datetime.now()]. *)
Record clock : Type := Clock {
  now_date : PyDate.date;
  now_hour : Z;
  now_minute : Z;
  now_second : Z
}.

(** [strftime('%Y%m%d')] *)
Definition compact_date (d : PyDate.date) : string :=
  (PyDate.pad4 (PyDate.year d) ++ PyDate.pad2 (PyDate.month d) ++ PyDate.pad2 (PyDate.day d))%string.

(** [strftime('%H%M%S')] *)
Definition compact_time (c : clock) : string :=
  (PyDate.pad2 (now_hour c) ++ PyDate.pad2 (now_minute c) ++ PyDate.pad2 (now_second c))%string.

(** [strftime('%Y%m%d%H%M%S')] *)
Definition timestamp (c : clock) : string :=
  (compact_date (now_date c) ++ compact_time c)%string.

(** [s.replace(c, '')] for a single character [c]. *)
Fixpoint remove_char (c : ascii) (s : string) : string :=
  match s with
  | EmptyString => EmptyString
  | String a s' => if Ascii.eqb a c then remove_char c s' else String a (remove_char c s')
  end.

(** [s.replace(a, b)] for single characters. *)
Fixpoint replace_char (a b : ascii) (s : string) : string :=
  match s with
  | EmptyString => EmptyString
  | String x s' => String (if Ascii.eqb x a then b else x) (replace_char a b s')
  end.

(** [c.isalnum()] on an ASCII character. *)
Definition is_alnum (c : ascii) : bool :=
  let n := N_of_ascii c in
  ((48 <=? n) && (n <=? 57) || (65 <=? n) && (n <=? 90) || (97 <=? n) && (n <=? 122))%N.

(** [c.isalnum() or c in [' ', '_']] *)
Definition kept (c : ascii) : bool :=
  is_alnum c || Ascii.eqb c " " || Ascii.eqb c "_".

(** ["".join(c for c in s if f(c))] *)
Fixpoint filter_chars (f : ascii -> bool) (s : string) : string :=
  match s with
  | EmptyString => EmptyString
  | String a s' => if f a then String a (filter_chars f s') else filter_chars f s'
  end.

(** Line 36 *)
Definition sanitized_client_name (client_name : option string) : string :=
  match client_name with
  | Some (String _ _ as n) => replace_char " " "_" (filter_chars kept n)
  | _ => "unknown_client"
  end.

(** Line 30: the number made up for an invoice that has none; [c1] is
    read only when the invoice date is missing, [c2] for the time. *)
Definition generated_number (invoice_date : option string) (c1 c2 : clock) : string :=
  ("INV-" ++
   match invoice_date with
   | Some (String _ _ as d) => remove_char "-" d
   | _ => compact_date (now_date c1)
   end ++ "-" ++ compact_time c2)%string.

Definition set_invoice_number {I} (r : InvoiceRec I) (v : option string) : InvoiceRec I :=
  mkInvoice (client_name r) (client_address r) v (invoice_date r) (due_date r)
            (items r) (subtotal r) (tax_rate r) (tax_amount r) (grand_total r) (notes r).

(** Lines 28-38: the record as the function leaves it (the number is
    assigned to the invoice passed in) and the object name. *)
Definition name_invoice (c1 c2 c3 : clock) (invoice : InvoiceData) : InvoiceData * string :=
  let '(invoice', number) :=
    match invoice_number invoice with
    | Some (String _ _ as n) => (invoice, n)
    | _ =>
        let n := generated_number (invoice_date invoice) c1 c2 in
        (set_invoice_number invoice (Some n), n)
    end in
  (invoice',
   ("invoice_" ++ sanitized_client_name (client_name invoice) ++ "_" ++ number ++ "_"
    ++ timestamp c3 ++ ".pdf")%string).

(** Every character of [s] satisfies [f]. *)
Fixpoint all_chars (f : ascii -> bool) (s : string) : bool :=
  match s with
  | EmptyString => true
  | String a s' => f a && all_chars f s'
  end.

(** An ASCII character; on these the byte-wise [is_alnum] above is
    Python's [str.isalnum]. *)
Definition is_ascii (c : ascii) : bool := (N_of_ascii c <? 128)%N.

(** A letter, a digit or an underscore. *)
Definition name_char (c : ascii) : bool := is_alnum c || Ascii.eqb c "_".

End PdfService.

(* ===================================================================== *)
(** ** Exceptions of the service layer, [try] and [except] *)
(* ===================================================================== *)

Module Exn.

(** What the services and endpoints raise.  [Core] carries the
    exceptions of the inner layers ([ValueError], [OverflowError],
    pydantic's [ValidationError]); [OtherException] is an instance of
    [Exception] of none of the classes named here; [NonException] is a
    [BaseException] outside [Exception], which no handler of the program
    catches. *)
Inductive raised : Type :=
| HTTPException (status_code : Z) (detail : string)
| FileNotFoundError (msg : string)
| RuntimeError (msg : string)
| S3Error (code : string)
| Core (e : exn)
| OtherException (msg : string)
| NonException (msg : string).

Inductive outcome (A : Type) : Type :=
| Ok (a : A)
| Err (e : raised).
Arguments Ok {A} a.
Arguments Err {A} e.

Definition obind {A B : Type} (m : outcome A) (k : A -> outcome B) : outcome B :=
  match m with
  | Ok a => k a
  | Err e => Err e
  end.

(** A call into an inner layer. *)
Definition lift {A : Type} (m : result A) : outcome A :=
  match m with
  | Return a => Ok a
  | Raise e => Err (Core e)
  end.

(** [isinstance(e, Exception)] *)
Definition is_exception (e : raised) : bool :=
  match e with
  | NonException _ => false
  | _ => true
  end.

(** [isinstance(e, FileNotFoundError)] *)
Definition is_file_not_found (e : raised) : bool :=
  match e with
  | FileNotFoundError _ => true
  | _ => false
  end.

(** [isinstance(e, ValueError)]; pydantic's [ValidationError] is a
    subclass of [ValueError], [OverflowError] is not. *)
Definition is_value_error (e : raised) : bool :=
  match e with
  | Core (ValueError _) | Core (ValidationError _) => true
  | _ => false
  end.

(** [isinstance(e, RuntimeError)] *)
Definition is_runtime_error (e : raised) : bool :=
  match e with
  | RuntimeError _ => true
  | _ => false
  end.

(** One [except C as e: ...] clause: the class test and the body. *)
Definition handler (A : Type) : Type := ((raised -> bool) * (raised -> outcome A))%type.

(** The clauses are tried in order; an exception no clause matches
    propagates. *)
Fixpoint handle {A : Type} (clauses : list (handler A)) (e : raised) : outcome A :=
  match clauses with
  | [] => Err e
  | (matches, body) :: clauses' => if matches e then body e else handle clauses' e
  end.

Definition try_except {A : Type} (body : outcome A) (clauses : list (handler A)) : outcome A :=
  match body with
  | Ok a => Ok a
  | Err e => handle clauses e
  end.

Section Text.

(** The texts that libraries give their exceptions. *)
Variable http_text : Z -> string -> string.
Variable s3_text : string -> string.
Variable validation_text : list error_detail -> string.

(** [str(e)]: for an exception built from one message, the message. *)
Definition str (e : raised) : string :=
  match e with
  | HTTPException status_code detail => http_text status_code detail
  | FileNotFoundError msg => msg
  | RuntimeError msg => msg
  | S3Error code => s3_text code
  | Core (ValueError msg) => msg
  | Core (OverflowError msg) => msg
  | Core (ValidationError errors) => validation_text errors
  | OtherException msg => msg
  | NonException msg => msg
  end.

End Text.
End Exn.

(* ===================================================================== *)
(** ** [backend/services/storage_service.py] *)
(* ===================================================================== *)

(** The methods of [MinIOStorageService], each as a function of what the
    MinIO client answers to the one call it makes. *)
Module StorageService.
Import Exn.

(** [upload_file], lines 69-87 *)
Definition upload_file (bucket_name object_name : string) (put_object : outcome unit)
  : outcome string :=
  match put_object with
  | Ok _ => Ok (bucket_name ++ "/" ++ object_name)%string
  | Err e => Err e
  end.

(** [download_file], lines 100-117 *)
Definition download_file (bucket_name object_name : string) (get_object : outcome string)
  : outcome string :=
  match get_object with
  | Ok file_data => Ok file_data
  | Err (S3Error code) =>
      if String.eqb code "NoSuchKey"
      then Err (FileNotFoundError
                  ("Object '" ++ object_name ++ "' not found in bucket '" ++ bucket_name ++ "'."))
      else Err (S3Error code)
  | Err e => Err e
  end.

(** [object_exists], lines 130-141 *)
Definition object_exists (stat_object : outcome unit) : outcome bool :=
  match stat_object with
  | Ok _ => Ok true
  | Err (S3Error code) =>
      if String.eqb code "NoSuchKey" then Ok false else Err (S3Error code)
  | Err e => Err e
  end.

End StorageService.

(* ===================================================================== *)
(** ** The model globals of [llm_service.py] and their import in [main.py] *)
(* ===================================================================== *)

Module Globals.

Section Loading.

(** The loaded processor and model. *)
Variables (P M : Type).

(** The module globals [qwen2_audio_processor] and [qwen2_audio_model]
    of [llm_service], and the names that [main] binds by
    [from backend.services.llm_service import ...]. *)
Record globals : Type := mkGlobals {
  llm_processor : option P;
  llm_model : option M;
  main_processor : option P;
  main_model : option M
}.

(** [llm_service.py], lines 16-17, then [main.py], line 13: the import
    binds the names of [main] to the values the globals have then. *)
Definition at_import : globals :=
  let llm_processor := None in
  let llm_model := None in
  mkGlobals llm_processor llm_model llm_processor llm_model.

(** [load_qwen2_audio_model], lines 25-64: [attempt] is what the two
    [from_pretrained] calls give, [None] when one of them raises.  The
    [global] statement names the globals of [llm_service]. *)
Definition load_qwen2_audio_model (attempt : option (P * M)) (g : globals) : globals :=
  match llm_model g, llm_processor g with
  | Some _, Some _ => g
  | _, _ =>
      match attempt with
      | Some (processor, model) =>
          mkGlobals (Some processor) (Some model) (main_processor g) (main_model g)
      | None => mkGlobals None None (main_processor g) (main_model g)
      end
  end.

(** The guard of [extract_and_validate_invoice_data], line 142 *)
Definition llm_loaded (g : globals) : bool :=
  match llm_model g, llm_processor g with
  | Some _, Some _ => true
  | _, _ => false
  end.

(** The guard of [generate_invoice_from_audio_endpoint], line 79 *)
Definition main_loaded (g : globals) : bool :=
  match main_model g, main_processor g with
  | Some _, Some _ => true
  | _, _ => false
  end.

(** The globals after the import and a sequence of loading attempts
    (at startup, then by [/load_model/]). *)
Definition after_loads (attempts : list (option (P * M))) : globals :=
  fold_left (fun g attempt => load_qwen2_audio_model attempt g) attempts at_import.

End Loading.

Arguments llm_processor {P M} g.
Arguments llm_model {P M} g.
Arguments main_processor {P M} g.
Arguments main_model {P M} g.
Arguments at_import {P M}.
Arguments load_qwen2_audio_model {P M} attempt g.
Arguments llm_loaded {P M} g.
Arguments main_loaded {P M} g.
Arguments after_loads {P M} attempts.

End Globals.

(* ===================================================================== *)
(** ** The services as the endpoints call them *)
(* ===================================================================== *)

Module Services.
Import Exn PdfService.

Section WithEnvironment.

Variable http_text : Z -> string -> string.
Variable s3_text : string -> string.
Variable validation_text : list error_detail -> string.
Variable decode_error_text : string -> string.

(** [InvoiceData.model_validate] on a decoded JSON value. *)
Variable model_validate : Json.json -> result InvoiceData.

(** [MINIO_PDF_BUCKET] and [MINIO_AUDIO_BUCKET], read from the
    environment. *)
Variables (MINIO_PDF_BUCKET MINIO_AUDIO_BUCKET : string).

(** The current date of the reconciler. *)
Variable today : PyDate.date.

Local Abbreviation str := (Exn.str http_text s3_text validation_text).

(** [generate_invoice_pdf]: the naming of lines 28-38; the layout of
    the document, lines 41-124, outside any handler; the rendering and
    the upload inside [try], lines 127-143.  The invoice is returned
    along with the object name, as the number is assigned to the record
    passed in. *)
Definition generate_invoice_pdf (c1 c2 c3 : clock) (layout build put_object : outcome unit)
           (invoice : InvoiceData) : outcome (InvoiceData * string) :=
  let '(invoice', pdf_object_name) := name_invoice c1 c2 c3 invoice in
  obind layout (fun _ =>
  try_except
    (obind build (fun _ =>
     obind (StorageService.upload_file MINIO_PDF_BUCKET pdf_object_name put_object) (fun _ =>
     Ok (invoice', pdf_object_name))))
    [ (is_exception,
       fun e => Err (RuntimeError ("Failed to generate or upload PDF: " ++ str e))) ]).

(** The test of line 190 on the text of an exception. *)
Definition looks_like_validation (text : string) : bool :=
  PyStr.contains "validation" (PyStr.lower text) && PyStr.contains "model" (PyStr.lower text).

(** [extract_and_validate_invoice_data], lines 142-193: [loaded] is the
    guard of line 142, [llm_raw_output] what steps 1 to 4 give (the
    download, the prompt, the generation and the decoding of the tokens).
    The removal of the temporary file in [finally] is left out. *)
Definition extract_and_validate_invoice_data (loaded : bool) (llm_raw_output : outcome string)
  : outcome InvoiceData :=
  if negb loaded
  then Err (RuntimeError
              "Qwen2-Audio model and/or processor not loaded. Call load_qwen2_audio_model() first.")
  else
    obind llm_raw_output (fun raw =>
    match LlmService.extract_json_str raw with
    | None => Err (Core (ValueError LlmService.no_json_message))
    | Some json_str =>
        match Json.loads json_str with
        | None =>
            Err (Core (ValueError (LlmService.malformed_message decode_error_text json_str)))
        | Some extracted_data =>
            try_except
              (obind (lift (model_validate extracted_data)) (fun invoice_data =>
               lift (Utils.autofill_invoice_data Config.user_db Config.item_db today
                       invoice_data)))
              [ (is_exception,
                 fun e =>
                   if looks_like_validation (str e)
                   then Err (Core (ValueError
                          ("Pydantic validation failed for extracted data: " ++ str e
                           ++ ". Data: " ++ json_str)))
                   else Err (RuntimeError
                          ("An unexpected error occurred during data extraction or validation: "
                           ++ str e))) ]
        end
    end).

End WithEnvironment.
End Services.

(* ===================================================================== *)
(** ** [backend/main.py]: the endpoints *)
(* ===================================================================== *)

Module Main.
Import Exn PdfService.

(** [os.path.basename] on a POSIX path: the text after the last slash. *)
Fixpoint basename (path : string) : string :=
  match path with
  | EmptyString => EmptyString
  | String c path' =>
      if PyStr.has_char "/" path' then basename path'
      else if Ascii.eqb c "/" then path' else path
  end.

(** [s.endswith(suffix)] *)
Fixpoint ends_with (suffix s : string) : bool :=
  String.eqb suffix s ||
  match s with
  | EmptyString => false
  | String _ s' => ends_with suffix s'
  end.

(** A float that [json.dumps(..., allow_nan=False)] accepts. *)
Definition finite (v : option float) : bool :=
  match v with
  | Some x => PrimFloat.is_finite x
  | None => true
  end.

Definition item_finite (it : InvoiceItem) : bool :=
  finite (quantity it) && finite (unit_price it) && finite (total it).

(** The floats of [invoice_data.model_dump()] are all finite. *)
Definition json_compliant (invoice_data : InvoiceData) : bool :=
  forallb item_finite (items invoice_data) && finite (subtotal invoice_data)
  && finite (tax_rate invoice_data) && finite (tax_amount invoice_data)
  && finite (grand_total invoice_data).

(** Lines 215-219 of [get_audio] *)
Definition audio_content_type (filename_for_download : string) : string :=
  if ends_with ".wav" (PyStr.lower filename_for_download) then "audio/wav"
  else if ends_with ".mp3" (PyStr.lower filename_for_download) then "audio/mpeg"
  else "application/octet-stream".

Section WithEnvironment.

Variable http_text : Z -> string -> string.
Variable s3_text : string -> string.
Variable validation_text : list error_detail -> string.
Variable decode_error_text : string -> string.
Variable model_validate : Json.json -> result InvoiceData.
Variables (MINIO_PDF_BUCKET MINIO_AUDIO_BUCKET : string).
Variable today : PyDate.date.

(** The response object, and the construction of a [FileResponse] from
    the content, the media type and the file name. *)
Variable R : Type.
Variable FileResponse : string -> string -> string -> outcome R.

(** The text of the [ValueError] that [json.dumps] raises for a dump
    holding a float that is infinite or not a number. *)
Variable out_of_range_text : InvoiceData -> string.

(** [JSONResponse(content={"invoice_data": invoice_data.model_dump(), ...})]:
    the response renders its content when it is built, with
    [json.dumps(..., allow_nan=False)], which raises [ValueError] on a
    float that is infinite or not a number.  [answer] is what the
    response holds. *)
Definition JSONResponse {A : Type} (invoice_data : InvoiceData) (answer : A) : outcome A :=
  if json_compliant invoice_data then Ok answer
  else Err (Core (ValueError (out_of_range_text invoice_data))).

Local Abbreviation str := (Exn.str http_text s3_text validation_text).

(** [generate_invoice_from_audio_endpoint], lines 79-126, the response
    of lines 111-116 being built inside [try]: [g] holds the
    globals, [put_audio] is the upload of the audio (after the read of
    the request body), [llm_raw_output] what the model gives, and
    [layout], [build] and [put_pdf] the steps of [generate_invoice_pdf]. *)
Definition generate_invoice_from_audio_endpoint {P M : Type} (g : Globals.globals P M)
           (put_audio : outcome unit) (audio_object_name : string)
           (llm_raw_output : outcome string) (c1 c2 c3 : clock)
           (layout build put_pdf : outcome unit) : outcome (InvoiceData * string) :=
  if negb (Globals.main_loaded g)
  then Err (HTTPException 503
              "Qwen2-Audio model is not loaded. Please call /load_model/ first.")
  else
    try_except
      (obind (StorageService.upload_file MINIO_AUDIO_BUCKET audio_object_name put_audio)
         (fun _ =>
       obind (Services.extract_and_validate_invoice_data http_text s3_text validation_text
                decode_error_text model_validate today (Globals.llm_loaded g) llm_raw_output)
         (fun invoice_data =>
       obind (Services.generate_invoice_pdf http_text s3_text validation_text
                MINIO_PDF_BUCKET c1 c2 c3 layout build put_pdf invoice_data)
         (fun named => JSONResponse (fst named) named))))
      [ (is_file_not_found, fun e => Err (HTTPException 404 (str e)));
        (is_value_error, fun e => Err (HTTPException 400 (str e)));
        (is_runtime_error, fun e => Err (HTTPException 500 ("Service error: " ++ str e)));
        (is_exception,
         fun e => Err (HTTPException 500 ("An unexpected error occurred: " ++ str e))) ].

(** [generate_invoice_from_data_endpoint], lines 140-157, the response
    of lines 150-154 being built inside [try] from the record as
    [generate_invoice_pdf] leaves it.  On values the deep copy of line
    142 is the identity. *)
Definition generate_invoice_from_data_endpoint (invoice_data : InvoiceData)
           (c1 c2 c3 : clock) (layout build put_pdf : outcome unit)
  : outcome (InvoiceData * string) :=
  try_except
    (let invoice_data_processed := invoice_data in
     obind (lift (Utils.autofill_invoice_data Config.user_db Config.item_db today
                    invoice_data_processed))
       (fun invoice_data_processed =>
     obind (Services.generate_invoice_pdf http_text s3_text validation_text MINIO_PDF_BUCKET
              c1 c2 c3 layout build put_pdf invoice_data_processed)
       (fun named => JSONResponse (fst named) named)))
    [ (is_exception,
       fun e => Err (HTTPException 500 ("Error generating invoice from data: " ++ str e))) ].

(** [download_invoice], lines 170-191: [stat_object] and [get_object]
    are what the MinIO client answers to the check and to the download. *)
Definition download_invoice (object_name : string) (stat_object : outcome unit)
           (get_object : outcome string) : outcome R :=
  try_except
    (obind (StorageService.object_exists stat_object) (fun found =>
     if negb found
     then Err (HTTPException 404
                 ("Invoice PDF '" ++ object_name ++ "' not found in MinIO bucket '"
                  ++ MINIO_PDF_BUCKET ++ "'."))
     else
       obind (StorageService.download_file MINIO_PDF_BUCKET object_name get_object)
         (fun pdf_data =>
       let filename_for_download := basename object_name in
       FileResponse pdf_data "application/pdf" filename_for_download)))
    [ (is_file_not_found, fun e => Err (HTTPException 404 (str e)));
      (is_exception,
       fun e => Err (HTTPException 500
                       ("An error occurred while downloading the PDF: " ++ str e))) ].

(** [get_audio], lines 204-231 *)
Definition get_audio (object_name : string) (stat_object : outcome unit)
           (get_object : outcome string) : outcome R :=
  try_except
    (obind (StorageService.object_exists stat_object) (fun found =>
     if negb found
     then Err (HTTPException 404
                 ("Audio file '" ++ object_name ++ "' not found in MinIO bucket '"
                  ++ MINIO_AUDIO_BUCKET ++ "'."))
     else
       obind (StorageService.download_file MINIO_AUDIO_BUCKET object_name get_object)
         (fun audio_data =>
       let filename_for_download := basename object_name in
       FileResponse audio_data (audio_content_type filename_for_download)
                    filename_for_download)))
    [ (is_file_not_found, fun e => Err (HTTPException 404 (str e)));
      (is_exception,
       fun e => Err (HTTPException 500
                       ("An error occurred while retrieving the audio: " ++ str e))) ].

End WithEnvironment.
End Main.

(* ===================================================================== *)
(** * Properties *)
(* ===================================================================== *)

(** ** The reconciler *)

Module UtilsFacts.
Import Utils.

Ltac split_client r :=
destruct r as [cn ca inum idate dd its st tr ta gt nt];
unfold fill_client; simpl;
destruct (lookup_client _ cn) as [info|]; simpl; try reflexivity;
destruct (PyStr.truthy ca); simpl;
destruct (unset_or_default tr) eqn:?; simpl; try reflexivity.

Section Facts.

Variable user_db : table ClientInfo.
Variable item_db : table ItemInfo.
Variable today : PyDate.date.

Local Abbreviation autofill := (autofill_invoice_data user_db item_db today).
Local Abbreviation af_item := (autofill_item item_db).

(** *** The client lookup touches two attributes only *)

Lemma fill_client_items {I} (r : InvoiceRec I) : items (fill_client user_db r) = items r.
Proof. split_client r. Qed.

Lemma fill_client_dates {I} (r : InvoiceRec I) :
  invoice_date (fill_client user_db r) = invoice_date r /\
  due_date (fill_client user_db r) = due_date r.
Proof.
  destruct r as [cn ca inum idate dd its st tr ta gt nt].
  unfold fill_client; simpl.
  destruct (lookup_client _ cn) as [info|]; simpl; auto.
  destruct (PyStr.truthy ca); simpl; destruct (unset_or_default tr); simpl; auto.
Qed.

Lemma fill_client_set_items {I J} (r : InvoiceRec I) (v : J) :
  fill_client user_db (set_items r v) = set_items (fill_client user_db r) v.
Proof. split_client r. Qed.

Lemma fill_client_set_amounts {I} (r : InvoiceRec I) s t g :
  fill_client user_db (set_amounts r s t g) = set_amounts (fill_client user_db r) s t g.
Proof. split_client r. Qed.

Lemma fill_client_set_invoice_date {I} (r : InvoiceRec I) v :
  fill_client user_db (set_invoice_date r v) = set_invoice_date (fill_client user_db r) v.
Proof. split_client r. Qed.

Lemma fill_client_set_due_date {I} (r : InvoiceRec I) v :
  fill_client user_db (set_due_date r v) = set_due_date (fill_client user_db r) v.
Proof. split_client r. Qed.

Lemma fill_client_idem {I} (r : InvoiceRec I) :
  fill_client user_db (fill_client user_db r) = fill_client user_db r.
Proof.
  destruct r as [cn ca inum idate dd its st tr ta gt nt].
  unfold fill_client; simpl.
  destruct (lookup_client _ cn) as [info|] eqn:Hc; simpl; [|rewrite Hc; reflexivity].
  destruct (PyStr.truthy ca) eqn:Hca; simpl;
    destruct (unset_or_default tr) eqn:Htr; simpl; rewrite ?Hc; simpl;
    rewrite ?Hca, ?Htr; simpl;
    repeat (match goal with |- context [if ?b then _ else _] => destruct b eqn:? end; simpl);
    try reflexivity; simpl in *; congruence.
Qed.

(** *** The loop body *)

Lemma fill_unit_price_eq (it : InvoiceItem) :
  fill_unit_price item_db it =
  set_unit_price it (price_after item_db (description it) (unit_price it)).
Proof.
  destruct it as [d q p t]; unfold fill_unit_price, price_after; cbn [description unit_price].
  destruct d as [[|c d]|]; try reflexivity.
  destruct (lacks_price p); try reflexivity.
  destruct (scan item_db _); reflexivity.
Qed.

Lemma fill_total_eq (it : InvoiceItem) :
  fill_total it = set_total it (total_after (quantity it) (unit_price it) (total it)).
Proof.
  destruct it as [d q p t]; unfold fill_total, total_after; cbn [quantity unit_price total].
  destruct q, p, t; reflexivity.
Qed.

Lemma price_after_idem d p : price_after item_db d (price_after item_db d p) = price_after item_db d p.
Proof.
  unfold price_after.
  destruct d as [[|c d]|]; try reflexivity.
  destruct (lacks_price p) eqn:Hp; [|rewrite Hp; reflexivity].
  destruct (scan item_db _) as [info|] eqn:Hs; [|rewrite Hp; reflexivity].
  destruct (lacks_price (ii_unit_price info)); reflexivity.
Qed.

Lemma total_after_idem q p t : total_after q p (total_after q p t) = total_after q p t.
Proof. unfold total_after. destruct q, p, t; reflexivity. Qed.

Lemma autofill_item_eq (it : InvoiceItem) :
  af_item it =
  mkItem (description it) (quantity it)
         (price_after item_db (description it) (unit_price it))
         (total_after (quantity it) (price_after item_db (description it) (unit_price it)) (total it)).
Proof.
  unfold autofill_item. rewrite fill_total_eq, fill_unit_price_eq.
  destruct it; reflexivity.
Qed.

Lemma autofill_item_idem (it : InvoiceItem) : af_item (af_item it) = af_item it.
Proof.
  rewrite (autofill_item_eq (af_item it)), (autofill_item_eq it).
  cbn [description quantity unit_price total].
  rewrite price_after_idem, total_after_idem. reflexivity.
Qed.

Lemma autofill_item_total (it : InvoiceItem) : is_Some (total (af_item it)).
Proof.
  rewrite autofill_item_eq; cbn [total]. unfold total_after.
  destruct (quantity it), (price_after item_db (description it) (unit_price it)), (total it); eauto.
Qed.

(** *** The whole function *)

Lemma autofill_eq (r : InvoiceData) : autofill r = fill_due_date today (priced user_db item_db today r).
Proof. reflexivity. Qed.

Lemma fill_due_date_inv {I} (r r' : InvoiceRec I) :
  fill_due_date today r = Return r' ->
  exists dd : string,
    r' = set_due_date r (Some dd) /\
    PyStr.truthy (Some dd) = true /\
    (PyStr.truthy (due_date r) = true -> Some dd = due_date r).
Proof.
  unfold fill_due_date, plus_30_days.
  destruct (PyStr.truthy (due_date r)) eqn:Hd.
  - intros [= <-]. destruct r as [? ? ? ? [dd|] ? ? ? ? ? ?]; [|discriminate].
    exists dd. auto.
  - destruct (invoice_date r ≫= PyDate.strptime) as [d|];
      [destruct (PyDate.add_days d 30) | destruct (PyDate.add_days today 30)];
      cbn; intros [= <-]; eexists; (split; [reflexivity|]); split; auto; discriminate.
Qed.

Lemma sum_totals_Some (its : list InvoiceItem) (ts : list float) :
  map total its = map Some ts -> sum_totals its = PyFloat.fsum ts.
Proof.
  unfold sum_totals. intros H. f_equal.
  revert ts H. induction its as [|it its IH]; intros [|t ts] H; try discriminate; auto.
  cbn in H. injection H as Ht Hr. cbn. rewrite Ht. cbn. f_equal. auto.
Qed.

Lemma totals_set (its : list InvoiceItem) :
  exists ts, map total (map af_item its) = map Some ts.
Proof.
  induction its as [|it its [ts IH]]; [exists []; reflexivity|].
  destruct (autofill_item_total it) as [t Ht].
  exists (t :: ts). cbn. rewrite Ht, IH. reflexivity.
Qed.

Lemma priced_fields (r : InvoiceData) :
  let p := priced user_db item_db today r in
  let s := PyFloat.round2 (sum_totals (items p)) in
  let t := PyFloat.round2 (s * match tax_rate p with Some x => x | None => 0 end)%float in
  items p = map af_item (items r) /\
  subtotal p = Some s /\
  tax_amount p = Some t /\
  grand_total p = Some (PyFloat.round2 (s + t)%float) /\
  tax_rate p = tax_rate (fill_client user_db r) /\
  due_date p = due_date r /\
  invoice_date p = (if PyStr.truthy (invoice_date r) then invoice_date r
                    else Some (PyDate.strftime today)).
Proof.
  unfold priced, fill_invoice_date, with_amounts, effective_tax_rate.
  pose proof (fill_client_items r) as Hi.
  destruct (fill_client_dates r) as [Hd1 Hd2].
  destruct (fill_client user_db r) as [cn ca inum idate dd its st tr ta gt nt].
  cbn in *. subst.
  destruct (PyStr.truthy (invoice_date r)); cbn; auto 10.
Qed.

(** What the date handling does to a record that is returned. *)
Lemma fill_due_date_fields {I} (r r' : InvoiceRec I) :
  fill_due_date today r = Return r' ->
  client_name r' = client_name r /\ client_address r' = client_address r /\
  invoice_date r' = invoice_date r /\ items r' = items r /\
  subtotal r' = subtotal r /\ tax_rate r' = tax_rate r /\
  tax_amount r' = tax_amount r /\ grand_total r' = grand_total r.
Proof.
  intros H. destruct (fill_due_date_inv _ _ H) as (dd & -> & _).
  destruct r; cbn; auto 10.
Qed.

Lemma fill_client_fill_invoice_date {I} (r : InvoiceRec I) :
  fill_client user_db (fill_invoice_date today r) =
  fill_invoice_date today (fill_client user_db r).
Proof.
  unfold fill_invoice_date.
  rewrite (proj1 (fill_client_dates r)).
  destruct (PyStr.truthy (invoice_date r)); [reflexivity|].
  apply fill_client_set_invoice_date.
Qed.

Lemma fill_client_with_amounts {I} (r : InvoiceRec I) (s : float) :
  fill_client user_db r = r ->
  fill_client user_db (with_amounts r s) = with_amounts r s.
Proof.
  intros H. unfold with_amounts. rewrite fill_client_set_amounts, H. reflexivity.
Qed.

Lemma fill_client_priced (r : InvoiceData) :
  fill_client user_db (priced user_db item_db today r) = priced user_db item_db today r.
Proof.
  unfold priced. rewrite fill_client_fill_invoice_date. f_equal.
  apply fill_client_with_amounts.
  rewrite fill_client_set_items, fill_client_idem. reflexivity.
Qed.

Lemma map_autofill_item_idem (its : list InvoiceItem) :
  map af_item (map af_item its) = map af_item its.
Proof.
  induction its as [|it its IH]; cbn; [reflexivity|].
  rewrite autofill_item_idem, IH. reflexivity.
Qed.

Lemma priced_stable (r : InvoiceData) (v : option string) :
  priced user_db item_db today (set_due_date (priced user_db item_db today r) v) = set_due_date (priced user_db item_db today r) v.
Proof.
  unfold priced at 1.
  rewrite fill_client_set_due_date, fill_client_priced.
  destruct (priced_fields r) as (Hi & Hs & Ht & Hg & _ & _ & Hid).
  assert (Htruthy : PyStr.truthy (invoice_date (priced user_db item_db today r)) = true).
  { rewrite Hid. destruct (PyStr.truthy (invoice_date r)) eqn:E; [exact E | reflexivity]. }
  assert (Hii : map af_item (items (priced user_db item_db today r)) = items (priced user_db item_db today r)).
  { rewrite Hi. apply map_autofill_item_idem. }
  destruct (priced user_db item_db today r) as [cn ca inum idate dd its st tr ta gt nt].
  cbn in *. rewrite Hii.
  unfold fill_invoice_date, with_amounts, effective_tax_rate; cbn.
  rewrite Htruthy. subst st ta gt. reflexivity.
Qed.

Lemma autofill_fixpoint (r r' : InvoiceData) :
  autofill r = Return r' -> autofill r' = Return r'.
Proof.
  rewrite autofill_eq. intros H.
  destruct (fill_due_date_inv _ _ H) as (dd & -> & Hdd & _).
  rewrite autofill_eq, priced_stable.
  unfold fill_due_date. destruct (priced user_db item_db today r); cbn. 
  destruct dd; [discriminate|reflexivity].
Qed.

(** The function returns unless the due date has to be computed and
    falls after the year 9999. *)
Lemma autofill_returns (r : InvoiceData) :
  PyStr.truthy (due_date r) = true \/
  is_Some (PyDate.add_days
             (default today (invoice_date (priced user_db item_db today r) ≫= PyDate.strptime)) 30) ->
  exists r', autofill r = Return r'.
Proof.
  rewrite autofill_eq. unfold fill_due_date, plus_30_days.
  destruct (priced_fields r) as (_ & _ & _ & _ & _ & Hdd & _). rewrite Hdd.
  intros [-> | [d Hd]]; [eauto|].
  destruct (PyStr.truthy (due_date r)); [eauto|].
  destruct (invoice_date (priced user_db item_db today r) ≫= PyDate.strptime); cbn in *; rewrite Hd; cbn; eauto.
Qed.

(** *** First match in the catalog *)

Lemma scan_first (db before after : table ItemInfo) k info nd :
  db = (before ++ (k, info) :: after)%list ->
  Forall (fun e => PyStr.contains (fst e) nd = false) before ->
  PyStr.contains k nd = true ->
  scan db nd = Some info.
Proof.
  intros -> Hb Hk. induction Hb as [|[k' i'] before Hk' _ IH]; cbn in *.
  - rewrite Hk. reflexivity.
  - rewrite Hk'. exact IH.
Qed.

Lemma scan_miss (db : table ItemInfo) nd :
  Forall (fun e => PyStr.contains (fst e) nd = false) db -> scan db nd = None.
Proof.
  induction 1 as [|[k i] db Hk _ IH]; cbn in *; [reflexivity|].
  rewrite Hk. exact IH.
Qed.

Lemma positive_truthy (x : float) :
  PrimFloat.ltb 0%float x = true -> PyFloat.truthy x = true.
Proof.
  unfold PyFloat.truthy. rewrite FloatAxioms.ltb_spec, FloatAxioms.eqb_spec.
  change (Prim2SF 0%float) with (S754_zero false).
  destruct (Prim2SF x) as [s|s| |s m e]; cbn; try discriminate;
    destruct s; cbn; intros; try discriminate; reflexivity.
Qed.

Lemma autofill_items_eq (r r' : InvoiceData) :
  autofill r = Return r' -> items r' = map af_item (items r).
Proof.
  rewrite autofill_eq. intros H.
  destruct (fill_due_date_fields _ _ H) as (_ & _ & _ & -> & _).
  apply (priced_fields r).
Qed.

Lemma autofill_tax_rate (r r' : InvoiceData) :
  autofill r = Return r' -> tax_rate r' = tax_rate (fill_client user_db r).
Proof.
  rewrite autofill_eq. intros H.
  destruct (fill_due_date_fields _ _ H) as (_ & _ & _ & _ & _ & -> & _).
  apply (priced_fields r).
Qed.

(** C1. Every record that [autofill_invoice_data] returns satisfies the
    invariants of the record model: every item has a total; the subtotal
    is the sum of the item totals rounded to two decimals (0.0 when there
    is no item); the tax amount is [round(subtotal * tax_rate, 2)] with
    an unset rate counted as 0; the grand total is
    [round(subtotal + tax_amount, 2)]; the invoice date is set, to the
    current date when it was missing; the due date is set, and when it
    was missing it is 30 days after the invoice date, or 30 days after
    the current date when the invoice date cannot be parsed. *)
Theorem autofill_invariants (r r' : InvoiceData) :
  autofill r = Return r' ->
  exists (ts : list float) (s t : float) (idate ddate : string),
    map total (items r') = map Some ts /\
    s = PyFloat.round2 (PyFloat.fsum ts) /\
    t = PyFloat.round2 (s * match tax_rate r' with Some x => x | None => 0 end)%float /\
    subtotal r' = Some s /\
    (items r' = [] -> s = 0%float) /\
    tax_amount r' = Some t /\
    grand_total r' = Some (PyFloat.round2 (s + t)%float) /\
    invoice_date r' = Some idate /\ idate <> "" /\
    (PyStr.truthy (invoice_date r) = false -> idate = PyDate.strftime today) /\
    (PyStr.truthy (invoice_date r) = true -> Some idate = invoice_date r) /\
    due_date r' = Some ddate /\ ddate <> "" /\
    (PyStr.truthy (due_date r) = true -> Some ddate = due_date r) /\
    (PyStr.truthy (due_date r) = false ->
     exists d' : PyDate.date,
       PyDate.add_days (default today (PyDate.strptime idate)) 30 = Some d' /\
       ddate = PyDate.strftime d').
Proof.
  rewrite autofill_eq. intros H.
  destruct (priced_fields r) as (Hi & Hs & Ht & Hg & _ & Hdd & Hid).
  destruct (totals_set (items r)) as [ts Hts].
  rewrite <- Hi in Hts.
  assert (Hidate : exists idate, invoice_date (priced user_db item_db today r) = Some idate /\ idate <> "" /\
            (PyStr.truthy (invoice_date r) = false -> idate = PyDate.strftime today) /\
            (PyStr.truthy (invoice_date r) = true -> Some idate = invoice_date r)).
  { rewrite Hid. destruct (invoice_date r) as [[|c x]|]; cbn.
    all: eexists; split; [reflexivity|]; repeat split; try discriminate; auto. }
  destruct Hidate as (idate & Hidate & Hne & Hfalsy & Htruthy).
  assert (Hdue : exists ddate, due_date r' = Some ddate /\ ddate <> "" /\
            (PyStr.truthy (due_date r) = true -> Some ddate = due_date r) /\
            (PyStr.truthy (due_date r) = false ->
             exists d' : PyDate.date,
               PyDate.add_days (default today (PyDate.strptime idate)) 30 = Some d' /\
               ddate = PyDate.strftime d')).
  { revert H. unfold fill_due_date, plus_30_days. rewrite Hdd, Hidate. cbn.
    destruct (due_date r) as [[|c x]|] eqn:Edd; cbn.
    2:{ intros [= <-]. rewrite Hdd. eexists; split; [reflexivity|].
        repeat split; try discriminate; auto. }
    all: destruct (PyDate.strptime idate) as [d|]; cbn;
      [destruct (PyDate.add_days d 30) as [d'|]
      |destruct (PyDate.add_days today 30) as [d'|]]; cbn; intros [= <-]; cbn.
    all: eexists; split; [reflexivity|]; repeat split; try discriminate; eauto. }
  destruct Hdue as (ddate & Hddate & Hne' & Hkept & Hcomputed).
  destruct (fill_due_date_fields _ _ H) as (_ & _ & Ei & Eit & Es & Etr & Eta & Egt).
  exists ts, (PyFloat.round2 (PyFloat.fsum ts)),
    (PyFloat.round2 (PyFloat.round2 (PyFloat.fsum ts) *
                     match tax_rate r' with Some x => x | None => 0 end)%float),
    idate, ddate.
  rewrite Eit, Es, Eta, Egt, Etr, Ei, Hs, Ht, Hg, Hidate, (sum_totals_Some _ _ Hts).
  repeat split; auto.
  intros E. rewrite E in Hts. destruct ts; [reflexivity | discriminate].
Qed.

(** C2. Reconciling twice is reconciling once: with the current date
    held fixed, running [autofill_invoice_data] on its own outcome gives
    that outcome again. *)
Theorem autofill_idempotent (r : InvoiceData) :
  bind (autofill r) (fun r' => autofill r') = autofill r.
Proof.
  destruct (autofill r) as [r'|e] eqn:H; cbn; [|reflexivity].
  exact (autofill_fixpoint _ _ H).
Qed.

(** C3. An item without a unit price but with a description gets the
    price of the first catalog entry, in table order, whose key occurs
    in the lower-cased, trimmed description; with no such entry the
    price stays as it was.  In particular "Mechanical Keyboard Pro",
    quantity 2, against the catalog of [backend/config.py] ends with
    unit price 75.0 and total 150.0. *)
Theorem catalog_fill (r r' : InvoiceData) (i : nat) (it : InvoiceItem) (d : string) :
  autofill r = Return r' ->
  items r !! i = Some it ->
  description it = Some d -> d <> "" ->
  lacks_price (unit_price it) = true ->
  exists it' : InvoiceItem,
    items r' !! i = Some it' /\
    (forall before k info after,
        item_db = (before ++ (k, info) :: after)%list ->
        Forall (fun e => PyStr.contains (fst e) (PyStr.strip (PyStr.lower d)) = false) before ->
        PyStr.contains k (PyStr.strip (PyStr.lower d)) = true ->
        unit_price it' = ii_unit_price info) /\
    (Forall (fun e => PyStr.contains (fst e) (PyStr.strip (PyStr.lower d)) = false) item_db ->
     unit_price it' = unit_price it) /\
    (item_db = Config.item_db -> d = "Mechanical Keyboard Pro" ->
     quantity it = Some 2%float ->
     unit_price it' = Some 75%float /\ total it' = Some 150%float).
Proof.
  intros H Hi Hd Hne Hlack.
  exists (af_item it). split.
  { rewrite (autofill_items_eq _ _ H), list_lookup_fmap, Hi. reflexivity. }
  rewrite autofill_item_eq, Hd. cbn [unit_price total].
  unfold price_after. destruct d as [|c d]; [congruence|]. rewrite Hlack.
  split; [|split].
  - intros before k info after Hdb Hb Hk.
    rewrite (scan_first _ _ _ _ _ _ Hdb Hb Hk). reflexivity.
  - intros Hall. rewrite (scan_miss _ _ Hall). reflexivity.
  - intros -> [= -> ->] ->. split; reflexivity.
Qed.

(** C4. The tax rate is taken from the matched client only when the
    current rate is unset or equal to 0.08; any other rate the record
    carries is left as it is, and so is the rate of a record whose
    client is not in the table. *)
Theorem tax_rate_update (r r' : InvoiceData) :
  autofill r = Return r' ->
  (forall info,
      lookup_client user_db (client_name r) = Some info ->
      tax_rate r = None \/ (exists x, tax_rate r = Some x /\ PrimFloat.eqb x 0.08%float = true) ->
      tax_rate r' = Some (match ci_default_tax_rate info with
                          | Some x => x
                          | None => 0.08%float
                          end)) /\
  (forall x, tax_rate r = Some x -> PrimFloat.eqb x 0.08%float = false ->
             tax_rate r' = Some x) /\
  (lookup_client user_db (client_name r) = None -> tax_rate r' = tax_rate r).
Proof.
  intros H. rewrite (autofill_tax_rate _ _ H).
  destruct r as [cn ca inum idate dd its st tr ta gt nt].
  unfold fill_client; cbn. repeat split.
  - intros info -> Htr. 
    assert (E : unset_or_default tr = true).
    { destruct Htr as [-> | (x & -> & Hx)]; [reflexivity | exact Hx]. }
    destruct (PyStr.truthy ca); cbn; rewrite E; reflexivity.
  - intros x -> Hx.
    destruct (lookup_client user_db cn); [|reflexivity].
    destruct (PyStr.truthy ca); cbn; rewrite Hx; reflexivity.
  - intros ->. reflexivity.
Qed.

End Facts.
End UtilsFacts.

(** ** Construction of records *)

Module ModelsFacts.
Import Models.

Lemma required_gt0_listed name v field :
  (exists k, In ([LField field], k) (required_gt0 name v)) <->
  field = name /\ field_ok v = false.
Proof.
  unfold required_gt0, field_ok.
  destruct v as [x|]; [destruct (PrimFloat.ltb 0 x)|]; cbn; split.
  - intros [k []].
  - intros [_ H]; discriminate H.
  - intros [k [[= <- _] | []]]; auto.
  - intros [-> _]; eexists; left; reflexivity.
  - intros [k [[= <- _] | []]]; auto.
  - intros [-> _]; eexists; left; reflexivity.
Qed.

Lemma required_listed {A} name (v : option A) field :
  (exists k, In ([LField field], k) (required name v)) <->
  field = name /\ v = None.
Proof.
  unfold required. destruct v; cbn; split.
  - intros [k []].
  - intros [_ H]; discriminate H.
  - intros [k [[= <- _] | []]]; auto.
  - intros [-> _]; eexists; left; reflexivity.
Qed.

Lemma item_errors_field (p : ItemPayload) (field : string) :
  (exists k, In ([LField field], k) (item_errors p)) <->
  (field = "description" /\ p_description p = None) \/
  (field = "quantity" /\ field_ok (p_quantity p) = false) \/
  (field = "unit_price" /\ field_ok (p_unit_price p) = false).
Proof.
  unfold item_errors.
  rewrite <- required_listed, <- !required_gt0_listed.
  split.
  - intros [k H]. rewrite !in_app_iff in H. destruct H as [H | [H | H]]; eauto.
  - intros [[k H] | [[k H] | [k H]]]; exists k; rewrite !in_app_iff; auto.
Qed.

End ModelsFacts.

(** ** The object store *)

Module StoreFacts.
Import Store.

Lemma get_item_weaken (h h' : store) l it :
  h ⊆ h' -> get_item h l = Some it -> get_item h' l = Some it.
Proof.
  unfold get_item. intros Hs H.
  destruct (h !! l) as [[it'|?]|] eqn:E; try discriminate.
  rewrite (lookup_weaken _ _ _ _ E Hs). exact H.
Qed.

Lemma get_invoice_weaken (h h' : store) l r :
  h ⊆ h' -> get_invoice h l = Some r -> get_invoice h' l = Some r.
Proof.
  unfold get_invoice. intros Hs H.
  destruct (h !! l) as [[?|r']|] eqn:E; try discriminate.
  rewrite (lookup_weaken _ _ _ _ E Hs). exact H.
Qed.

Lemma get_item_insert (h : store) l it : get_item (<[l := ItemObj it]> h) l = Some it.
Proof. unfold get_item. rewrite lookup_insert_eq. reflexivity. Qed.

Lemma get_item_insert_ne (h : store) l k o :
  l <> k -> get_item (<[k := o]> h) l = get_item h l.
Proof. intros. unfold get_item. rewrite lookup_insert_ne; auto. Qed.

Lemma get_invoice_insert (h : store) l r :
  get_invoice (<[l := InvoiceObj r]> h) l = Some r.
Proof. unfold get_invoice. rewrite lookup_insert_eq. reflexivity. Qed.

Lemma get_item_dom (h : store) l it : get_item h l = Some it -> l ∈ dom h.
Proof.
  unfold get_item. intros H. apply elem_of_dom.
  destruct (h !! l); [eauto | discriminate].
Qed.

Lemma fresh_not_in (h0 h : store) : h0 ⊆ h -> fresh (dom h) ∉ dom h0.
Proof.
  intros Hs Hin. apply (is_fresh (dom h)).
  apply (subseteq_dom h0 h Hs). exact Hin.
Qed.

Lemma alloc_extends (h : store) o : h ⊆ <[fresh (dom h) := o]> h.
Proof. apply insert_subseteq, not_elem_of_dom, is_fresh. Qed.

(** Writing outside the part of the store one started from keeps that
    part as it was. *)
Lemma write_outside (h0 h : store) k o :
  h0 ⊆ h -> k ∉ dom h0 -> h0 ⊆ <[k := o]> h.
Proof. intros Hs Hk. apply insert_subseteq_r; [apply not_elem_of_dom, Hk | exact Hs]. Qed.

Lemma deepcopy_items_spec (h0 : store) ls : forall memo h its,
  h0 ⊆ h ->
  (forall l c, memo !! l = Some c ->
     (c ∉ dom h0) /\ exists it, get_item h l = Some it /\ get_item h c = Some it) ->
  Forall2 (fun l it => get_item h l = Some it) ls its ->
  exists cs h1,
    deepcopy_items memo ls h = Some (cs, h1) /\
    h ⊆ h1 /\
    Forall (fun c => c ∉ dom h0) cs /\
    Forall2 (fun c it => get_item h1 c = Some it) cs its.
Proof.
  induction ls as [|l ls IH]; intros memo h its H0 Hmemo Hits.
  - inversion Hits; subst. exists [], h. cbn. repeat split; auto. 
  - inversion Hits as [|? it ? its' Hl Hrest]; subst. cbn.
    destruct (memo !! l) as [c|] eqn:Em.
    + destruct (Hmemo _ _ Em) as (Hc & it' & Hl' & Hc').
      assert (it' = it) by congruence. subst it'.
      destruct (IH memo h its' H0 Hmemo Hrest) as (cs & h1 & -> & Hs & Hfresh & Hcs).
      exists (c :: cs), h1. cbn. repeat split; auto.
      constructor; [eapply get_item_weaken; eauto | exact Hcs].
    + rewrite Hl. cbn.
      set (c := fresh (dom h)). set (h1a := <[c := ItemObj it]> h).
      assert (Ha : h ⊆ h1a) by apply alloc_extends.
      assert (Hc0 : c ∉ dom h0) by (apply fresh_not_in; exact H0).
      destruct (IH (<[l := c]> memo) h1a its') as (cs & h1 & -> & Hs & Hfresh & Hcs).
      * etrans; eauto.
      * intros l' c' Hm. destruct (decide (l' = l)) as [->|Hne].
        -- rewrite lookup_insert_eq in Hm. injection Hm as <-.
           split; [exact Hc0|]. exists it. split.
           ++ eapply get_item_weaken; eauto.
           ++ apply get_item_insert.
        -- rewrite lookup_insert_ne in Hm by auto.
           destruct (Hmemo _ _ Hm) as (? & it' & ? & ?).
           split; [assumption|]. exists it'.
           split; eapply get_item_weaken; eauto.
      * eapply Forall2_impl; [exact Hrest|]. intros; eapply get_item_weaken; eauto.
      * exists (c :: cs), h1. cbn. repeat split; auto.
        -- etrans; eauto.
        -- constructor; [|exact Hcs].
           eapply get_item_weaken; [exact Hs | apply get_item_insert].
Qed.

Lemma autofill_items_spec item_db (g : loc -> InvoiceItem) cs : forall h,
  (forall c, c ∈ cs ->
     get_item h c = Some (g c) \/
     get_item h c = Some (Utils.autofill_item item_db (g c))) ->
  exists h3,
    autofill_items item_db cs h = Some h3 /\
    (forall c, c ∈ cs -> get_item h3 c = Some (Utils.autofill_item item_db (g c))) /\
    (forall k, k ∉ cs -> h3 !! k = h !! k).
Proof.
  induction cs as [|c cs IH]; intros h Hh.
  - exists h. cbn. repeat split; auto. intros c Hc. inversion Hc.
  - cbn.
    assert (Hw : exists x, get_item h c = Some x /\
              Utils.autofill_item item_db x = Utils.autofill_item item_db (g c)).
    { destruct (Hh c) as [E|E]; [left|..]; eexists; split; eauto.
      apply UtilsFacts.autofill_item_idem. }
    destruct Hw as (x & -> & Hx). cbn. rewrite Hx.
    set (h' := <[c := ItemObj (Utils.autofill_item item_db (g c))]> h).
    destruct (IH h') as (h3 & -> & Hin & Hout).
    { intros c' Hc'. destruct (decide (c' = c)) as [->|Hne].
      - right. apply get_item_insert.
      - unfold h'. rewrite get_item_insert_ne by auto. apply Hh. right. exact Hc'. }
    exists h3. repeat split; auto.
    + intros c' Hc'. apply elem_of_cons in Hc' as [->|Hc']; [|auto].
      destruct (decide (c ∈ cs)) as [Hc|Hc]; [auto|].
      unfold get_item. rewrite (Hout _ Hc). apply get_item_insert.
    + intros k Hk. apply not_elem_of_cons in Hk as [Hne Hk].
      rewrite (Hout _ Hk). unfold h'. rewrite lookup_insert_ne; auto.
Qed.

Lemma read_items_weaken (h h' : store) ls its :
  h ⊆ h' -> mapM (get_item h) ls = Some its -> mapM (get_item h') ls = Some its.
Proof.
  intros Hs H. apply mapM_Some. apply mapM_Some in H.
  eapply Forall2_impl; [exact H|]. intros; eapply get_item_weaken; eauto.
Qed.

Lemma read_invoice_weaken (h h' : store) l v :
  h ⊆ h' -> read_invoice h l = Some v -> read_invoice h' l = Some v.
Proof.
  unfold read_invoice. intros Hs H.
  destruct (get_invoice h l) as [r|] eqn:Er; [|discriminate]. cbn in H.
  destruct (mapM (get_item h) (items r)) as [its|] eqn:Ei; [|discriminate]. cbn in H.
  rewrite (get_invoice_weaken _ _ _ _ Hs Er). cbn.
  rewrite (read_items_weaken _ _ _ _ Hs Ei). exact H.
Qed.

Lemma read_items_insert_other (h : store) k o cs its :
  k ∉ cs -> mapM (get_item h) cs = Some its ->
  mapM (get_item (<[k := o]> h)) cs = Some its.
Proof.
  intros Hk H. apply mapM_Some. apply mapM_Some in H.
  induction H as [|c it cs its Hc _ IH]; constructor.
  - rewrite get_item_insert_ne; [exact Hc|].
    intros ->. apply Hk. left.
  - apply IH. intros Hin. apply Hk. right. exact Hin.
Qed.

Lemma read_items_after item_db (h1 h3 : store) cs its :
  Forall2 (fun c it => get_item h1 c = Some it) cs its ->
  (forall c it, c ∈ cs -> get_item h1 c = Some it ->
                get_item h3 c = Some (Utils.autofill_item item_db it)) ->
  mapM (get_item h3) cs = Some (map (Utils.autofill_item item_db) its).
Proof.
  intros H Hall. apply mapM_Some.
  induction H as [|c it cs its Hc _ IH]; cbn; constructor.
  - apply Hall; [left | exact Hc].
  - apply IH. intros c' it' Hin. apply Hall. right. exact Hin.
Qed.

Lemma fill_due_date_set_items {I J} today (x : InvoiceRec I) (y : J) :
  Utils.fill_due_date today (set_items x y) =
  match Utils.fill_due_date today x with
  | Return x' => Return (set_items x' y)
  | Raise e => Raise e
  end.
Proof.
  destruct x as [cn ca inum idate dd its st tr ta gt nt].
  unfold Utils.fill_due_date, Utils.plus_30_days; cbn.
  destruct (PyStr.truthy dd); [reflexivity|].
  destruct (idate ≫= PyDate.strptime) as [d|];
    [destruct (PyDate.add_days d 30) | destruct (PyDate.add_days today 30)]; reflexivity.
Qed.

Lemma fill_due_date_items {I} today (x x' : InvoiceRec I) :
  Utils.fill_due_date today x = Return x' -> items x' = items x.
Proof. intros H. apply (UtilsFacts.fill_due_date_fields _ _ _ H). Qed.

Lemma priced_set_items user_db item_db today (r : InvoiceRec (list loc))
      (cs : list loc) (its : list InvoiceItem) :
  set_items
    (Utils.fill_invoice_date today
       (with_amounts (Utils.fill_client user_db (set_items r cs))
          (PyFloat.round2 (sum_totals (map (Utils.autofill_item item_db) its)))))
    (map (Utils.autofill_item item_db) its) =
  Utils.priced user_db item_db today (set_items r its).
Proof.
  unfold Utils.priced.
  rewrite !UtilsFacts.fill_client_set_items.
  destruct (Utils.fill_client user_db r) as [cn ca inum idate dd its0 st tr ta gt nt].
  unfold Utils.fill_invoice_date, with_amounts, effective_tax_rate; cbn.
  destruct (PyStr.truthy idate); reflexivity.
Qed.

(** C7. The call leaves its argument alone: run on a store in which [l]
    holds the record [v], [autofill_invoice_data] terminates, every
    object of the store it started from is still there unchanged (so
    [l] still holds [v], items included), and what it returns is a new
    object holding the reconciled record. *)
Theorem autofill_leaves_argument user_db item_db today
        (h : store) (l : loc) (v : InvoiceData) :
  read_invoice h l = Some v ->
  exists (res : result loc) (h' : store),
    Store.autofill_invoice_data user_db item_db today l h = Some (res, h') /\
    h ⊆ h' /\
    read_invoice h' l = Some v /\
    match res with
    | Return c =>
        (c ∉ dom h) /\
        exists v', Utils.autofill_invoice_data user_db item_db today v = Return v' /\
                   read_invoice h' c = Some v'
    | Raise e => Utils.autofill_invoice_data user_db item_db today v = Raise e
    end.
Proof.
  intros Hread. pose proof Hread as Hread0. unfold read_invoice in Hread.
  destruct (get_invoice h l) as [r|] eqn:Er; [|discriminate]. cbn in Hread.
  destruct (mapM (get_item h) (items r)) as [its|] eqn:Ei; [|discriminate].
  cbn in Hread. injection Hread as <-.
  apply mapM_Some in Ei.
  destruct (deepcopy_items_spec h (items r) ∅ h its) as (cs & h1 & Hcopy & Hs1 & Hfresh & Hcs);
    [reflexivity | intros ? ? Hm; rewrite lookup_empty in Hm; discriminate | exact Ei |].
  unfold Store.autofill_invoice_data, model_copy_deep, alloc.
  rewrite Er. cbn. rewrite Hcopy. cbn.
  set (c0 := fresh (dom h1)).
  rewrite get_invoice_insert. cbn.
  rewrite UtilsFacts.fill_client_set_items.
  set (r1 := set_items (Utils.fill_client user_db r) cs).
  assert (Hi1 : items r1 = cs) by (unfold r1; destruct (Utils.fill_client user_db r); reflexivity).
  rewrite Hi1.
  set (h2 := <[c0 := InvoiceObj r1]> (<[c0 := InvoiceObj (set_items r cs)]> h1)).
  assert (Hc0 : c0 ∉ dom h) by (apply fresh_not_in; exact Hs1).
  assert (Hne : forall c, c ∈ cs -> c <> c0).
  { intros c Hc ->. apply (is_fresh (dom h1)).
    apply list_elem_of_lookup in Hc as [i Hi].
    destruct (Forall2_lookup_l _ _ _ _ _ Hcs Hi) as (it & _ & Hit).
    eapply get_item_dom; eauto. }
  assert (H2 : forall c, c ∈ cs -> get_item h2 c = get_item h1 c).
  { intros c Hc. unfold h2. rewrite !get_item_insert_ne by auto. reflexivity. }
  set (g := fun c => default (mkItem None None None None) (get_item h1 c)).
  assert (Hg : forall c it, get_item h1 c = Some it -> g c = it).
  { intros c it E. unfold g. rewrite E. reflexivity. }
  destruct (autofill_items_spec item_db g cs h2) as (h3 & Hloop & Hin & Hout).
  { intros c Hc. left. rewrite (H2 _ Hc).
    apply list_elem_of_lookup in Hc as [i Hi].
    destruct (Forall2_lookup_l _ _ _ _ _ Hcs Hi) as (it & _ & Hit).
    rewrite Hit, (Hg _ _ Hit). reflexivity. }
  rewrite Hloop. cbn.
  assert (H3 : mapM (get_item h3) cs = Some (map (Utils.autofill_item item_db) its)).
  { eapply read_items_after; [exact Hcs|].
    intros c it Hc Hit. rewrite (Hin _ Hc), (Hg _ _ Hit). reflexivity. }
  rewrite H3. cbn.
  set (r2 := Utils.fill_invoice_date today (with_amounts r1 _)).
  assert (Hi2 : items r2 = cs).
  { unfold r2, Utils.fill_invoice_date, with_amounts.
    destruct (PyStr.truthy _); destruct r1; cbn in *; exact Hi1. }
  assert (Hpriced : set_items r2 (map (Utils.autofill_item item_db) its) =
                    Utils.priced user_db item_db today (set_items r its)).
  { unfold r2, r1. rewrite <- UtilsFacts.fill_client_set_items. apply priced_set_items. }
  (* the store at the end of the loop still extends the initial one *)
  assert (Hs3 : h ⊆ h3).
  { apply map_subseteq_spec. intros k o Hk.
    assert (Hkcs : k ∉ cs).
    { intros Hkc. apply list_elem_of_lookup in Hkc as [i Hi].
      apply (Forall_lookup_1 _ _ _ _ Hfresh Hi). apply elem_of_dom. eauto. }
    rewrite (Hout _ Hkcs). unfold h2.
    assert (k <> c0) by (intros ->; apply Hc0, elem_of_dom; eauto).
    rewrite !lookup_insert_ne by auto.
    eapply lookup_weaken; eauto. }
  assert (Hs4 : h ⊆ <[c0 := InvoiceObj r2]> h3) by (apply write_outside; auto).
  assert (Hc0cs : c0 ∉ cs) by (intros Hin0; exact (Hne _ Hin0 eq_refl)).
  assert (Hitems_end : forall o, mapM (get_item (<[c0 := InvoiceObj o]> h3)) cs =
                                 Some (map (Utils.autofill_item item_db) its)).
  { intros o. apply read_items_insert_other; assumption. }
  rewrite UtilsFacts.autofill_eq, <- Hpriced, fill_due_date_set_items.
  destruct (Utils.fill_due_date today r2) as [r3|e] eqn:Edue.
  - eexists _, _. split; [reflexivity|]. split; [apply write_outside; auto|].
    split; [eapply read_invoice_weaken; [|exact Hread0]; apply write_outside; auto|].
    split; [exact Hc0|].
    eexists. split; [reflexivity|].
    unfold read_invoice. rewrite get_invoice_insert. cbn.
    rewrite (fill_due_date_items _ _ _ Edue), Hi2.
    rewrite insert_insert_eq, Hitems_end. reflexivity.
  - eexists _, _. split; [reflexivity|]. split; [exact Hs4|].
    split; [eapply read_invoice_weaken; [exact Hs4 | exact Hread0]|].
    reflexivity.
Qed.

End StoreFacts.

(** ** Locating and decoding the JSON *)

Module LlmFacts.
Import LlmService PyStr.

Lemma append_cons a (s t : string) : String a s ++ t = String a (s ++ t).
Proof. reflexivity. Qed.

Lemma append_nil (t : string) : "" ++ t = t.
Proof. reflexivity. Qed.

Lemma append_assoc (s t u : string) : (s ++ t) ++ u = s ++ t ++ u.
Proof. induction s as [|a s IH]; [reflexivity|]. rewrite !append_cons, IH. reflexivity. Qed.

(** Appends of literals, unfolded. *)
Ltac snorm := repeat (rewrite append_cons || rewrite append_nil).
Ltac snorm_in H := repeat (rewrite append_cons in H || rewrite append_nil in H).

Lemma has_char_app c (s t : string) :
  has_char c (s ++ t) = has_char c s || has_char c t.
Proof.
  induction s as [|a s IH]; snorm; simpl; [reflexivity|].
  rewrite IH, orb_assoc. reflexivity.
Qed.

Lemma starts_with_refl (s t : string) : PyStr.starts_with s (s ++ t) = true.
Proof.
  induction s as [|a s IH]; snorm; simpl; [reflexivity|].
  rewrite Ascii.eqb_refl. exact IH.
Qed.

Lemma starts_with_split (p s : string) :
  PyStr.starts_with p s = true -> exists t, s = p ++ t.
Proof.
  revert s. induction p as [|a p IH]; intros s H; simpl in H; [exists s; reflexivity|].
  destruct s as [|b s]; [discriminate|].
  apply andb_prop in H as [Hab Hp]. apply Ascii.eqb_eq in Hab as ->.
  destruct (IH _ Hp) as [t ->]. exists t. reflexivity.
Qed.

Lemma contains_app_r (s p t : string) : PyStr.contains s (p ++ s ++ t) = true.
Proof.
  induction p as [|a p IH]; snorm.
  - destruct s as [|b s]; snorm; simpl; [destruct t; reflexivity|].
    rewrite Ascii.eqb_refl, starts_with_refl. reflexivity.
  - simpl. rewrite IH. apply orb_true_r.
Qed.

Lemma lstrip_split (s : string) :
  exists ws, s = ws ++ PyStr.lstrip s /\ all_space ws = true.
Proof.
  induction s as [|a s (ws & IH & Hws)]; simpl.
  - exists "". auto.
  - destruct (PyStr.is_space a) eqn:E.
    + exists (String a ws). snorm. simpl. rewrite E, Hws, <- IH. auto.
    + exists "". auto.
Qed.

Lemma greedy_close_cons follows c t :
  greedy_close follows (String c t) =
  match greedy_close follows t with
  | Some g => Some (String c g)
  | None => if Ascii.eqb c "}" && follows t then Some (String c "") else None
  end.
Proof. reflexivity. Qed.

(** What the greedy [.*\}] took: everything up to a closing brace after
    which the pattern goes on. *)
Lemma greedy_close_sound follows t g :
  greedy_close follows t = Some g ->
  exists mid post, t = mid ++ String "}" post /\ g = mid ++ String "}" "" /\
                   follows post = true.
Proof.
  revert g. induction t as [|c t IH]; intros g H; [discriminate|].
  rewrite greedy_close_cons in H.
  destruct (greedy_close follows t) as [g'|] eqn:E.
  - injection H as <-. destruct (IH _ eq_refl) as (mid & post & -> & -> & Hf).
    exists (String c mid), post. auto.
  - destruct (Ascii.eqb c "}") eqn:Ec; [|discriminate].
    destruct (follows t) eqn:Ef; [|discriminate]. injection H as <-.
    apply Ascii.eqb_eq in Ec as ->. exists "", t. auto.
Qed.

Lemma greedy_close_none (post : string) :
  has_char "}" post = false -> greedy_close (fun _ => true) post = None.
Proof.
  induction post as [|c post IH]; simpl; [reflexivity|].
  intros H. apply orb_false_elim in H as [Hc Hp]. rewrite (IH Hp), Hc. reflexivity.
Qed.

Lemma greedy_close_last (mid post : string) :
  has_char "}" post = false ->
  greedy_close (fun _ => true) (mid ++ String "}" post) = Some (mid ++ String "}" "").
Proof.
  intros Hpost.
  induction mid as [|c mid IH]; snorm; rewrite greedy_close_cons.
  - rewrite (greedy_close_none _ Hpost). reflexivity.
  - rewrite IH. reflexivity.
Qed.

(** With nothing required after the brace, the brace taken is the last. *)
Lemma greedy_close_is_last t g :
  greedy_close (fun _ => true) t = Some g ->
  exists mid post, t = mid ++ String "}" post /\ g = mid ++ String "}" "" /\
                   has_char "}" post = false.
Proof.
  revert g. induction t as [|c t IH]; intros g H; [discriminate|].
  rewrite greedy_close_cons in H.
  destruct (greedy_close (fun _ => true) t) as [g'|] eqn:E.
  - injection H as <-. destruct (IH _ eq_refl) as (mid & post & -> & -> & Hf).
    exists (String c mid), post. auto.
  - destruct (Ascii.eqb c "}") eqn:Ec; [|discriminate]. injection H as <-.
    apply Ascii.eqb_eq in Ec as ->. exists "", t. repeat split.
    clear IH. induction t as [|a t IH]; [reflexivity|].
    rewrite greedy_close_cons in E.
    destruct (greedy_close (fun _ => true) t); [discriminate|].
    rewrite andb_true_r in E. simpl.
    destruct (Ascii.eqb a "}"); [discriminate|]. simpl. apply IH. reflexivity.
Qed.

Lemma search_cons match_at a s :
  search match_at (String a s) =
  match match_at (String a s) with
  | Some g => Some g
  | None => search match_at s
  end.
Proof. reflexivity. Qed.

Lemma search_sound match_at s g :
  search match_at s = Some g -> exists pre s', s = pre ++ s' /\ match_at s' = Some g.
Proof.
  induction s as [|c s IH].
  - simpl. destruct (match_at "") eqn:E; [|discriminate]. intros [= <-]. exists "", "". auto.
  - rewrite search_cons. destruct (match_at (String c s)) eqn:E.
    + intros [= <-]. exists "", (String c s). auto.
    + intros H. destruct (IH H) as (pre & s' & -> & Hm). exists (String c pre), s'. auto.
Qed.

Lemma match_braces_cons c t :
  match_braces (String c t) =
  if Ascii.eqb c "{" then String "{" <$> greedy_close (fun _ => true) t else None.
Proof.
  unfold match_braces.
  destruct c as [[] [] [] [] [] [] [] []]; reflexivity.
Qed.

(** The fallback pattern finds the text from the first opening brace to
    the last closing brace. *)
Lemma search_braces_spec raw c :
  search match_braces raw = Some c <->
  exists pre mid post,
    raw = pre ++ "{" ++ mid ++ "}" ++ post /\ c = "{" ++ mid ++ "}" /\
    has_char "{" pre = false /\ has_char "}" post = false.
Proof.
  split.
  - induction raw as [|a raw IH]; [discriminate|].
    rewrite search_cons, match_braces_cons.
    destruct (Ascii.eqb a "{") eqn:Ea.
    + apply Ascii.eqb_eq in Ea as ->.
      destruct (greedy_close (fun _ => true) raw) as [g|] eqn:E.
      * intros Hc. injection Hc as <-.
        destruct (greedy_close_is_last _ _ E) as (mid & post & -> & -> & Hp).
        exists "", mid, post. snorm. auto.
      * intros H. exfalso.
        destruct (IH H) as (pre & mid & post & -> & _ & _ & Hpost).
        snorm_in E.
        assert (Heq : pre ++ String "{" (mid ++ String "}" post) =
                      (pre ++ String "{" mid) ++ String "}" post)
          by (rewrite append_assoc; reflexivity).
        rewrite Heq, (greedy_close_last _ _ Hpost) in E. discriminate.
    + intros H. destruct (IH H) as (pre & mid & post & -> & -> & Hpre & Hpost).
      exists (String a pre), mid, post. repeat split; auto.
      simpl. rewrite Ea, Hpre. reflexivity.
  - intros (pre & mid & post & -> & -> & Hpre & Hpost).
    induction pre as [|a pre IH]; snorm; rewrite search_cons, match_braces_cons.
    + simpl. rewrite (greedy_close_last mid post Hpost). snorm. reflexivity.
    + simpl in Hpre. apply orb_false_elim in Hpre as [Ha Hpre]. rewrite Ha.
      specialize (IH Hpre). snorm_in IH. exact IH.
Qed.

Lemma lstrip_app_space (ws t : string) :
  all_space ws = true -> PyStr.lstrip (ws ++ t) = PyStr.lstrip t.
Proof.
  induction ws as [|a ws IH]; snorm; simpl; [reflexivity|].
  intros H. apply andb_prop in H as [Ha Hws]. rewrite Ha. auto.
Qed.

Lemma fence_follows_inv (t : string) :
  fence_follows t = true ->
  exists ws post, t = ws ++ "```" ++ post /\ all_space ws = true.
Proof.
  unfold fence_follows. intros H.
  destruct (lstrip_split t) as (ws & Ht & Hws).
  destruct (starts_with_split _ _ H) as [post Hp].
  exists ws, post. rewrite <- Hp. auto.
Qed.

Lemma fence_follows_intro (ws post : string) :
  all_space ws = true -> fence_follows (ws ++ "```" ++ post) = true.
Proof.
  intros H. unfold fence_follows. rewrite (lstrip_app_space _ _ H). reflexivity.
Qed.

Lemma match_fenced_inv s g :
  match_fenced s = Some g ->
  exists ws mid ws' post,
    s = "```json" ++ ws ++ "{" ++ mid ++ "}" ++ ws' ++ "```" ++ post /\
    g = "{" ++ mid ++ "}" /\ all_space ws = true /\ all_space ws' = true.
Proof.
  unfold match_fenced.
  destruct (PyStr.starts_with "```json" s) eqn:Es; [|discriminate].
  destruct (starts_with_split _ _ Es) as [t ->].
  change (drop 7 ("```json" ++ t)) with t.
  destruct (lstrip_split t) as (ws & Ht & Hws).
  destruct (PyStr.lstrip t) as [|c t'] eqn:El; [discriminate|].
  destruct (Ascii.eqb c "{") eqn:Ec.
  2:{ destruct c as [[] [] [] [] [] [] [] []]; try discriminate. }
  apply Ascii.eqb_eq in Ec as ->.
  destruct (greedy_close fence_follows t') as [g'|] eqn:E; [|discriminate].
  intros [= <-].
  destruct (greedy_close_sound _ _ _ E) as (mid & after & -> & -> & Hf).
  destruct (fence_follows_inv _ Hf) as (ws' & post & -> & Hws').
  exists ws, mid, ws', post. rewrite Ht at 1. snorm. auto.
Qed.

Lemma greedy_close_exists follows (mid post : string) :
  follows post = true -> is_Some (greedy_close follows (mid ++ String "}" post)).
Proof.
  intros Hf. induction mid as [|c mid [g IH]]; snorm; rewrite greedy_close_cons.
  - destruct (greedy_close follows post); [eauto|]. rewrite Hf. simpl. eauto.
  - rewrite IH. eauto.
Qed.

Lemma match_fenced_intro (ws mid ws' post : string) :
  all_space ws = true -> all_space ws' = true ->
  is_Some (match_fenced ("```json" ++ ws ++ "{" ++ mid ++ "}" ++ ws' ++ "```" ++ post)).
Proof.
  intros Hws Hws'. unfold match_fenced.
  rewrite starts_with_refl.
  change (drop 7 ("```json" ++ ?t)) with t.
  rewrite (lstrip_app_space _ _ Hws). snorm. simpl.
  destruct (greedy_close_exists fence_follows mid (ws' ++ "```" ++ post)) as [g Hg].
  { apply fence_follows_intro, Hws'. }
  snorm_in Hg. rewrite Hg. simpl. eauto.
Qed.

Lemma search_complete match_at (pre s : string) :
  is_Some (match_at s) -> is_Some (search match_at (pre ++ s)).
Proof.
  intros [g Hg]. induction pre as [|a pre IH]; snorm.
  - destruct s; simpl; rewrite Hg; eauto.
  - rewrite search_cons. destruct (match_at (String a (pre ++ s))); eauto.
Qed.

End LlmFacts.

(** ** Validation at construction *)

Module ConstructionFacts.
Import Models ModelsFacts.

Lemma items_errors_lookup (ps : list ItemPayload) : forall (n i : nat) q loc k,
  ps !! i = Some q ->
  In (loc, k) (item_errors q) ->
  In (LField "items" :: LIndex (n + i) :: loc, k) (items_errors n ps).
Proof.
  induction ps as [|p ps IH]; intros n i q loc k Hi Hin; [discriminate|].
  cbn [items_errors]. apply in_or_app. destruct i as [|i]; cbn in Hi.
  - injection Hi as ->. left. rewrite Nat.add_0_r. unfold at_index.
    apply (in_map (fun e => (LField "items" :: LIndex n :: fst e, snd e)) _ _ Hin).
  - right. replace (n + S i)%nat with (S n + i)%nat by lia. eapply IH; eauto.
Qed.

Lemma tax_rate_errors_listed (v : option (option float)) :
  SpecWords.tax_rate_constraint v = false ->
  exists k, In ([LField "tax_rate"], k) (tax_rate_errors v).
Proof.
  unfold SpecWords.tax_rate_constraint, tax_rate_errors.
  destruct v as [[x|]|]; try discriminate.
  destruct (PrimFloat.leb x 1); cbn.
  - rewrite andb_true_r. intros ->. cbn. eexists. left. reflexivity.
  - intros _. eexists. left. reflexivity.
Qed.

Lemma construct_item_raises (p : ItemPayload) loc k :
  In (loc, k) (item_errors p) ->
  construct_item p = Raise (ValidationError (item_errors p)).
Proof.
  unfold construct_item. destruct (item_errors p); [intros [] | reflexivity].
Qed.

Lemma construct_invoice_raises (pl : InvoicePayload) loc k :
  In (loc, k) (invoice_errors pl) ->
  construct_invoice pl = Raise (ValidationError (invoice_errors pl)).
Proof.
  unfold construct_invoice. destruct (invoice_errors pl); [intros [] | reflexivity].
Qed.

Lemma numeric_field_listed (p : ItemPayload) (field : string) :
  field = "quantity" \/ field = "unit_price" ->
  ((exists k, In ([LField field], k) (item_errors p)) <->
   SpecWords.line_item_constraint p field = false).
Proof.
  intros Hf. rewrite item_errors_field. unfold SpecWords.line_item_constraint.
  destruct Hf as [-> | ->]; cbn; split.
  - intros [[H _] | [[_ H] | [H _]]]; [discriminate H | exact H | discriminate H].
  - auto.
  - intros [[H _] | [[H _] | [_ H]]]; [discriminate H | discriminate H | exact H].
  - auto.
Qed.

Lemma description_listed (p : ItemPayload) :
  (exists k, In ([LField "description"], k) (item_errors p)) <-> p_description p = None.
Proof.
  rewrite item_errors_field. split.
  - intros [[_ H] | [[H _] | [H _]]]; [exact H | discriminate H | discriminate H].
  - auto.
Qed.

Lemma item_errors_located (p : ItemPayload) loc k :
  In (loc, k) (item_errors p) ->
  exists field, In field SpecWords.line_item_fields /\ loc = [LField field].
Proof.
  unfold item_errors, required, required_gt0, SpecWords.line_item_fields.
  rewrite !in_app_iff.
  destruct (p_description p), (p_quantity p) as [x|], (p_unit_price p) as [y|];
    try destruct (PrimFloat.ltb 0 x); try destruct (PrimFloat.ltb 0 y); cbn;
    intros H; repeat (destruct H as [H | H]); try contradiction;
    injection H as <- _; eexists; (split; [|reflexivity]); cbn; auto.
Qed.

(** C9, as the code has it. Construction checks the constraints that [models.py]
    declares and reports every field that violates one.  For [quantity]
    and [unit_price] these are the constraints of the data model: the
    field is listed exactly when it is missing or not strictly positive.
    For [description] the code requires presence only: it is listed
    exactly when it is missing.  The item is built exactly when nothing
    is listed; otherwise a [ValidationError] carrying the whole list is
    raised, so every violating field is in it, not just the first.  A
    quantity of -1 is reported under [quantity].  In an invoice the
    errors of the items are reported at [items / index / field], next to
    the error of a [tax_rate] outside [0, 1]. *)
Theorem construction_lists_declared_violations (p : ItemPayload) (pl : InvoicePayload) :
  (forall field, field = "quantity" \/ field = "unit_price" ->
     ((exists k, In ([LField field], k) (item_errors p)) <->
      SpecWords.line_item_constraint p field = false)) /\
  ((exists k, In ([LField "description"], k) (item_errors p)) <-> p_description p = None) /\
  (forall loc k, In (loc, k) (item_errors p) ->
                 exists field, In field SpecWords.line_item_fields /\ loc = [LField field]) /\
  ((exists it, construct_item p = Return it) <->
   (exists d, p_description p = Some d) /\
   SpecWords.line_item_constraint p "quantity" = true /\
   SpecWords.line_item_constraint p "unit_price" = true) /\
  (forall e, construct_item p = Raise e -> e = ValidationError (item_errors p)) /\
  (p_quantity p = Some (-1)%float ->
   construct_item p = Raise (ValidationError (item_errors p)) /\
   In ([LField "quantity"], greater_than) (item_errors p)) /\
  (forall (i : nat) (q : ItemPayload) (field : string),
      p_items pl !! i = Some q ->
      (field = "description" /\ p_description q = None) \/
      ((field = "quantity" \/ field = "unit_price") /\
       SpecWords.line_item_constraint q field = false) ->
      exists k,
        construct_invoice pl = Raise (ValidationError (invoice_errors pl)) /\
        In ([LField "items"; LIndex i; LField field], k) (invoice_errors pl)) /\
  (SpecWords.tax_rate_constraint (p_tax_rate pl) = false ->
   exists k,
     construct_invoice pl = Raise (ValidationError (invoice_errors pl)) /\
     In ([LField "tax_rate"], k) (invoice_errors pl)).
Proof.
  split; [exact (numeric_field_listed p)|].
  split; [exact (description_listed p)|].
  split; [exact (item_errors_located p)|].
  split.
  { split.
    - intros [it Hit].
      assert (Hnone : forall loc k, ~ In (loc, k) (item_errors p)).
      { intros loc k Hin. rewrite (construct_item_raises _ _ _ Hin) in Hit. discriminate. }
      split; [|split].
      + destruct (p_description p) as [d|] eqn:E; [eauto|].
        destruct (proj2 (description_listed p) E) as [k Hk]. destruct (Hnone _ _ Hk).
      + destruct (SpecWords.line_item_constraint p "quantity") eqn:E; [reflexivity|].
        destruct (proj2 (numeric_field_listed p "quantity" (or_introl eq_refl)) E) as [k Hk].
        destruct (Hnone _ _ Hk).
      + destruct (SpecWords.line_item_constraint p "unit_price") eqn:E; [reflexivity|].
        destruct (proj2 (numeric_field_listed p "unit_price" (or_intror eq_refl)) E) as [k Hk].
        destruct (Hnone _ _ Hk).
    - intros ([d Hd] & Hq & Hu). unfold construct_item.
      destruct (item_errors p) as [|[loc k] errs] eqn:E; [eauto|].
      exfalso.
      assert (Hin : In (loc, k) (item_errors p)) by (rewrite E; left; reflexivity).
      destruct (item_errors_located _ _ _ Hin) as (field & Hf & ->).
      destruct Hf as [<- | [<- | [<- | []]]].
      + assert (H : p_description p = None) by (apply description_listed; eauto).
        congruence.
      + assert (H : SpecWords.line_item_constraint p "quantity" = false)
          by (apply numeric_field_listed; eauto).
        congruence.
      + assert (H : SpecWords.line_item_constraint p "unit_price" = false)
          by (apply numeric_field_listed; eauto).
        congruence. }
  split.
  { unfold construct_item. intros e.
    destruct (item_errors p); [discriminate | intros [= <-]; reflexivity]. }
  split.
  { intros Hq.
    assert (Hin : In ([LField "quantity"], greater_than) (item_errors p)).
    { unfold item_errors. rewrite Hq. rewrite !in_app_iff. right. left. left. reflexivity. }
    split; [eapply construct_item_raises; exact Hin | exact Hin]. }
  split.
  { intros i q field Hi Hbad.
    assert (Hk : exists k, In ([LField field], k) (item_errors q)).
    { destruct Hbad as [[-> Hd] | [Hf Hc]].
      - apply description_listed, Hd.
      - apply (numeric_field_listed q field Hf), Hc. }
    destruct Hk as [k Hk]. exists k.
    assert (Hin : In ([LField "items"; LIndex i; LField field], k) (invoice_errors pl)).
    { unfold invoice_errors. apply in_or_app. left.
      apply (items_errors_lookup _ 0%nat i q _ _ Hi Hk). }
    split; [eapply construct_invoice_raises; exact Hin | exact Hin]. }
  intros Hbad. destruct (tax_rate_errors_listed _ Hbad) as [k Hk]. exists k.
  assert (Hin : In ([LField "tax_rate"], k) (invoice_errors pl)).
  { unfold invoice_errors. apply in_or_app. right. exact Hk. }
  split; [eapply construct_invoice_raises; exact Hin | exact Hin].
Qed.

(** C9, as the specification words it, fails: the data model makes the
    description a non-empty text, and construction does not check it: an item whose
    description is the empty text violates that constraint, yet no error
    is listed and the item is built, alone and inside an invoice. *)
Lemma empty_description_accepted :
  SpecWords.line_item_constraint Examples.blank_description_payload "description" = false /\
  item_errors Examples.blank_description_payload = [] /\
  construct_item Examples.blank_description_payload =
    Return (mkItem (Some EmptyString) (Some 1%float) (Some 25%float) (Some 25%float)) /\
  exists r : InvoiceData,
    construct_invoice Examples.blank_description_invoice_payload = Return r /\
    items r = [mkItem (Some EmptyString) (Some 1%float) (Some 25%float) (Some 25%float)].
Proof.
  split; [reflexivity|]. split; [reflexivity|]. split; [vm_compute; reflexivity|].
  eexists. split; vm_compute; reflexivity.
Qed.

End ConstructionFacts.

(** ** The two patterns of the extractor *)

Module ExtractionFacts.
Import LlmService PyStr LlmFacts.

Lemma message_starts (detail : string -> string) (span : string) :
  malformed_message detail span <> no_json_message.
Proof. unfold malformed_message, no_json_message. rewrite !append_cons. discriminate. Qed.

Lemma append_empty_r (s : string) : s ++ "" = s.
Proof. induction s as [|a s IH]; [reflexivity|]. rewrite append_cons, IH. reflexivity. Qed.

Lemma message_carries_span (detail : string -> string) (span : string) :
  contains span (malformed_message detail span) = true.
Proof.
  pose proof (contains_app_r span
    ("Failed to decode JSON from LLM output: " ++ detail span ++ ". Raw output: ") "") as H.
  rewrite append_empty_r, !append_assoc in H. exact H.
Qed.

Lemma fenced_has_braces (pre ws mid ws' post : string) :
  has_char "{" (pre ++ "```json" ++ ws ++ "{" ++ mid ++ "}" ++ ws' ++ "```" ++ post) = true /\
  has_char "}" (pre ++ "```json" ++ ws ++ "{" ++ mid ++ "}" ++ ws' ++ "```" ++ post) = true.
Proof.
  rewrite !has_char_app. simpl. rewrite !orb_true_r. auto.
Qed.

Lemma braces_has_braces (pre mid post : string) :
  has_char "{" (pre ++ "{" ++ mid ++ "}" ++ post) = true /\
  has_char "}" (pre ++ "{" ++ mid ++ "}" ++ post) = true.
Proof.
  rewrite !has_char_app. simpl. rewrite !orb_true_r. auto.
Qed.

(** A text with no opening brace, or with no closing brace, has no
    candidate. *)
Lemma extract_none_without_braces (raw : string) :
  has_char "{" raw = false \/ has_char "}" raw = false ->
  extract_json_str raw = None.
Proof.
  intros Hno. destruct (extract_json_str raw) as [c|] eqn:E; [exfalso | reflexivity].
  unfold extract_json_str in E.
  destruct (search match_fenced raw) as [g|] eqn:Ef.
  - destruct (search_sound _ _ _ Ef) as (pre & s' & -> & Hm).
    destruct (match_fenced_inv _ _ Hm) as (ws & mid & ws' & post & -> & _).
    destruct (fenced_has_braces pre ws mid ws' post) as [H1 H2].
    destruct Hno as [H | H]; congruence.
  - apply search_braces_spec in E as (pre & mid & post & -> & _).
    destruct (braces_has_braces pre mid post) as [H1 H2].
    destruct Hno as [H | H]; congruence.
Qed.

(** C5, as the code has it. The candidate is looked for first as a fenced
    block: wherever the text holds [```json], white space, a span from
    an opening to a closing brace, white space and [```], the fenced
    pattern matches and its span is the candidate.  Only when the fenced
    pattern does not match is the fallback used, and its candidate runs
    from the first opening brace of the text to its last closing brace,
    balanced or not. *)
Theorem extract_json_str_spec (raw : string) :
  (forall g, search match_fenced raw = Some g ->
     extract_json_str raw = Some g /\
     exists pre ws mid ws' post,
       raw = pre ++ "```json" ++ ws ++ "{" ++ mid ++ "}" ++ ws' ++ "```" ++ post /\
       g = "{" ++ mid ++ "}" /\ all_space ws = true /\ all_space ws' = true) /\
  (forall pre ws mid ws' post,
     raw = pre ++ "```json" ++ ws ++ "{" ++ mid ++ "}" ++ ws' ++ "```" ++ post ->
     all_space ws = true -> all_space ws' = true ->
     exists g, search match_fenced raw = Some g /\ extract_json_str raw = Some g) /\
  (search match_fenced raw = None ->
   forall c,
     extract_json_str raw = Some c <->
     exists pre mid post,
       raw = pre ++ "{" ++ mid ++ "}" ++ post /\ c = "{" ++ mid ++ "}" /\
       has_char "{" pre = false /\ has_char "}" post = false).
Proof.
  split; [|split].
  - intros g Hg. split; [unfold extract_json_str; rewrite Hg; reflexivity|].
    destruct (search_sound _ _ _ Hg) as (pre & s' & -> & Hm).
    destruct (match_fenced_inv _ _ Hm) as (ws & mid & ws' & post & -> & -> & Hws & Hws').
    exists pre, ws, mid, ws', post. auto.
  - intros pre ws mid ws' post -> Hws Hws'.
    destruct (search_complete match_fenced pre _ (match_fenced_intro ws mid ws' post Hws Hws'))
      as [g Hg].
    exists g. split; [exact Hg|]. unfold extract_json_str. rewrite Hg. reflexivity.
  - intros Hnone c. unfold extract_json_str. rewrite Hnone. apply search_braces_spec.
Qed.

(** C5, as the specification words it, fails: on the text [{a} }] no fence
    is present, the candidate taken is the whole text, which is not
    balanced, while the outermost balanced span is [{a}]. *)
Lemma fallback_span_unbalanced :
  search match_fenced "{a} }" = None /\
  extract_json_str "{a} }" = Some "{a} }" /\
  SpecWords.outermost_balanced_span "{a} }" = Some "{a}".
Proof. repeat split; vm_compute; reflexivity. Qed.

(** C6, as the code has it. The error for a missing candidate is raised
    exactly when neither pattern matches, which covers every text without
    an opening or without a closing brace; the error for undecodable JSON
    is raised exactly when a candidate is found and [json.loads] rejects
    it; no other error comes out of this stage.  Both are [ValueError]s
    with different messages; the second message ends with the candidate,
    the first is a fixed text. *)
Theorem extract_json_failures (detail : string -> string) (raw : string) :
  (extract_json detail raw = Raise (ValueError no_json_message) <->
   extract_json_str raw = None) /\
  (has_char "{" raw = false \/ has_char "}" raw = false ->
   extract_json detail raw = Raise (ValueError no_json_message)) /\
  (forall span, extract_json_str raw = Some span ->
     (extract_json detail raw = Raise (ValueError (malformed_message detail span)) <->
      Json.loads span = None)) /\
  (forall e, extract_json detail raw = Raise e ->
     e = ValueError no_json_message \/
     exists span, extract_json_str raw = Some span /\ Json.loads span = None /\
                  e = ValueError (malformed_message detail span)) /\
  (forall span,
     malformed_message detail span <> no_json_message /\
     contains span (malformed_message detail span) = true) /\
  (raw = Examples.malformed_text ->
   extract_json detail raw = Raise (ValueError (malformed_message detail raw))).
Proof.
  unfold extract_json.
  split; [|split; [|split; [|split; [|split]]]].
  - destruct (extract_json_str raw) as [span|]; [|split; reflexivity].
    destruct (Json.loads span); split; try discriminate;
      intros [= H]; exfalso; exact (message_starts _ _ H).
  - intros Hno. rewrite (extract_none_without_braces _ Hno). reflexivity.
  - intros span ->. destruct (Json.loads span); split; try discriminate; reflexivity.
  - intros e. destruct (extract_json_str raw) as [span|]; [|intros [= <-]; auto].
    destruct (Json.loads span) eqn:El; [discriminate|].
    intros [= <-]. right. exists span. auto.
  - intros span. split; [apply message_starts | apply message_carries_span].
  - intros ->. reflexivity.
Qed.

(** C6, as the specification words it, fails: for the text [no json here]
    the error raised is the fixed message, which does not carry the text. *)
Lemma no_json_message_lacks_raw_text :
  extract_json (fun _ => "Expecting value") "no json here" =
    Raise (ValueError "Could not extract a valid JSON object from LLM output.") /\
  contains "no json here" "Could not extract a valid JSON object from LLM output." = false.
Proof. split; vm_compute; reflexivity. Qed.

End ExtractionFacts.

(** ** The pipeline on sample inputs, and what follows from construction *)

Module PipelineFacts.
Import Models Utils UtilsFacts.

Lemma item_post_init_total (it : InvoiceItem) (t : float) :
  total it = Some t -> item_post_init it = it.
Proof. unfold item_post_init. intros ->. reflexivity. Qed.

(** C8: the code is not total. A payload that passes construction, with
    an invoice date in the last days of the year 9999 and no due date,
    makes [autofill_invoice_data] raise [OverflowError] whatever the
    current date is: the addition of 30 days is outside the handler. *)
Theorem autofill_overflows (today : PyDate.date) :
  exists r : InvoiceData,
    construct_invoice Examples.far_future_payload = Return r /\
    autofill_invoice_data Config.user_db Config.item_db today r =
      Raise (OverflowError "date value out of range").
Proof. eexists. split; [vm_compute; reflexivity | reflexivity]. Qed.

(** C10. An item given with a total that is not quantity times unit price
    is accepted as it is, by [InvoiceItem] and inside an [InvoiceData];
    the reconciler then replaces the total by
    [round(quantity * unit_price, 2)], leaving the other fields alone. *)
Theorem inconsistent_total_replaced
        (user_db : table ClientInfo) (item_db : table ItemInfo) (today : PyDate.date)
        (d : string) (q u t : float) (pl : InvoicePayload) (r r' : InvoiceData) (i : nat) :
  PrimFloat.ltb 0%float q = true ->
  PrimFloat.ltb 0%float u = true ->
  p_items pl !! i = Some (mkItemPayload (Some d) (Some q) (Some u) (Some t)) ->
  construct_invoice pl = Return r ->
  autofill_invoice_data user_db item_db today r = Return r' ->
  construct_item (mkItemPayload (Some d) (Some q) (Some u) (Some t)) =
    Return (mkItem (Some d) (Some q) (Some u) (Some t)) /\
  items r !! i = Some (mkItem (Some d) (Some q) (Some u) (Some t)) /\
  items r' !! i = Some (mkItem (Some d) (Some q) (Some u)
                               (Some (PyFloat.round2 (q * u)%float))).
Proof.
  intros Hq Hu Hi Hc Ha.
  assert (Hitem : items r !! i = Some (mkItem (Some d) (Some q) (Some u) (Some t))).
  { unfold construct_invoice in Hc. destruct (invoice_errors pl); [|discriminate].
    injection Hc as <-. unfold invoice_post_init, with_amounts, invoice_of_payload. cbn.
    rewrite !list_lookup_fmap, Hi. reflexivity. }
  split; [|split; [exact Hitem|]].
  - unfold construct_item, item_errors, required_gt0. cbn. rewrite Hq, Hu. reflexivity.
  - rewrite (autofill_items_eq _ _ _ _ _ Ha), list_lookup_fmap, Hitem. cbn.
    rewrite autofill_item_eq. cbn.
    unfold price_after, lacks_price. rewrite (positive_truthy _ Hu). cbn.
    destruct d; reflexivity.
Qed.

(** The sample invoice with an inconsistent total, as constructed and as
    reconciled. *)
Lemma inconsistent_total_replaced_witness :
  exists r r' : InvoiceData,
    construct_invoice Examples.inconsistent_invoice_payload = Return r /\
    autofill_invoice_data Config.user_db Config.item_db Examples.today r = Return r' /\
    items r !! 0%nat = Some (mkItem (Some "Mouse") (Some 2%float) (Some 25%float) (Some 99%float)) /\
    items r' !! 0%nat = Some (mkItem (Some "Mouse") (Some 2%float) (Some 25%float) (Some 50%float)).
Proof.
  eexists _, _.
  split; [vm_compute; reflexivity|].
  split; [vm_compute; reflexivity|].
  refine (proj2 (inconsistent_total_replaced
            Config.user_db Config.item_db Examples.today
            "Mouse" 2%float 25%float 99%float
            Examples.inconsistent_invoice_payload _ _ 0%nat _ _ _ _ _));
    vm_compute; reflexivity.
Defined.

(** The laptop invoice satisfies the invariants after reconciliation. *)
Lemma autofill_invariants_witness :
  autofill_invoice_data Config.user_db Config.item_db Examples.today Examples.laptop_invoice =
    Return Examples.laptop_reconciled /\
  exists ts : list float,
    map total (items Examples.laptop_reconciled) = map Some ts /\
    subtotal Examples.laptop_reconciled = Some (PyFloat.round2 (PyFloat.fsum ts)) /\
    due_date Examples.laptop_reconciled <> None.
Proof.
  assert (H : autofill_invoice_data Config.user_db Config.item_db Examples.today
                Examples.laptop_invoice = Return Examples.laptop_reconciled)
    by (vm_compute; reflexivity).
  split; [exact H|].
  destruct (autofill_invariants _ _ _ _ _ H)
    as (ts & s & t & idate & ddate & Hts & -> & _ & Hs & _ & _ & _ & _ & _ & _ & _ & Hd & _).
  exists ts. rewrite Hd. repeat split; [exact Hts | exact Hs | discriminate].
Defined.

(** The keyboard item gets the catalog price. *)
Lemma catalog_fill_witness :
  autofill_invoice_data Config.user_db Config.item_db Examples.today Examples.keyboard_invoice =
    Return Examples.keyboard_reconciled /\
  exists it' : InvoiceItem,
    items Examples.keyboard_reconciled !! 0%nat = Some it' /\
    unit_price it' = Some 75%float /\ total it' = Some 150%float.
Proof.
  assert (H : autofill_invoice_data Config.user_db Config.item_db Examples.today
                Examples.keyboard_invoice = Return Examples.keyboard_reconciled)
    by (vm_compute; reflexivity).
  split; [exact H|].
  destruct (catalog_fill Config.user_db Config.item_db Examples.today
              Examples.keyboard_invoice Examples.keyboard_reconciled 0%nat
              Examples.keyboard_item "Mechanical Keyboard Pro" H
              eq_refl eq_refl ltac:(discriminate) eq_refl)
    as (it' & Hit & _ & _ & Hkb).
  exists it'. split; [exact Hit|]. exact (Hkb eq_refl eq_refl eq_refl).
Defined.

(** A rate of 5% survives the lookup of a client whose default is 9%. *)
Lemma tax_rate_update_witness :
  autofill_invoice_data Config.user_db Config.item_db Examples.today Examples.acme_invoice =
    Return Examples.acme_reconciled /\
  lookup_client Config.user_db (client_name Examples.acme_invoice) =
    table_get Config.user_db "acme corp" /\
  tax_rate Examples.acme_reconciled = Some 0.05%float.
Proof.
  assert (H : autofill_invoice_data Config.user_db Config.item_db Examples.today
                Examples.acme_invoice = Return Examples.acme_reconciled)
    by (vm_compute; reflexivity).
  split; [exact H|]. split; [reflexivity|].
  destruct (tax_rate_update Config.user_db Config.item_db Examples.today _ _ H)
    as (_ & Hkept & _).
  apply Hkept; reflexivity.
Defined.

(** The store of the sample call: the argument is still there afterwards. *)
Lemma autofill_leaves_argument_witness :
  Store.read_invoice Examples.sample_store 2%positive = Some Examples.keyboard_invoice /\
  exists (res : result Store.loc) (h' : Store.store),
    Store.autofill_invoice_data Config.user_db Config.item_db Examples.today
      2%positive Examples.sample_store = Some (res, h') /\
    Store.read_invoice h' 2%positive = Some Examples.keyboard_invoice.
Proof.
  assert (H : Store.read_invoice Examples.sample_store 2%positive =
              Some Examples.keyboard_invoice) by (vm_compute; reflexivity).
  split; [exact H|].
  destruct (StoreFacts.autofill_leaves_argument Config.user_db Config.item_db
              Examples.today _ _ _ H) as (res & h' & Hrun & _ & Hkept & _).
  exists res, h'. split; assumption.
Defined.

End PipelineFacts.

(** ** More on the reconciler and on construction *)

Module ReconcileFacts.
Import Models Utils UtilsFacts Validity.

Section Facts.

Variable user_db : table ClientInfo.
Variable item_db : table ItemInfo.
Variable today : PyDate.date.

Local Abbreviation autofill := (autofill_invoice_data user_db item_db today).

Lemma priced_invoice_date (r : InvoiceData) :
  invoice_date (priced user_db item_db today r) = Some (effective_invoice_date today r).
Proof.
  destruct (priced_fields user_db item_db today r) as (_ & _ & _ & _ & _ & _ & ->).
  unfold effective_invoice_date. destruct (invoice_date r) as [[|c s]|]; reflexivity.
Qed.

(** X1. The only failure of the reconciler: it raises exactly when no
    due date is set and 30 days after the date it parses (the invoice
    date, or the current date when that cannot be parsed) fall beyond
    the year 9999, and then the exception is the [OverflowError]. *)
Theorem autofill_raises_iff (r : InvoiceData) (e : exn) :
  autofill r = Raise e <->
  e = OverflowError "date value out of range" /\
  PyStr.truthy (due_date r) = false /\
  PyDate.add_days
    (default today (PyDate.strptime (effective_invoice_date today r))) 30 = None.
Proof.
  rewrite autofill_eq. unfold fill_due_date, plus_30_days.
  rewrite priced_invoice_date.
  destruct (priced_fields user_db item_db today r) as (_ & _ & _ & _ & _ & -> & _).
  cbn [mbind option_bind].
  destruct (PyStr.truthy (due_date r)).
  - split; [discriminate | intros (_ & H & _); discriminate].
  - destruct (PyDate.strptime (effective_invoice_date today r)) as [d|]; cbn;
      [destruct (PyDate.add_days d 30) eqn:E | destruct (PyDate.add_days today 30) eqn:E]; cbn.
    all: split; [ try discriminate; intros [= <-]; auto
                | intros (-> & _ & H); try discriminate; reflexivity ].
Qed.

(** X2. What the reconciler never touches: the client name, the invoice
    number, the notes, the number and order of the items, and the
    description and quantity of each item. *)
Theorem autofill_frame (r r' : InvoiceData) :
  autofill r = Return r' ->
  client_name r' = client_name r /\
  invoice_number r' = invoice_number r /\
  notes r' = notes r /\
  length (items r') = length (items r) /\
  (forall (i : nat) (it : InvoiceItem),
      items r !! i = Some it ->
      exists it', items r' !! i = Some it' /\
                  description it' = description it /\ quantity it' = quantity it).
Proof.
  intros H. pose proof (autofill_items_eq _ _ _ _ _ H) as Hi.
  rewrite autofill_eq in H.
  destruct (fill_due_date_inv _ _ _ H) as (dd & -> & _).
  assert (Hcn : client_name (priced user_db item_db today r) = client_name r /\
                invoice_number (priced user_db item_db today r) = invoice_number r /\
                notes (priced user_db item_db today r) = notes r).
  { unfold priced, fill_invoice_date, with_amounts.
    destruct r as [cn ca inum idate ddt its st tr ta gt nt].
    unfold fill_client; cbn.
    destruct (lookup_client user_db cn); cbn;
      repeat (match goal with |- context [if ?b then _ else _] => destruct b end; cbn); auto. }
  destruct Hcn as (Hcn & Hin & Hnt).
  repeat split.
  - destruct (priced user_db item_db today r); exact Hcn.
  - destruct (priced user_db item_db today r); exact Hin.
  - destruct (priced user_db item_db today r); exact Hnt.
  - rewrite Hi. apply length_map.
  - intros i it Hit. exists (autofill_item item_db it).
    rewrite Hi, list_lookup_fmap, Hit. split; [reflexivity|].
    rewrite autofill_item_eq. auto.
Qed.

(** X3. The client address is filled, never overwritten: an address that
    is set stays; an unset one becomes the address of the matched client;
    without a match nothing changes. *)
Theorem client_address_fill (r r' : InvoiceData) :
  autofill r = Return r' ->
  (PyStr.truthy (client_address r) = true -> client_address r' = client_address r) /\
  (forall info, PyStr.truthy (client_address r) = false ->
                lookup_client user_db (client_name r) = Some info ->
                client_address r' = ci_address info) /\
  (lookup_client user_db (client_name r) = None -> client_address r' = client_address r).
Proof.
  intros H. rewrite autofill_eq in H.
  destruct (fill_due_date_fields _ _ _ H) as (_ & -> & _).
  assert (E : client_address (priced user_db item_db today r) =
              client_address (fill_client user_db r)).
  { unfold priced, fill_invoice_date, with_amounts.
    destruct (fill_client user_db r); cbn.
    match goal with |- context [if ?b then _ else _] => destruct b end; reflexivity. }
  rewrite E. destruct r as [cn ca inum idate ddt its st tr ta gt nt].
  unfold fill_client; cbn. repeat split.
  - intros Hca. destruct (lookup_client user_db cn); [|reflexivity].
    rewrite Hca; cbn. destruct (unset_or_default tr); reflexivity.
  - intros info Hca ->. rewrite Hca; cbn. destruct (unset_or_default tr); reflexivity.
  - intros ->. reflexivity.
Qed.

(** *** Records that satisfy the declared constraints *)

Lemma valid_item_fields (it : InvoiceItem) :
  valid_item it = true ->
  exists d q u t,
    it = mkItem (Some d) (Some q) (Some u) (Some t) /\
    PrimFloat.ltb 0%float q = true /\ PrimFloat.ltb 0%float u = true.
Proof.
  destruct it as [[d|] [q|] [u|] [t|]]; unfold valid_item, field_ok; cbn;
    try discriminate; try (rewrite andb_false_r; discriminate).
  intros H. apply andb_prop in H as [Hq Hu]. exists d, q, u, t. auto.
Qed.

(** On a valid item the loop body only recomputes the total. *)
Lemma autofill_item_valid (db : table ItemInfo) (it : InvoiceItem) :
  valid_item it = true ->
  autofill_item db it =
  set_total it (option_map (fun q => PyFloat.round2 (q * default 0%float (unit_price it))%float)
                           (quantity it)) /\
  valid_item (autofill_item db it) = true.
Proof.
  intros H. destruct (valid_item_fields _ H) as (d & q & u & t & -> & Hq & Hu).
  rewrite autofill_item_eq. cbn.
  unfold price_after, lacks_price. rewrite (positive_truthy _ Hu). cbn.
  assert (E : match d with
              | "" => Some u
              | String _ _ => Some u
              end = Some u) by (destruct d; reflexivity).
  rewrite E. cbn. split; [reflexivity|].
  unfold valid_item, field_ok. cbn. rewrite Hq, Hu. reflexivity.
Qed.

Lemma autofill_items_valid (db : table ItemInfo) (its : list InvoiceItem) :
  forallb valid_item its = true ->
  map (autofill_item db) its = map (autofill_item []) its /\
  map unit_price (map (autofill_item db) its) = map unit_price its /\
  forallb valid_item (map (autofill_item db) its) = true.
Proof.
  induction its as [|it its IH]; cbn; [auto|].
  intros H. apply andb_prop in H as [Hit Hits].
  destruct (IH Hits) as (E1 & E2 & E3).
  destruct (autofill_item_valid db it Hit) as [Ea Hv].
  destruct (autofill_item_valid [] it Hit) as [Eb _].
  split; [|split].
  - rewrite E1, Ea, Eb. reflexivity.
  - rewrite E2, Ea. destruct it; reflexivity.
  - rewrite Hv, E3. reflexivity.
Qed.

Lemma at_index_nil i errs : at_index i errs = [] -> errs = [].
Proof. destruct errs; [reflexivity | discriminate]. Qed.

Lemma items_errors_nil (ps : list ItemPayload) : forall n,
  items_errors n ps = [] -> Forall (fun p => item_errors p = []) ps.
Proof.
  induction ps as [|p ps IH]; intros n H; constructor; cbn in H;
    apply app_eq_nil in H as [H1 H2].
  - exact (at_index_nil _ _ H1).
  - exact (IH _ H2).
Qed.

Lemma item_errors_nil (p : ItemPayload) :
  item_errors p = [] ->
  exists d q u,
    p_description p = Some d /\ p_quantity p = Some q /\ p_unit_price p = Some u /\
    PrimFloat.ltb 0%float q = true /\ PrimFloat.ltb 0%float u = true.
Proof.
  unfold item_errors, required, required_gt0.
  destruct (p_description p) as [d|]; [|discriminate].
  destruct (p_quantity p) as [q|]; [|discriminate].
  destruct (PrimFloat.ltb 0 q) eqn:Hq; [|discriminate].
  destruct (p_unit_price p) as [u|]; [|discriminate].
  destruct (PrimFloat.ltb 0 u) eqn:Hu; [|discriminate].
  eauto 10.
Qed.

(** The item object built from a payload without errors. *)
Lemma constructed_item (p : ItemPayload) :
  item_errors p = [] ->
  exists d q u,
    p_description p = Some d /\ p_quantity p = Some q /\ p_unit_price p = Some u /\
    PrimFloat.ltb 0%float q = true /\ PrimFloat.ltb 0%float u = true /\
    item_post_init (item_post_init (item_of_payload p)) =
    mkItem (Some d) (Some q) (Some u)
           (Some (default (PyFloat.round2 (q * u)%float) (p_total p))).
Proof.
  intros H. destruct (item_errors_nil _ H) as (d & q & u & Hd & Hq & Hu & Hq0 & Hu0).
  exists d, q, u. repeat (split; [assumption|]).
  unfold item_of_payload, item_post_init. rewrite Hd, Hq, Hu.
  destruct (p_total p); reflexivity.
Qed.

Lemma tax_rate_errors_nil (v : option (option float)) :
  tax_rate_errors v = [] ->
  valid_tax_rate (match v with None => Some default_tax_rate | Some x => x end) = true.
Proof.
  destruct v as [[x|]|]; cbn; try reflexivity.
  destruct (PrimFloat.leb x 1); cbn; [|discriminate].
  destruct (PrimFloat.leb 0 x); cbn; [reflexivity | discriminate].
Qed.

Lemma constructed_items (pl : InvoicePayload) (r : InvoiceData) :
  construct_invoice pl = Return r ->
  items r = map (fun p => item_post_init (item_post_init (item_of_payload p))) (p_items pl) /\
  Forall (fun p => item_errors p = []) (p_items pl) /\
  tax_rate r = match p_tax_rate pl with None => Some default_tax_rate | Some x => x end /\
  tax_rate_errors (p_tax_rate pl) = [].
Proof.
  unfold construct_invoice. destruct (invoice_errors pl) eqn:E; [|discriminate].
  intros [= <-]. unfold invoice_errors in E. apply app_eq_nil in E as [E1 E2].
  unfold invoice_post_init, with_amounts, invoice_of_payload. cbn.
  rewrite map_map. repeat split; auto. exact (items_errors_nil _ _ E1).
Qed.

Lemma constructed_valid (pl : InvoicePayload) (r : InvoiceData) :
  construct_invoice pl = Return r -> valid_record r = true.
Proof.
  intros H. destruct (constructed_items _ _ H) as (Hi & Hall & Ht & Hte).
  unfold valid_record. rewrite Hi, Ht, (tax_rate_errors_nil _ Hte), andb_true_r.
  clear Hi. induction Hall as [|p ps Hp _ IH]; cbn; [reflexivity|].
  rewrite IH, andb_true_r.
  destruct (constructed_item _ Hp) as (d & q & u & _ & _ & _ & Hq & Hu & ->).
  unfold valid_item, field_ok. cbn. rewrite Hq, Hu. reflexivity.
Qed.

Lemma autofill_valid_items (db : table ItemInfo) (r : InvoiceData) :
  forallb valid_item (items r) = true ->
  autofill_invoice_data user_db db today r = autofill_invoice_data user_db [] today r.
Proof.
  intros H. unfold autofill_invoice_data.
  rewrite !fill_client_items.
  destruct (autofill_items_valid db _ H) as (-> & _). reflexivity.
Qed.

(** X4. On a record that passed construction the catalog plays no part:
    every item has a positive unit price, so the reconciler gives the
    same outcome with any catalog, and the unit prices it returns are
    the ones it was given. *)
Theorem constructed_ignores_catalog (pl : InvoicePayload) (r : InvoiceData)
        (item_db' : table ItemInfo) :
  construct_invoice pl = Return r ->
  autofill_invoice_data user_db item_db today r =
    autofill_invoice_data user_db item_db' today r /\
  (forall r', autofill r = Return r' ->
              map unit_price (items r') = map unit_price (items r)).
Proof.
  intros H. pose proof (constructed_valid _ _ H) as Hv.
  unfold valid_record in Hv. apply andb_prop in Hv as [Hv _].
  split.
  - rewrite (autofill_valid_items item_db _ Hv), (autofill_valid_items item_db' _ Hv).
    reflexivity.
  - intros r' Hr'. rewrite (autofill_items_eq _ _ _ _ _ Hr').
    apply (autofill_items_valid item_db _ Hv).
Qed.

(** X5. What construction yields: as many items as the payload has, in
    the same order, each with the description, quantity and unit price
    given, a positive quantity and unit price, and as total the one given
    or else [round(quantity * unit_price, 2)]; the tax rate is the one
    given, 0.08 when the key is absent, and lies in [0, 1] unless null. *)
Theorem construction_yields (pl : InvoicePayload) (r : InvoiceData) :
  construct_invoice pl = Return r ->
  valid_record r = true /\
  length (items r) = length (p_items pl) /\
  (forall (i : nat) (p : ItemPayload),
      p_items pl !! i = Some p ->
      exists d q u,
        p_description p = Some d /\ p_quantity p = Some q /\ p_unit_price p = Some u /\
        PrimFloat.ltb 0%float q = true /\ PrimFloat.ltb 0%float u = true /\
        items r !! i =
          Some (mkItem (Some d) (Some q) (Some u)
                       (Some (default (PyFloat.round2 (q * u)%float) (p_total p))))) /\
  tax_rate r = match p_tax_rate pl with
               | None => Some 0.08%float
               | Some x => x
               end.
Proof.
  intros H. destruct (constructed_items _ _ H) as (Hi & Hall & Ht & _).
  split; [exact (constructed_valid _ _ H)|].
  split; [rewrite Hi; apply length_map|].
  split; [|exact Ht].
  intros i p Hp.
  assert (Herr : item_errors p = []).
  { rewrite Forall_forall in Hall. apply Hall.
    eapply list_elem_of_lookup_2; eauto. }
  destruct (constructed_item _ Herr) as (d & q & u & Hd & Hq & Hu & Hq0 & Hu0 & E).
  exists d, q, u. repeat (split; [assumption|]).
  rewrite Hi, list_lookup_fmap, Hp. cbn. rewrite E. reflexivity.
Qed.

Lemma table_get_valid (k : string) (info : ClientInfo) :
  valid_table user_db = true -> table_get user_db k = Some info ->
  valid_tax_rate (Some (get_default_tax_rate info)) = true.
Proof.
  unfold valid_table. induction user_db as [|[k' i'] db IH]; cbn; [discriminate|].
  intros H. apply andb_prop in H as [H1 H2].
  destruct (String.eqb k' k); [intros [= <-]; exact H1 | auto].
Qed.

Lemma lookup_client_valid (name : option string) (info : ClientInfo) :
  valid_table user_db = true -> lookup_client user_db name = Some info ->
  valid_tax_rate (Some (get_default_tax_rate info)) = true.
Proof.
  unfold lookup_client. destruct name as [[|c s]|]; try discriminate.
  apply table_get_valid.
Qed.

(** X6. Reconciliation keeps a valid record valid: when the default rates
    of the client table lie in [0, 1], the returned record again has
    positive quantities and unit prices, a total on every item, and a tax
    rate in [0, 1] (or unset). *)
Theorem autofill_preserves_validity (r r' : InvoiceData) :
  valid_table user_db = true ->
  valid_record r = true ->
  autofill r = Return r' ->
  valid_record r' = true.
Proof.
  intros Htab Hv H. unfold valid_record in *. apply andb_prop in Hv as [Hits Htr].
  rewrite (autofill_items_eq _ _ _ _ _ H), (autofill_tax_rate _ _ _ _ _ H).
  destruct (autofill_items_valid item_db _ Hits) as (_ & _ & ->). cbn.
  destruct r as [cn ca inum idate ddt its st tr ta gt nt]. unfold fill_client; cbn in *.
  destruct (lookup_client user_db cn) as [info|] eqn:El; [|exact Htr].
  pose proof (lookup_client_valid _ _ Htab El) as Hinfo.
  destruct (PyStr.truthy ca); cbn; destruct (unset_or_default tr); cbn; assumption.
Qed.

(** X7. The amounts of a constructed invoice are computed, not taken
    from the payload: the subtotal is the rounded sum of the item totals
    (0.0 without items), tax amount and grand total follow from it, and
    whatever the payload gives for [subtotal], [tax_amount] and
    [grand_total] makes no difference to the record built. *)
Theorem construction_amounts (pl : InvoicePayload) (r : InvoiceData) :
  construct_invoice pl = Return r ->
  exists s t : float,
    s = match items r with
        | [] => 0%float
        | _ => PyFloat.round2 (sum_totals (items r))
        end /\
    t = PyFloat.round2 (s * match tax_rate r with Some x => x | None => 0 end)%float /\
    subtotal r = Some s /\
    tax_amount r = Some t /\
    grand_total r = Some (PyFloat.round2 (s + t)%float) /\
    forall s0 t0 g0 : option float,
      construct_invoice
        (mkInvoicePayload (p_client_name pl) (p_client_address pl) (p_invoice_number pl)
                          (p_invoice_date pl) (p_due_date pl) (p_items pl)
                          s0 (p_tax_rate pl) t0 g0 (p_notes pl)) = Return r.
Proof.
  unfold construct_invoice, invoice_errors. cbn.
  destruct (items_errors 0 (p_items pl) ++ tax_rate_errors (p_tax_rate pl))%list;
    [|discriminate].
  intros [= <-].
  unfold invoice_post_init, with_amounts, effective_tax_rate, invoice_of_payload. cbn.
  eexists _, _. repeat split.
Qed.

End Facts.

(** *** Witnesses on the sample inputs *)

Lemma autofill_frame_witness :
  autofill_invoice_data Config.user_db Config.item_db Examples.today Examples.laptop_invoice =
    Return Examples.laptop_reconciled /\
  client_name Examples.laptop_reconciled = client_name Examples.laptop_invoice /\
  length (items Examples.laptop_reconciled) = length (items Examples.laptop_invoice).
Proof.
  assert (H : autofill_invoice_data Config.user_db Config.item_db Examples.today
                Examples.laptop_invoice = Return Examples.laptop_reconciled)
    by (vm_compute; reflexivity).
  split; [exact H|].
  destruct (autofill_frame _ _ _ _ _ H) as (H1 & _ & _ & H4 & _). auto.
Defined.

Lemma client_address_fill_witness :
  autofill_invoice_data Config.user_db Config.item_db Examples.today Examples.laptop_invoice =
    Return Examples.laptop_reconciled /\
  client_address Examples.laptop_reconciled = Some "123 Elm St, Springfield, IL".
Proof.
  assert (H : autofill_invoice_data Config.user_db Config.item_db Examples.today
                Examples.laptop_invoice = Return Examples.laptop_reconciled)
    by (vm_compute; reflexivity).
  split; [exact H|].
  destruct (client_address_fill _ _ _ _ _ H) as (_ & Hfill & _).
  exact (Hfill (mkClientInfo (Some "John Doe") (Some "123 Elm St, Springfield, IL")
                             (Some "john.doe@example.com") (Some 0.07%float))
               eq_refl eq_refl).
Defined.

Lemma constructed_ignores_catalog_witness :
  construct_invoice Examples.laptop_payload = Return Examples.laptop_invoice /\
  autofill_invoice_data Config.user_db Config.item_db Examples.today Examples.laptop_invoice =
  autofill_invoice_data Config.user_db [] Examples.today Examples.laptop_invoice.
Proof.
  assert (H : construct_invoice Examples.laptop_payload = Return Examples.laptop_invoice)
    by (vm_compute; reflexivity).
  split; [exact H|].
  exact (proj1 (constructed_ignores_catalog Config.user_db Config.item_db Examples.today
                  _ _ [] H)).
Defined.

Lemma construction_yields_witness :
  construct_invoice Examples.laptop_payload = Return Examples.laptop_invoice /\
  valid_record Examples.laptop_invoice = true /\
  tax_rate Examples.laptop_invoice = Some 0.08%float.
Proof.
  assert (H : construct_invoice Examples.laptop_payload = Return Examples.laptop_invoice)
    by (vm_compute; reflexivity).
  split; [exact H|].
  destruct (construction_yields _ _ H) as (Hv & _ & _ & Ht). split; [exact Hv | exact Ht].
Defined.

Lemma autofill_preserves_validity_witness :
  valid_table Config.user_db = true /\
  valid_record Examples.laptop_invoice = true /\
  valid_record Examples.laptop_reconciled = true.
Proof.
  assert (Ht : valid_table Config.user_db = true) by (vm_compute; reflexivity).
  assert (Hv : valid_record Examples.laptop_invoice = true) by (vm_compute; reflexivity).
  split; [exact Ht|]. split; [exact Hv|].
  apply (autofill_preserves_validity Config.user_db Config.item_db Examples.today
           Examples.laptop_invoice Examples.laptop_reconciled Ht Hv).
  vm_compute; reflexivity.
Defined.

Lemma construction_amounts_witness :
  construct_invoice Examples.laptop_payload = Return Examples.laptop_invoice /\
  exists s : float, subtotal Examples.laptop_invoice = Some s /\
                    s = PyFloat.round2 (sum_totals (items Examples.laptop_invoice)).
Proof.
  assert (H : construct_invoice Examples.laptop_payload = Return Examples.laptop_invoice)
    by (vm_compute; reflexivity).
  split; [exact H|].
  destruct (construction_amounts _ _ H) as (s & t & Hs & _ & Hsub & _).
  exists s. split; [exact Hsub | exact Hs].
Defined.

End ReconcileFacts.

(** ** More on the extractor *)

Module ExtractionMore.
Import LlmService PyStr LlmFacts ExtractionFacts.

Ltac snorm := repeat (rewrite append_cons || rewrite append_nil).
Ltac snorm_in H := repeat (rewrite append_cons in H || rewrite append_nil in H).

Lemma match_fenced_first (c : ascii) (s : string) :
  Ascii.eqb c "`" = false -> match_fenced (String c s) = None.
Proof.
  intros Hc. unfold match_fenced.
  destruct c as [[] [] [] [] [] [] [] []]; try reflexivity; discriminate.
Qed.

Lemma no_backtick_no_fence (raw : string) :
  has_char "`" raw = false -> search match_fenced raw = None.
Proof.
  induction raw as [|c raw IH]; [reflexivity|].
  intros H. simpl in H. apply orb_false_elim in H as [Hc Hr].
  rewrite search_cons, (match_fenced_first _ _ Hc). auto.
Qed.

(** X8. A JSON object inside prose is found exactly: when the text has no
    backtick, no opening brace before the object and no closing brace
    after it, the candidate is the object itself, and the outcome of the
    stage is the outcome of [json.loads] on it. *)
Theorem plain_object_extracted (detail : string -> string) (pre mid post : string) :
  has_char "`" (pre ++ "{" ++ mid ++ "}" ++ post) = false ->
  has_char "{" pre = false ->
  has_char "}" post = false ->
  extract_json_str (pre ++ "{" ++ mid ++ "}" ++ post) = Some ("{" ++ mid ++ "}") /\
  extract_json detail (pre ++ "{" ++ mid ++ "}" ++ post) =
    match Json.loads ("{" ++ mid ++ "}") with
    | Some v => Return v
    | None => Raise (ValueError (malformed_message detail ("{" ++ mid ++ "}")))
    end.
Proof.
  intros Hno Hpre Hpost.
  assert (E : extract_json_str (pre ++ "{" ++ mid ++ "}" ++ post) = Some ("{" ++ mid ++ "}")).
  { unfold extract_json_str. rewrite (no_backtick_no_fence _ Hno).
    apply search_braces_spec. exists pre, mid, post. auto. }
  split; [exact E|]. unfold extract_json. rewrite E. reflexivity.
Qed.

Lemma plain_object_extracted_witness :
  extract_json (fun _ => "") "Here it is: {} - done" = Return (Json.JObject []).
Proof.
  exact (proj2 (plain_object_extracted (fun _ => "") "Here it is: " "" " - done"
                  eq_refl eq_refl eq_refl)).
Defined.

Lemma greedy_close_none_any follows (after : string) :
  has_char "}" after = false -> greedy_close follows after = None.
Proof.
  induction after as [|c s IH]; simpl; [reflexivity|].
  intros H. apply orb_false_elim in H as [Hc Hs]. rewrite (IH Hs), Hc. reflexivity.
Qed.

Lemma greedy_close_exact follows (mid after : string) :
  has_char "}" after = false -> follows after = true ->
  greedy_close follows (mid ++ String "}" after) = Some (mid ++ String "}" "").
Proof.
  intros Hno Hf. induction mid as [|c mid IH]; snorm; rewrite greedy_close_cons.
  - rewrite (greedy_close_none_any _ _ Hno), Hf. reflexivity.
  - rewrite IH. reflexivity.
Qed.

Lemma all_space_no_brace (ws : string) : all_space ws = true -> has_char "}" ws = false.
Proof.
  induction ws as [|c ws IH]; simpl; [reflexivity|].
  intros H. apply andb_prop in H as [Hc Hws]. rewrite (IH Hws), orb_false_r.
  destruct (Ascii.eqb c "}") eqn:E; [|reflexivity].
  apply Ascii.eqb_eq in E. subst c. discriminate.
Qed.

Lemma search_skip match_at (pre s : string) :
  (forall c t, has_char c pre = true -> match_at (String c t) = None) ->
  s <> "" ->
  search match_at (pre ++ s) = search match_at s.
Proof.
  intros Hskip Hs. induction pre as [|a pre IH]; snorm; [reflexivity|].
  rewrite search_cons, Hskip.
  - apply IH. intros c t Hc. apply Hskip. simpl. rewrite Hc. apply orb_true_r.
  - simpl. rewrite Ascii.eqb_refl. reflexivity.
Qed.

(** X9. The fenced form is extracted exactly: for a text made of prose
    without backticks, then [```json], white space, an object, white
    space, [```] and a rest without closing brace, the candidate is the
    object, whatever the object contains. *)
Theorem fenced_object_extracted (pre ws mid ws' post : string) :
  has_char "`" pre = false ->
  all_space ws = true -> all_space ws' = true ->
  has_char "}" post = false ->
  extract_json_str (pre ++ "```json" ++ ws ++ "{" ++ mid ++ "}" ++ ws' ++ "```" ++ post) =
    Some ("{" ++ mid ++ "}").
Proof.
  intros Hpre Hws Hws' Hpost. unfold extract_json_str.
  rewrite search_skip.
  - snorm. rewrite search_cons.
    assert (E : match_fenced
                  (String "`" (String "`" (String "`" (String "j" (String "s" (String "o"
                    (String "n" (ws ++ String "{" (mid ++ String "}"
                       (ws' ++ String "`" (String "`" (String "`" post)))))))))))) =
                Some (String "{" (mid ++ String "}" ""))).
    { unfold match_fenced.
      change (PyStr.starts_with "```json" (String "`" ?x)) with
        (PyStr.starts_with "``json" x). simpl PyStr.starts_with. cbv iota.
      simpl drop. rewrite (lstrip_app_space _ _ Hws). simpl lstrip.
      cbv beta iota.
      rewrite greedy_close_exact; [reflexivity| |].
      - rewrite has_char_app, (all_space_no_brace _ Hws'). simpl. exact Hpost.
      - apply (fence_follows_intro ws' post Hws'). }
    rewrite E. reflexivity.
  - intros c t Hc. apply match_fenced_first.
    destruct (Ascii.eqb c "`") eqn:E; [|reflexivity].
    apply Ascii.eqb_eq in E. subst c. congruence.
  - discriminate.
Qed.

Lemma fenced_object_extracted_witness :
  extract_json_str "Result: ```json {} ``` end" = Some "{}".
Proof.
  exact (fenced_object_extracted "Result: " " " "" " " " end"
           eq_refl eq_refl eq_refl eq_refl).
Defined.

End ExtractionMore.

(** ** The decoder on objects *)

Module JsonFacts.
Import Json JsonShape LlmFacts.

Lemma run_app (s : state) (a b : string) :
  run s (a ++ b) = run s a ≫= fun s' => run s' b.
Proof.
  revert s. induction a as [|c a IH]; intros s; [reflexivity|].
  rewrite append_cons. simpl. destruct (step s c) as [s'|]; simpl; [apply IH | reflexivity].
Qed.

Lemma bottom_cons (f g : frame) (st : list frame) :
  bottom_is_object (f :: g :: st) = bottom_is_object (g :: st).
Proof. reflexivity. Qed.

Lemma push_value_rooted (st : list frame) (v : json) (s' : state) :
  st <> [] -> bottom_is_object st = true ->
  push_value st v = Some s' -> rooted s'.
Proof.
  destruct st as [|[done|done [k|]] [|g st]]; try congruence; intros _ Hb; cbn;
    intros [= <-]; unfold rooted; cbn; try exact Hb; try discriminate.
Qed.

Lemma push_object_rooted (ms : list (string * json)) (st : list frame) (s' : state) :
  bottom_is_object st = true \/ st = [] ->
  push_value st (JObject ms) = Some s' -> rooted s'.
Proof.
  intros [Hb | ->].
  - destruct st; [discriminate|]. apply push_value_rooted; [discriminate | exact Hb].
  - cbn. intros [= <-]. unfold rooted; cbn. eauto.
Qed.

Lemma close_array_rooted (st : list frame) (s' : state) :
  bottom_is_object st = true -> close_array st = Some s' -> rooted s'.
Proof.
  destruct st as [|[done|done k] st]; try discriminate.
  destruct st as [|g st]; [discriminate|].
  rewrite bottom_cons. intros Hb. cbn [close_array].
  apply push_value_rooted; [discriminate | exact Hb].
Qed.

Lemma close_object_rooted (st : list frame) (s' : state) :
  bottom_is_object st = true -> close_object st = Some s' -> rooted s'.
Proof.
  destruct st as [|[done|done [k|]] st]; try discriminate.
  intros Hb. cbn [close_object]. apply push_object_rooted.
  destruct st as [|g st]; [right; reflexivity | left; exact Hb].
Qed.

Lemma set_key_rooted (st : list frame) (k : string) (s' : state) :
  bottom_is_object st = true -> set_key st k = Some s' -> rooted s'.
Proof.
  destruct st as [|[done|done [k'|]] st]; try discriminate.
  intros Hb [= <-]. unfold rooted; cbn. destruct st; exact Hb.
Qed.

Lemma same_stack_rooted (st : list frame) (m : mode) (t : option json) :
  st <> [] -> bottom_is_object st = true -> rooted (mkState st m t).
Proof. intros Hne Hb. unfold rooted; cbn. destruct st; [congruence | exact Hb]. Qed.

Lemma step_after_rooted (st : list frame) (t : option json) (c : ascii) (s' : state) :
  rooted (mkState st After t) -> step_after st t c = Some s' -> rooted s'.
Proof.
  intros Hr. unfold step_after.
  destruct (is_ws c); [intros [= <-]; exact Hr|].
  destruct st as [|f st].
  - destruct (Ascii.eqb c ","); [discriminate|].
    destruct (Ascii.eqb c "]"); [discriminate|].
    destruct (Ascii.eqb c "}"); discriminate.
  - assert (Hb : bottom_is_object (f :: st) = true) by exact Hr.
    destruct (Ascii.eqb c ",").
    { destruct f as [done|done [k|]]; try discriminate;
        intros [= <-]; (apply same_stack_rooted; [discriminate | exact Hb]). }
    destruct (Ascii.eqb c "]"); [apply close_array_rooted, Hb|].
    destruct (Ascii.eqb c "}"); [apply close_object_rooted, Hb | discriminate].
Qed.

Lemma step_value_rooted (st : list frame) (first : bool) (c : ascii) (s' : state) :
  st <> [] -> bottom_is_object st = true ->
  step_value st first c = Some s' -> rooted s'.
Proof.
  intros Hne Hb. unfold step_value.
  assert (Hpush : forall f, bottom_is_object (f :: st) = true).
  { intros f. destruct st; [congruence | exact Hb]. }
  repeat (match goal with
          | |- (if ?b then _ else _) = Some _ -> _ => destruct b
          end);
    try (intros [= <-]; first [ apply same_stack_rooted; [discriminate | apply Hpush]
                               | apply same_stack_rooted; [exact Hne | exact Hb] ]);
    try discriminate.
  apply close_array_rooted, Hb.
Qed.

Lemma step_rooted (s s' : state) (c : ascii) :
  rooted s -> step s c = Some s' -> rooted s'.
Proof.
  destruct s as [st m t]. intros Hr.
  destruct m as [first|first| | |is_key acc|is_key acc|k is_key acc|n acc|rest v];
    try exact (step_after_rooted st t c s' Hr).
  all: assert (Hne : st <> []) by (intros ->; destruct Hr as [Hr _]; discriminate).
  all: assert (Hb : bottom_is_object st = true)
         by (destruct st; [congruence | exact Hr]).
  all: unfold step; cbn [stack cur top].
  - apply step_value_rooted; assumption.
  - destruct (is_ws c); [intros [= <-]; apply same_stack_rooted; assumption|].
    destruct (Ascii.eqb c dquote); [intros [= <-]; apply same_stack_rooted; assumption|].
    destruct (Ascii.eqb c "}"); [|discriminate].
    destruct first; [apply close_object_rooted, Hb | discriminate].
  - destruct (is_ws c); [intros [= <-]; apply same_stack_rooted; assumption|].
    destruct (Ascii.eqb c ":"); [intros [= <-]; apply same_stack_rooted; assumption|].
    discriminate.
  - destruct (Ascii.eqb c dquote).
    { destruct is_key; [apply set_key_rooted, Hb | apply push_value_rooted; assumption]. }
    destruct (Ascii.eqb c "\"); [intros [= <-]; apply same_stack_rooted; assumption|].
    destruct (is_control c); [discriminate|].
    intros [= <-]; apply same_stack_rooted; assumption.
  - destruct (Ascii.eqb c "u"); [intros [= <-]; apply same_stack_rooted; assumption|].
    destruct (PyStr.contains _ _); [|discriminate].
    intros [= <-]; apply same_stack_rooted; assumption.
  - destruct (is_hex c); [|discriminate].
    destruct k as [|[|k]]; intros [= <-]; apply same_stack_rooted; assumption.
  - destruct (num_step n c); [intros [= <-]; apply same_stack_rooted; assumption|].
    destruct (Ascii.eqb c "I" && String.eqb acc "-");
      [intros [= <-]; apply same_stack_rooted; assumption|].
    destruct (num_final n); [|discriminate].
    destruct (push_value st (JNumber acc)) as [s1|] eqn:E; [|discriminate].
    cbn. pose proof (push_value_rooted _ _ _ Hne Hb E) as Hr1.
    assert (Hcur : cur s1 = After).
    { destruct st as [|[done|done [k|]] st]; try discriminate; injection E as <-; reflexivity. }
    destruct s1 as [st1 m1 t1]. cbn in *. subst m1.
    apply step_after_rooted. exact Hr1.
  - destruct rest as [|x rest]; [discriminate|].
    destruct (Ascii.eqb c x); [|discriminate].
    destruct rest; [apply push_value_rooted; assumption|].
    intros [= <-]; apply same_stack_rooted; assumption.
Qed.

Lemma run_rooted (text : string) : forall s s',
  rooted s -> run s text = Some s' -> rooted s'.
Proof.
  induction text as [|c text IH]; intros s s' Hr; simpl.
  - intros [= <-]. exact Hr.
  - destruct (step s c) as [s1|] eqn:E; [|discriminate]. simpl.
    apply IH. exact (step_rooted _ _ _ Hr E).
Qed.

Lemma first_brace_rooted : rooted (mkState [FObject [] None] (Key true) None).
Proof. reflexivity. Qed.

(** A text that opens with a brace decodes to an object, if at all, and
    the decoder is then in the state that follows a complete document. *)
Lemma loads_object (text : string) (v : json) :
  loads (String "{" text) = Some v ->
  (exists ms, v = JObject ms) /\
  exists s, run initial (String "{" text) = Some s /\ stack s = [] /\ cur s = After.
Proof.
  unfold loads.
  assert (Hrun : run initial (String "{" text) =
                 run (mkState [FObject [] None] (Key true) None) text) by reflexivity.
  rewrite Hrun.
  destruct (run _ text) as [s|] eqn:E; [|discriminate]. simpl.
  pose proof (run_rooted _ _ _ first_brace_rooted E) as Hr.
  unfold finish, rooted in *. destruct (stack s) eqn:Es; [|discriminate].
  destruct Hr as (Hc & ms & Ht). rewrite Hc, Ht. intros [= <-].
  split; [exists ms; reflexivity|]. exists s. auto.
Qed.

(** After a complete document only white space is accepted. *)
Lemma after_rejects (rest : string) : forall s,
  stack s = [] -> cur s = After -> all_ws rest = false -> run s rest = None.
Proof.
  induction rest as [|c rest IH]; intros [st m t] Hs Hc Hr; [discriminate|].
  cbn in Hs, Hc. subst st m. simpl in Hr. simpl. unfold step; cbn [stack cur top].
  unfold step_after. destruct (is_ws c); simpl in *.
  - apply IH; auto.
  - destruct (Ascii.eqb c ","); [reflexivity|].
    destruct (Ascii.eqb c "]"); [reflexivity|].
    destruct (Ascii.eqb c "}"); reflexivity.
Qed.

Lemma trailing_text_rejected (text rest : string) (v : json) :
  loads (String "{" text) = Some v -> all_ws rest = false ->
  loads (String "{" text ++ rest) = None.
Proof.
  intros Hl Hr. destruct (loads_object _ _ Hl) as (_ & s & Hrun & Hs & Hc).
  unfold loads. rewrite run_app, Hrun. simpl.
  rewrite (after_rejects _ _ Hs Hc Hr). reflexivity.
Qed.

End JsonFacts.

(** ** What the extractor hands on *)

Module ExtractionObjects.
Import LlmService PyStr LlmFacts ExtractionFacts ExtractionMore Json JsonShape JsonFacts.

Ltac snorm := repeat (rewrite append_cons || rewrite append_nil).
Ltac sassoc := repeat (rewrite append_assoc || rewrite append_cons || rewrite append_nil).

Lemma candidate_opens_with_brace (raw c : string) :
  extract_json_str raw = Some c -> exists text, c = String "{" text.
Proof.
  intros H. destruct (extract_json_str_spec raw) as (Hf & _ & Hb).
  destruct (search match_fenced raw) as [g|] eqn:E.
  - destruct (Hf g eq_refl) as (Hg & _ & _ & mid & _ & _ & _ & -> & _).
    rewrite Hg in H. injection H as <-. snorm. eauto.
  - apply (Hb eq_refl) in H as (_ & mid & _ & _ & -> & _). snorm. eauto.
Qed.

(** X10. What the extraction stage returns is always a JSON object: the
    candidate opens with a brace, so a successful decode cannot be a list,
    a string, a number or a literal. *)
Theorem extract_json_returns_object (detail : string -> string) (raw : string) (v : json) :
  extract_json detail raw = Return v -> exists ms, v = JObject ms.
Proof.
  unfold extract_json.
  destruct (extract_json_str raw) as [c|] eqn:Ec; [|discriminate].
  destruct (candidate_opens_with_brace _ _ Ec) as [text ->].
  destruct (loads (String "{" text)) as [v'|] eqn:El; [|discriminate].
  intros [= <-]. exact (proj1 (loads_object _ _ El)).
Qed.

Lemma extract_json_returns_object_witness :
  extract_json (fun _ => "") "Here it is: {} - done" = Return (JObject []) /\
  exists ms, JObject [] = JObject ms.
Proof.
  assert (H : extract_json (fun _ => "") "Here it is: {} - done" = Return (JObject []))
    by (vm_compute; reflexivity).
  split; [exact H|]. exact (extract_json_returns_object _ _ _ H).
Defined.

Lemma all_ws_brace (a b : string) : all_ws (a ++ String "{" b) = false.
Proof.
  induction a as [|c a IH]; snorm; simpl; [reflexivity|].
  rewrite IH. apply andb_false_r.
Qed.

(** X11. Two objects in one answer cannot be decoded: without a fence,
    the candidate runs from the first opening brace to the last closing
    brace, so when the first object is complete JSON the text after it
    makes [json.loads] fail, and the stage raises the malformed-JSON
    error for the whole span. *)
Theorem second_object_breaks_decoding
        (detail : string -> string) (pre m1 sep m2 post : string) (v : json) :
  has_char "`" (pre ++ "{" ++ m1 ++ "}" ++ sep ++ "{" ++ m2 ++ "}" ++ post) = false ->
  has_char "{" pre = false ->
  has_char "}" post = false ->
  loads ("{" ++ m1 ++ "}") = Some v ->
  extract_json detail (pre ++ "{" ++ m1 ++ "}" ++ sep ++ "{" ++ m2 ++ "}" ++ post) =
    Raise (ValueError
             (malformed_message detail ("{" ++ m1 ++ "}" ++ sep ++ "{" ++ m2 ++ "}"))).
Proof.
  intros Hno Hpre Hpost Hl.
  assert (Ec : extract_json_str
                 (pre ++ "{" ++ m1 ++ "}" ++ sep ++ "{" ++ m2 ++ "}" ++ post) =
               Some ("{" ++ m1 ++ "}" ++ sep ++ "{" ++ m2 ++ "}")).
  { unfold extract_json_str. rewrite (no_backtick_no_fence _ Hno).
    apply search_braces_spec. exists pre, (m1 ++ "}" ++ sep ++ "{" ++ m2), post.
    repeat split; auto; sassoc; reflexivity. }
  unfold extract_json. rewrite Ec.
  assert (Hnone : loads ("{" ++ m1 ++ "}" ++ sep ++ "{" ++ m2 ++ "}") = None).
  { replace ("{" ++ m1 ++ "}" ++ sep ++ "{" ++ m2 ++ "}")
      with (String "{" (m1 ++ "}") ++ (sep ++ String "{" (m2 ++ "}")))
      by (sassoc; reflexivity).
    apply (trailing_text_rejected _ _ v); [exact Hl | apply all_ws_brace]. }
  rewrite Hnone. reflexivity.
Qed.

Lemma second_object_breaks_decoding_witness :
  loads "{}" = Some (JObject []) /\
  extract_json (fun _ => "") "First {} and then {} again" =
    Raise (ValueError (malformed_message (fun _ => "") "{} and then {}")).
Proof.
  assert (H : loads "{}" = Some (JObject [])) by (vm_compute; reflexivity).
  split; [exact H|].
  exact (second_object_breaks_decoding (fun _ => "") "First " "" " and then " "" " again"
           (JObject []) eq_refl eq_refl eq_refl H).
Defined.

End ExtractionObjects.

(** ** Naming the stored document *)

Module PdfFacts.
Import PdfService PyStr LlmFacts.

Ltac sassoc := repeat (rewrite append_assoc || rewrite append_cons || rewrite append_nil).

Lemma kept_replaced (c : ascii) :
  kept c = true -> name_char (if Ascii.eqb c " " then "_"%char else c) = true.
Proof.
  unfold kept, name_char. destruct (Ascii.eqb c " ") eqn:E; [reflexivity|].
  rewrite orb_false_r. auto.
Qed.

Lemma sanitize_chars (n : string) :
  all_chars name_char (replace_char " " "_" (filter_chars kept n)) = true.
Proof.
  induction n as [|c n IH]; simpl; [reflexivity|].
  destruct (kept c) eqn:E; simpl; [|exact IH].
  rewrite (kept_replaced _ E), IH. reflexivity.
Qed.

Lemma all_chars_has_char (f : ascii -> bool) (c : ascii) (s : string) :
  all_chars f s = true -> f c = false -> has_char c s = false.
Proof.
  intros Hs Hc. induction s as [|a s IH]; simpl in *; [reflexivity|].
  apply andb_prop in Hs as [Ha Hs]. rewrite (IH Hs), orb_false_r.
  destruct (Ascii.eqb a c) eqn:E; [|reflexivity].
  apply Ascii.eqb_eq in E. subst a. congruence.
Qed.

Lemma filter_nothing (s : string) :
  all_chars (fun c => negb (kept c)) s = true -> filter_chars kept s = "".
Proof.
  induction s as [|a s IH]; simpl; [reflexivity|].
  intros H. apply andb_prop in H as [Ha Hs].
  apply negb_true_iff in Ha. rewrite Ha. auto.
Qed.

(** X12. For a client name of ASCII characters (on which [is_alnum]
    is Python's [isalnum]), the client part of the object name consists
    of letters, digits and underscores only, so it holds no space, no
    slash and no dot; an empty name gives [unknown_client], and a
    non-empty name made only of dropped characters gives the empty
    string. *)
Theorem sanitized_client_name_safe (client_name : string) :
  all_chars is_ascii client_name = true ->
  all_chars name_char (sanitized_client_name (Some client_name)) = true /\
  has_char " " (sanitized_client_name (Some client_name)) = false /\
  has_char "/" (sanitized_client_name (Some client_name)) = false /\
  has_char "." (sanitized_client_name (Some client_name)) = false /\
  (client_name = "" -> sanitized_client_name (Some client_name) = "unknown_client") /\
  (client_name <> "" -> all_chars (fun c => negb (kept c)) client_name = true ->
   sanitized_client_name (Some client_name) = "").
Proof.
  intros _.
  assert (H : all_chars name_char (sanitized_client_name (Some client_name)) = true).
  { destruct client_name as [|c n]; try reflexivity. apply sanitize_chars. }
  split; [exact H|].
  split; [apply (all_chars_has_char _ _ _ H); reflexivity|].
  split; [apply (all_chars_has_char _ _ _ H); reflexivity|].
  split; [apply (all_chars_has_char _ _ _ H); reflexivity|].
  split.
  - intros ->. reflexivity.
  - intros Hne Hall. destruct client_name as [|c n]; [congruence|].
    unfold sanitized_client_name.
    rewrite (filter_nothing _ Hall). reflexivity.
Qed.

Lemma sanitized_client_name_safe_witness :
  all_chars is_ascii "Acme Corp./NY" = true /\
  sanitized_client_name (Some "Acme Corp./NY") = "Acme_CorpNY" /\
  has_char "/" (sanitized_client_name (Some "Acme Corp./NY")) = false.
Proof.
  split; [reflexivity|]. split; [reflexivity|].
  exact (proj1 (proj2 (proj2 (sanitized_client_name_safe "Acme Corp./NY" eq_refl)))).
Defined.

(** X13. After naming, the invoice has a non-empty number: a number that
    is set is kept and the record is returned as it was; otherwise the
    generated number is assigned to the record, and nothing else changes.
    Naming the result again, at any later time, keeps that number. *)
Theorem name_invoice_number (c1 c2 c3 c1' c2' c3' : clock) (invoice : InvoiceData) :
  let invoice' := fst (name_invoice c1 c2 c3 invoice) in
  PyStr.truthy (invoice_number invoice') = true /\
  (PyStr.truthy (invoice_number invoice) = true -> invoice' = invoice) /\
  (PyStr.truthy (invoice_number invoice) = false ->
   invoice' = set_invoice_number invoice
                (Some (generated_number (invoice_date invoice) c1 c2))) /\
  fst (name_invoice c1' c2' c3' invoice') = invoice'.
Proof.
  unfold name_invoice.
  destruct invoice as [cn ca [[|c n]|] idate ddt its st tr ta gt nt]; cbn.
  2:{ repeat split; auto; discriminate. }
  all: repeat split; auto; try discriminate.
Qed.

Lemma digit_char_not_dash (n : Z) : Ascii.eqb (PyDate.digit_char n) "-" = false.
Proof.
  unfold PyDate.digit_char.
  pose proof (Z.mod_pos_bound n 10 eq_refl) as Hb.
  assert (H : n mod 10 = 0 \/ n mod 10 = 1 \/ n mod 10 = 2 \/ n mod 10 = 3 \/ n mod 10 = 4 \/
              n mod 10 = 5 \/ n mod 10 = 6 \/ n mod 10 = 7 \/ n mod 10 = 8 \/ n mod 10 = 9)
    by lia.
  repeat (destruct H as [H | H]); rewrite H; reflexivity.
Qed.

Lemma remove_dash_digit (n : Z) (s : string) :
  remove_char "-" (String (PyDate.digit_char n) s) =
  String (PyDate.digit_char n) (remove_char "-" s).
Proof. simpl. rewrite digit_char_not_dash. reflexivity. Qed.

Lemma remove_dash_dash (s : string) :
  remove_char "-" (String "-" s) = remove_char "-" s.
Proof. reflexivity. Qed.

Lemma remove_dash_iso (d : PyDate.date) :
  remove_char "-" (PyDate.strftime d) = compact_date d.
Proof.
  unfold PyDate.strftime, compact_date, PyDate.pad4, PyDate.pad2.
  sassoc. repeat (rewrite remove_dash_digit || rewrite remove_dash_dash). reflexivity.
Qed.

(** X14. From the reconciler to the invoice number: when a record with
    neither invoice date nor invoice number is reconciled and then named,
    the number assigned is [INV-], the current date of the reconciliation
    as eight digits, a dash and the time of the naming. *)
Theorem reconciled_invoice_number
        (user_db : table ClientInfo) (item_db : table ItemInfo) (today : PyDate.date)
        (c1 c2 c3 : clock) (r r' : InvoiceData) :
  Utils.autofill_invoice_data user_db item_db today r = Return r' ->
  PyStr.truthy (invoice_date r) = false ->
  PyStr.truthy (invoice_number r) = false ->
  invoice_number (fst (name_invoice c1 c2 c3 r')) =
    Some ("INV-" ++ compact_date today ++ "-" ++ compact_time c2).
Proof.
  intros H Hd Hn.
  rewrite UtilsFacts.autofill_eq in H.
  assert (Hid : invoice_date r' = Some (PyDate.strftime today)).
  { destruct (UtilsFacts.fill_due_date_fields _ _ _ H) as (_ & _ & -> & _).
    destruct (UtilsFacts.priced_fields user_db item_db today r)
      as (_ & _ & _ & _ & _ & _ & ->).
    rewrite Hd. reflexivity. }
  assert (Hnum : invoice_number r' = invoice_number r).
  { destruct (UtilsFacts.fill_due_date_inv _ _ _ H) as (dd & -> & _).
    unfold Utils.priced, Utils.fill_invoice_date, with_amounts.
    destruct r as [cn ca inum idate ddt its st tr ta gt nt].
    unfold Utils.fill_client; cbn.
    destruct (Utils.lookup_client user_db cn); cbn;
      repeat (match goal with |- context [if ?b then _ else _] => destruct b end; cbn);
      reflexivity. }
  unfold name_invoice. rewrite Hnum.
  assert (E : invoice_number r = None \/ invoice_number r = Some "").
  { destruct (invoice_number r) as [[|c n]|]; auto; discriminate. }
  destruct E as [-> | ->]; cbn [fst invoice_number set_invoice_number];
    unfold generated_number; rewrite Hid;
    (assert (Es : exists a s, PyDate.strftime today = String a s)
       by (unfold PyDate.strftime, PyDate.pad4; rewrite append_cons; eauto));
    destruct Es as (a & s & Es); rewrite <- (remove_dash_iso today), Es; reflexivity.
Qed.

Lemma reconciled_invoice_number_witness :
  Utils.autofill_invoice_data Config.user_db Config.item_db Examples.today
    Examples.keyboard_invoice = Return Examples.keyboard_reconciled /\
  invoice_number
    (fst (name_invoice (Clock Examples.today 9 30 0) (Clock Examples.today 9 30 1)
            (Clock Examples.today 9 30 2) Examples.keyboard_reconciled)) =
    Some "INV-20250615-093001".
Proof.
  assert (H : Utils.autofill_invoice_data Config.user_db Config.item_db Examples.today
                Examples.keyboard_invoice = Return Examples.keyboard_reconciled)
    by (vm_compute; reflexivity).
  split; [exact H|].
  exact (reconciled_invoice_number Config.user_db Config.item_db Examples.today
           (Clock Examples.today 9 30 0) (Clock Examples.today 9 30 1)
           (Clock Examples.today 9 30 2) _ _ H eq_refl eq_refl).
Defined.

End PdfFacts.

(** ** The endpoints and the services behind them *)

Module EndpointFacts.
Import Exn PdfService.

Section Loading.

Variables (P M : Type).

Lemma load_keeps_main (attempt : option (P * M)) (g : Globals.globals P M) :
  Globals.main_model (Globals.load_qwen2_audio_model attempt g) = Globals.main_model g /\
  Globals.main_processor (Globals.load_qwen2_audio_model attempt g) = Globals.main_processor g.
Proof.
  unfold Globals.load_qwen2_audio_model.
  destruct (Globals.llm_model g), (Globals.llm_processor g), attempt as [[? ?]|]; auto.
Qed.

Lemma load_keeps_loaded (attempt : option (P * M)) (g : Globals.globals P M) :
  Globals.llm_loaded g = true ->
  Globals.load_qwen2_audio_model attempt g = g.
Proof.
  unfold Globals.llm_loaded, Globals.load_qwen2_audio_model.
  destruct (Globals.llm_model g), (Globals.llm_processor g); auto; discriminate.
Qed.

Lemma load_success (p : P) (m : M) (g : Globals.globals P M) :
  Globals.llm_loaded (Globals.load_qwen2_audio_model (Some (p, m)) g) = true.
Proof.
  unfold Globals.llm_loaded, Globals.load_qwen2_audio_model.
  destruct (Globals.llm_model g) eqn:E1, (Globals.llm_processor g) eqn:E2; cbn;
    rewrite ?E1, ?E2; reflexivity.
Qed.

Lemma fold_keeps_main (attempts : list (option (P * M))) (g : Globals.globals P M) :
  let g' := fold_left (fun g attempt => Globals.load_qwen2_audio_model attempt g) attempts g in
  Globals.main_model g' = Globals.main_model g /\
  Globals.main_processor g' = Globals.main_processor g.
Proof.
  revert g. induction attempts as [|a l IH]; intros g; cbn; [auto|].
  destruct (IH (Globals.load_qwen2_audio_model a g)) as [-> ->].
  apply load_keeps_main.
Qed.

Lemma fold_keeps_loaded (attempts : list (option (P * M))) (g : Globals.globals P M) :
  Globals.llm_loaded g = true ->
  fold_left (fun g attempt => Globals.load_qwen2_audio_model attempt g) attempts g = g.
Proof.
  intros H. induction attempts as [|a l IH]; cbn; [reflexivity|].
  rewrite (load_keeps_loaded _ _ H). exact IH.
Qed.

Lemma fold_loaded (attempts : list (option (P * M))) (g : Globals.globals P M) (p : P) (m : M) :
  In (Some (p, m)) attempts ->
  Globals.llm_loaded
    (fold_left (fun g attempt => Globals.load_qwen2_audio_model attempt g) attempts g) = true.
Proof.
  revert g. induction attempts as [|a l IH]; intros g; cbn; [tauto|].
  intros [-> | Hin]; [|apply IH, Hin].
  rewrite fold_keeps_loaded; apply load_success.
Qed.

End Loading.

Section Endpoints.

Variable http_text : Z -> string -> string.
Variable s3_text : string -> string.
Variable validation_text : list error_detail -> string.
Variable decode_error_text : string -> string.
Variable model_validate : Json.json -> result InvoiceData.
Variables (MINIO_PDF_BUCKET MINIO_AUDIO_BUCKET : string).
Variable today : PyDate.date.
Variable R : Type.
Variable FileResponse : string -> string -> string -> outcome R.
Variable out_of_range_text : InvoiceData -> string.

Local Abbreviation str := (Exn.str http_text s3_text validation_text).
Local Abbreviation autofill := (Utils.autofill_invoice_data Config.user_db Config.item_db today).
Local Abbreviation extract_and_validate :=
  (Services.extract_and_validate_invoice_data http_text s3_text validation_text
     decode_error_text model_validate today).
Local Abbreviation generate_invoice_pdf :=
  (Services.generate_invoice_pdf http_text s3_text validation_text MINIO_PDF_BUCKET).
Local Abbreviation from_audio :=
  (Main.generate_invoice_from_audio_endpoint http_text s3_text validation_text
     decode_error_text model_validate MINIO_PDF_BUCKET MINIO_AUDIO_BUCKET today
     out_of_range_text).
Local Abbreviation from_data :=
  (Main.generate_invoice_from_data_endpoint http_text s3_text validation_text
     MINIO_PDF_BUCKET today out_of_range_text).
Local Abbreviation download_invoice :=
  (Main.download_invoice http_text s3_text validation_text MINIO_PDF_BUCKET R FileResponse).
Local Abbreviation get_audio :=
  (Main.get_audio http_text s3_text validation_text MINIO_AUDIO_BUCKET R FileResponse).

(** X16. The audio endpoint never gets past its guard.  [main] binds
    [qwen2_audio_model] and [qwen2_audio_processor] by a [from ... import]
    when both are [None], and loading assigns the globals of
    [llm_service] only: after any sequence of loading attempts the
    endpoint answers 503, also when an attempt has succeeded and the
    guard of [extract_and_validate_invoice_data] would pass. *)
Theorem audio_endpoint_always_unavailable
        (P M : Type) (attempts : list (option (P * M)))
        (put_audio : outcome unit) (audio_object_name : string)
        (llm_raw_output : outcome string) (c1 c2 c3 : clock)
        (layout build put_pdf : outcome unit) :
  from_audio (Globals.after_loads attempts) put_audio audio_object_name llm_raw_output
             c1 c2 c3 layout build put_pdf =
    Err (HTTPException 503 "Qwen2-Audio model is not loaded. Please call /load_model/ first.") /\
  (forall p m, In (Some (p, m)) attempts ->
               Globals.llm_loaded (Globals.after_loads attempts) = true).
Proof.
  split.
  - unfold Main.generate_invoice_from_audio_endpoint, Globals.main_loaded, Globals.after_loads.
    destruct (fold_keeps_main P M attempts Globals.at_import) as [-> ->]. reflexivity.
  - intros p m Hin. exact (fold_loaded P M attempts _ p m Hin).
Qed.

Lemma handle_status_download (e : raised) (prefix : string) :
  is_exception e = true ->
  exists d,
    handle (A := R)
      [ (is_file_not_found, fun e => Err (HTTPException 404 (str e)));
        (is_exception, fun e => Err (HTTPException 500 (prefix ++ str e))) ] e =
      Err (HTTPException (if is_file_not_found e then 404 else 500) d).
Proof.
  intros H. cbn. destruct (is_file_not_found e); [eauto|]. rewrite H. eauto.
Qed.

(** X17. [download_invoice] and [get_audio] do not answer 404 for an
    object that is missing at the check: the [HTTPException] with status
    404 raised inside [try] is caught by [except Exception] and comes out
    with status 500.  An answer 404 requires that the check found the
    object (or itself raised [FileNotFoundError]), and every [Exception] leaves either endpoint as an
    [HTTPException] with status 404 or 500. *)
Theorem missing_object_answered_500
        (object_name : string) (stat_object : outcome unit) (get_object : outcome string) :
  (stat_object = Err (S3Error "NoSuchKey") ->
   download_invoice object_name stat_object get_object =
     Err (HTTPException 500
            ("An error occurred while downloading the PDF: " ++
             http_text 404 ("Invoice PDF '" ++ object_name ++ "' not found in MinIO bucket '"
                            ++ MINIO_PDF_BUCKET ++ "'."))) /\
   get_audio object_name stat_object get_object =
     Err (HTTPException 500
            ("An error occurred while retrieving the audio: " ++
             http_text 404 ("Audio file '" ++ object_name ++ "' not found in MinIO bucket '"
                            ++ MINIO_AUDIO_BUCKET ++ "'.")))) /\
  (forall d, download_invoice object_name stat_object get_object = Err (HTTPException 404 d) \/
             get_audio object_name stat_object get_object = Err (HTTPException 404 d) ->
             stat_object = Ok tt \/ exists m, stat_object = Err (FileNotFoundError m)) /\
  (forall e, download_invoice object_name stat_object get_object = Err e \/
             get_audio object_name stat_object get_object = Err e ->
             is_exception e = true ->
             exists d, e = HTTPException 404 d \/ e = HTTPException 500 d).
Proof.
  split; [intros ->; split; reflexivity|].
  split.
  - intros d H.
    destruct stat_object as [[]|e0]; [left; reflexivity|].
    unfold Main.download_invoice, Main.get_audio, StorageService.object_exists in H.
    destruct e0 as [sc dt|m|m|code|[m|m|errs]|m|m]; cbn in H;
      try (exfalso; destruct H as [H|H]; discriminate H).
    + right. eauto.
    + exfalso.
      destruct (String.eqb code "NoSuchKey"); cbn in H; destruct H as [H|H]; discriminate H.
  - intros e H He.
    unfold Main.download_invoice, Main.get_audio, try_except in H.
    destruct H as [H|H];
      match type of H with
      | match ?body with _ => _ end = _ =>
          destruct body as [a|e0] eqn:Eb; [discriminate H|];
          destruct (is_exception e0) eqn:Ee0;
          [ destruct (handle_status_download e0
                        ltac:(match type of H with
                              | context [HTTPException 500 (?p ++ _)] => exact p
                              end) Ee0) as [d Hd];
            cbn in Hd, H; rewrite Hd in H; injection H as <-;
            exists d; destruct (is_file_not_found e0); auto
          | destruct e0; try discriminate Ee0; cbn in H; injection H as <-; discriminate He ]
      end.
Qed.

Lemma autofill_raise_inv (r : InvoiceData) (e : exn) :
  autofill r = Raise e -> e = OverflowError "date value out of range".
Proof.
  rewrite UtilsFacts.autofill_eq. unfold Utils.fill_due_date, Utils.plus_30_days.
  destruct (PyStr.truthy (due_date _)); [discriminate|].
  destruct (invoice_date _ ≫= PyDate.strptime) as [d|];
    [destruct (PyDate.add_days d 30) | destruct (PyDate.add_days today 30)];
    cbn; intros [= <-]; reflexivity.
Qed.

(** X18. What [extract_and_validate_invoice_data] raises once the model
    has answered is a [ValueError] or a [RuntimeError]: an answer without
    a candidate or with a malformed one gives [ValueError]; a record that
    validates but whose reconciliation overflows gives the
    [RuntimeError] for an unexpected error, with the text of the
    [OverflowError]; and the function returns exactly the reconciled
    record when every stage succeeds. *)
Theorem extraction_failures_classified (raw : string) :
  (forall e, extract_and_validate true (Ok raw) = Err e ->
             (exists m, e = Core (ValueError m)) \/ (exists m, e = RuntimeError m)) /\
  (forall json_str data r e,
      LlmService.extract_json_str raw = Some json_str ->
      Json.loads json_str = Some data ->
      model_validate data = Return r ->
      autofill r = Raise e ->
      extract_and_validate true (Ok raw) =
        Err (RuntimeError ("An unexpected error occurred during data extraction or validation: "
                           ++ "date value out of range"))) /\
  (forall r', extract_and_validate true (Ok raw) = Ok r' <->
              exists json_str data r,
                LlmService.extract_json_str raw = Some json_str /\
                Json.loads json_str = Some data /\
                model_validate data = Return r /\
                autofill r = Return r').
Proof.
  unfold Services.extract_and_validate_invoice_data; cbn [negb obind].
  split; [|split].
  - intros e.
    destruct (LlmService.extract_json_str raw) as [s|]; [|intros [= <-]; eauto].
    destruct (Json.loads s) as [data|]; [|intros [= <-]; eauto].
    destruct (model_validate data) as [r|e1]; cbn;
      [destruct (autofill r) as [r'|e2]; cbn; [discriminate|]|];
      destruct (Services.looks_like_validation _); intros [= <-]; eauto.
  - intros s data r e -> -> Hv Ha.
    rewrite Hv. cbn. rewrite Ha. rewrite (autofill_raise_inv _ _ Ha). reflexivity.
  - intros r'. split.
    + destruct (LlmService.extract_json_str raw) as [s|]; [|discriminate].
      destruct (Json.loads s) as [data|] eqn:Hl; [|discriminate].
      destruct (model_validate data) as [r|e] eqn:Hv; cbn.
      * destruct (autofill r) as [r''|e] eqn:Ha; cbn.
        -- intros [= <-]. exists s, data, r. auto.
        -- destruct (Services.looks_like_validation _); discriminate.
      * destruct (Services.looks_like_validation _); discriminate.
    + intros (s & data & r & -> & -> & Hv & Ha). rewrite Hv. cbn. rewrite Ha. reflexivity.
Qed.

Lemma named_json_compliant (c1 c2 c3 : clock) (r : InvoiceData) :
  Main.json_compliant (fst (name_invoice c1 c2 c3 r)) = Main.json_compliant r.
Proof.
  unfold name_invoice. destruct (invoice_number r) as [[|ch n]|]; reflexivity.
Qed.

Lemma generate_invoice_pdf_ok (c1 c2 c3 : clock) (r : InvoiceData) :
  generate_invoice_pdf c1 c2 c3 (Ok tt) (Ok tt) (Ok tt) r = Ok (name_invoice c1 c2 c3 r).
Proof.
  unfold Services.generate_invoice_pdf.
  destruct (name_invoice c1 c2 c3 r) as [inv name]. reflexivity.
Qed.

(** X19. [generate_invoice_from_data_endpoint] turns every [Exception]
    into an [HTTPException] with status 500: the [OverflowError] of the
    reconciler with its text, a failed upload with the text of the
    [RuntimeError] that [generate_invoice_pdf] makes of it, and the
    [ValueError] of the response for a reconciled record that holds an
    infinite or undefined amount.  When the reconciliation and the three
    steps of the document succeed, the endpoint answers with the
    reconciled record as named and the object name exactly when every
    float of that record is finite.  A payload that construction accepts,
    with quantity and unit price 1e200, is answered with status 500. *)
Theorem from_data_endpoint_outcomes
        (invoice_data : InvoiceData) (c1 c2 c3 : clock) (layout build put_pdf : outcome unit) :
  (forall e, from_data invoice_data c1 c2 c3 layout build put_pdf = Err e ->
             is_exception e = true ->
             exists d, e = HTTPException 500 ("Error generating invoice from data: " ++ d)) /\
  (forall e, autofill invoice_data = Raise e ->
             from_data invoice_data c1 c2 c3 layout build put_pdf =
               Err (HTTPException 500 ("Error generating invoice from data: "
                                        ++ "date value out of range"))) /\
  (forall r' e, autofill invoice_data = Return r' ->
                layout = Ok tt -> build = Ok tt -> put_pdf = Err e -> is_exception e = true ->
                from_data invoice_data c1 c2 c3 layout build put_pdf =
                  Err (HTTPException 500
                         ("Error generating invoice from data: "
                          ++ "Failed to generate or upload PDF: " ++ str e))) /\
  (forall r', autofill invoice_data = Return r' ->
              layout = Ok tt -> build = Ok tt -> put_pdf = Ok tt ->
              from_data invoice_data c1 c2 c3 layout build put_pdf =
                if Main.json_compliant r'
                then Ok (name_invoice c1 c2 c3 r')
                else Err (HTTPException 500
                            ("Error generating invoice from data: "
                             ++ out_of_range_text (fst (name_invoice c1 c2 c3 r'))))) /\
  (exists (r : InvoiceData) (d : string),
      Models.construct_invoice Examples.huge_payload = Return r /\
      from_data r c1 c2 c3 (Ok tt) (Ok tt) (Ok tt) =
        Err (HTTPException 500 ("Error generating invoice from data: " ++ d))).
Proof.
  unfold Main.generate_invoice_from_data_endpoint.
  split; [|split; [|split; [|split]]].
  - intros e H He. unfold try_except in H.
    match type of H with
    | match ?body with _ => _ end = _ => destruct body as [a|e0]; [discriminate H|]
    end.
    cbn in H. destruct (is_exception e0) eqn:E0.
    + injection H as <-. eauto.
    + injection H as <-. congruence.
  - intros e Ha. rewrite Ha, (autofill_raise_inv _ _ Ha). reflexivity.
  - intros r' e Ha -> -> -> He. rewrite Ha. cbn [lift obind].
    unfold Services.generate_invoice_pdf.
    destruct (name_invoice c1 c2 c3 r') as [inv name]. cbn. rewrite He. reflexivity.
  - intros r' Ha -> -> ->. rewrite Ha. cbn [lift obind].
    rewrite generate_invoice_pdf_ok. cbn [obind]. unfold Main.JSONResponse.
    rewrite named_json_compliant.
    destruct (Main.json_compliant r'); reflexivity.
  - eexists. eexists. split; [vm_compute; reflexivity|].
    match goal with
    | |- try_except (obind (lift ?a) _) _ = _ =>
        let v := eval vm_compute in a in change a with v
    end.
    cbn [lift obind]. rewrite generate_invoice_pdf_ok. cbn [obind].
    unfold Main.JSONResponse. rewrite named_json_compliant.
    match goal with
    | |- context [Main.json_compliant ?r] =>
        let v := eval vm_compute in (Main.json_compliant r) in
        change (Main.json_compliant r) with v
    end.
    reflexivity.
Qed.

End Endpoints.
End EndpointFacts.
